(* ===================================================================== *)
(*  REPL;ay: telemetry SDK (repl_ay) and collector API (repl_ay_api)      *)
(*                                                                       *)
(*  A shallow embedding of                                               *)
(*    packages/repl-ay-sdk/src/repl_ay/types.py                          *)
(*    packages/repl-ay-sdk/src/repl_ay/client.py                         *)
(*    packages/repl-ay-sdk/src/repl_ay/decorators.py                     *)
(*    packages/repl-ay-sdk/src/repl_ay/integrations/crewai.py            *)
(*    apps/api/src/repl_ay_api/database.py                               *)
(*    apps/api/src/repl_ay_api/routers/events.py                         *)
(*    apps/api/src/repl_ay_api/routers/traces.py                         *)
(*  and the properties of the buffering client, the instrumentation      *)
(*  hooks, the instrumented Crew.kickoff, the ingestion endpoint and     *)
(*  the trace endpoints.                                                 *)
(* ===================================================================== *)

From Stdlib Require Import ZArith QArith List String Ascii Lia.
From stdpp Require Import gmap strings list pretty.

Set Warnings "-register-all".

Local Open Scope Z_scope.
Local Open Scope string_scope.

(* ===================================================================== *)
(*  Python values and helpers shared by the SDK and the API               *)
(* ===================================================================== *)

Module Py.

(** Free-form JSON data ([Dict[str, Any]] and what it may contain).
    A dict is a finite map from string keys. *)
Inductive json :=
  | JNull
  | JBool (b : bool)
  | JInt (n : Z)
  | JFloat (q : Q)
  | JStr (s : string)
  | JArr (l : list json)
  | JObj (m : gmap string json).

(** A raised exception, as far as the code looks at it: [type(e).__name__],
    [str(e)], the text traceback.format_exc() gives for it, and whether its
    class derives from Exception (KeyboardInterrupt, SystemExit and
    GeneratorExit do not). *)
Record exn := {
  exc_type : string;
  exc_msg : string;
  exc_traceback : string;
  is_Exception : bool;
}.

(** Outcome of a call that may raise. *)
Inductive result (A : Type) :=
  | Return (a : A)
  | Raise (e : exn).
Arguments Return {A} a.
Arguments Raise {A} e.

(** An arbitrary Python object, as far as the SDK looks at it: the name of
    its class, the outcome of [bool(obj)] (which runs the object's own
    [__bool__] or [__len__] and may raise), and its data. *)
Record object := { type_name : string; truth : result bool; data : json }.

(** Truthiness of [Optional[str]]: None and the empty string are falsy. *)
Definition truthy_str (o : option string) : bool :=
  match o with
  | Some s => negb (String.eqb s "")
  | None => false
  end.

(** [a or b] on an optional string with a string fallback *)
Definition or_str (o : option string) (d : string) : string :=
  if truthy_str o then default d o else d.

(** [x or 0] on an optional integer *)
Definition or_zero (o : option Z) : Z :=
  match o with Some z => z | None => 0 end.

(** [s[:n]] *)
Definition prefix (n : nat) (s : string) : string := substring 0 n s.

End Py.

(* ===================================================================== *)
(*  types.py                                                              *)
(* ===================================================================== *)

Module Types.

(** The three phases of a span and the four kinds of unit of work. *)
Inductive Phase := Start | End | Error.
Inductive Unit := Agent | Task | Tool | LLM.

(** class EventType(str, Enum) *)
Inductive EventType :=
  | AGENT_START | AGENT_END | AGENT_ERROR
  | TASK_START | TASK_END | TASK_ERROR
  | TOOL_START | TOOL_END | TOOL_ERROR
  | LLM_START | LLM_END | LLM_ERROR.

Definition EventType_value (t : EventType) : string :=
  match t with
  | AGENT_START => "agent.start" | AGENT_END => "agent.end" | AGENT_ERROR => "agent.error"
  | TASK_START => "task.start" | TASK_END => "task.end" | TASK_ERROR => "task.error"
  | TOOL_START => "tool.start" | TOOL_END => "tool.end" | TOOL_ERROR => "tool.error"
  | LLM_START => "llm.start" | LLM_END => "llm.end" | LLM_ERROR => "llm.error"
  end.

Definition phase (t : EventType) : Phase :=
  match t with
  | AGENT_START | TASK_START | TOOL_START | LLM_START => Start
  | AGENT_END | TASK_END | TOOL_END | LLM_END => End
  | AGENT_ERROR | TASK_ERROR | TOOL_ERROR | LLM_ERROR => Error
  end.

Definition unit_of (t : EventType) : Unit :=
  match t with
  | AGENT_START | AGENT_END | AGENT_ERROR => Agent
  | TASK_START | TASK_END | TASK_ERROR => Task
  | TOOL_START | TOOL_END | TOOL_ERROR => Tool
  | LLM_START | LLM_END | LLM_ERROR => LLM
  end.

Definition all_event_types : list EventType :=
  [AGENT_START; AGENT_END; AGENT_ERROR; TASK_START; TASK_END; TASK_ERROR;
   TOOL_START; TOOL_END; TOOL_ERROR; LLM_START; LLM_END; LLM_ERROR].

(** class TraceContext(BaseModel) *)
Module TraceContext.
Record t := {
    trace_id : string;
    span_id : string;
    parent_span_id : option string;
    session_id : option string;
    user_id : option string;
  }.
End TraceContext.

(** class AgentEvent(BaseEvent); the BaseEvent fields come first.
    Timestamps are clock readings in whole milliseconds. *)
Module AgentEvent.
Record t := {
    event_id : string;
    event_type : EventType;
    timestamp : Z;
    trace_context : TraceContext.t;
    metadata : gmap string Py.json;
    agent_id : string;
    agent_name : string;
    agent_role : option string;
    agent_goal : option string;
    backstory : option string;
    llm_model : option string;
    status : option string;
    error_message : option string;
  }.
End AgentEvent.

(** class TaskEvent(BaseEvent) *)
Module TaskEvent.
Record t := {
    event_id : string;
    event_type : EventType;
    timestamp : Z;
    trace_context : TraceContext.t;
    metadata : gmap string Py.json;
    task_id : string;
    task_name : string;
    task_description : option string;
    agent_id : option string;
    expected_output : option string;
    actual_output : option string;
    tools_used : list string;
    status : option string;
    error_message : option string;
  }.
End TaskEvent.

(** The dict built by trace_tool: key "args" only for a non-empty argument
    tuple, key "kwargs" only for non-empty keyword arguments. *)
Module ToolInput.
Record t := {
    args : option (list Py.object);
    kwargs : option (list (string * Py.object));
  }.
End ToolInput.

(** class ToolEvent(BaseEvent) *)
Module ToolEvent.
Record t := {
    event_id : string;
    event_type : EventType;
    timestamp : Z;
    trace_context : TraceContext.t;
    metadata : gmap string Py.json;
    tool_name : string;
    tool_input : option ToolInput.t;
    tool_output : option Py.object;
    agent_id : option string;
    task_id : option string;
    execution_time_ms : option Z;
    error_message : option string;
  }.
End ToolEvent.

(** class LLMEvent(BaseEvent) *)
Module LLMEvent.
Record t := {
    event_id : string;
    event_type : EventType;
    timestamp : Z;
    trace_context : TraceContext.t;
    metadata : gmap string Py.json;
    model_name : string;
    provider : option string;
    prompt : option string;
    response : option string;
    tokens_used : option Z;
    prompt_tokens : option Z;
    completion_tokens : option Z;
    cost_usd : option Q;
    latency_ms : option Z;
    temperature : option Q;
    max_tokens : option Z;
    agent_id : option string;
    task_id : option string;
    error_message : option string;
  }.
End LLMEvent.

(** TelemetryEvent = Union[AgentEvent, TaskEvent, ToolEvent, LLMEvent] *)
Inductive TelemetryEvent :=
  | OfAgent (e : AgentEvent.t)
  | OfTask (e : TaskEvent.t)
  | OfTool (e : ToolEvent.t)
  | OfLLM (e : LLMEvent.t).

Definition event_type (e : TelemetryEvent) : EventType :=
  match e with
  | OfAgent a => AgentEvent.event_type a
  | OfTask a => TaskEvent.event_type a
  | OfTool a => ToolEvent.event_type a
  | OfLLM a => LLMEvent.event_type a
  end.

Definition event_id (e : TelemetryEvent) : string :=
  match e with
  | OfAgent a => AgentEvent.event_id a
  | OfTask a => TaskEvent.event_id a
  | OfTool a => ToolEvent.event_id a
  | OfLLM a => LLMEvent.event_id a
  end.

Definition trace_context (e : TelemetryEvent) : TraceContext.t :=
  match e with
  | OfAgent a => AgentEvent.trace_context a
  | OfTask a => TaskEvent.trace_context a
  | OfTool a => ToolEvent.trace_context a
  | OfLLM a => LLMEvent.trace_context a
  end.

Definition metadata (e : TelemetryEvent) : gmap string Py.json :=
  match e with
  | OfAgent a => AgentEvent.metadata a
  | OfTask a => TaskEvent.metadata a
  | OfTool a => ToolEvent.metadata a
  | OfLLM a => LLMEvent.metadata a
  end.

Definition error_message (e : TelemetryEvent) : option string :=
  match e with
  | OfAgent a => AgentEvent.error_message a
  | OfTask a => TaskEvent.error_message a
  | OfTool a => ToolEvent.error_message a
  | OfLLM a => LLMEvent.error_message a
  end.

End Types.

Module Http.

(** What an endpoint gives back: its response model, or an HTTPException. *)
Inductive response (A : Type) :=
  | Ok (a : A)
  | HTTPException (status_code : Z) (detail : string).
Arguments Ok {A} a.
Arguments HTTPException {A} status_code detail.

End Http.

(* ===================================================================== *)
(*  Python's printf-style formatting, as database drivers bind parameters *)
(* ===================================================================== *)

Module Percent.
Import Py.

(** [format % mapping] of CPython 3.11 (unicode_format.c), for a format
    string of ASCII characters and a dict whose values are strings.

    The argument a conversion formats: the value found under its
    [%(key)] or, for a conversion without a key, the dict itself. *)
Inductive arg :=
  | Mapping (m : gmap string string)
  | Item (s : string).

(** type(a).__name__ *)
Definition type_name_of (a : arg) : string :=
  match a with Mapping _ => "dict" | Item _ => "str" end.

Definition TypeError (msg : string) : exn :=
  {| exc_type := "TypeError"; exc_msg := msg;
     exc_traceback := "Traceback (most recent call last): ... TypeError";
     is_Exception := true |}.

Definition ValueError (msg : string) : exn :=
  {| exc_type := "ValueError"; exc_msg := msg;
     exc_traceback := "Traceback (most recent call last): ... ValueError";
     is_Exception := true |}.

Definition KeyError (key : string) : exn :=
  {| exc_type := "KeyError"; exc_msg := "'" ++ key ++ "'";
     exc_traceback := "Traceback (most recent call last): ... KeyError";
     is_Exception := true |}.

(** The flag, width and precision of a conversion specifier that act on a
    string argument. *)
Record spec := {
  left_justify : bool;
  width : option Z;
  precision : option Z;
}.

Definition no_spec : spec :=
  {| left_justify := false; width := None; precision := None |}.

(** Where the scan stands inside the format string. *)
Inductive phase :=
  | Text
  | Start
  | InKey (depth : nat) (key : string)
  | Flags
  | Width
  | Dot
  | Precision
  | Length.

(** The scan after one more character: the phase, the argument still to
    be taken, the specifier and the output so far, or an exception. *)
Inductive step :=
  | Next (ph : phase) (avail : option arg) (sp : spec) (out : string)
  | Stop (e : exn).

Definition one (c : ascii) : string := String c EmptyString.

Definition is_digit (c : ascii) : bool :=
  (48 <=? nat_of_ascii c)%nat && (nat_of_ascii c <=? 57)%nat.

Definition digit (c : ascii) : Z := Z.of_nat (nat_of_ascii c) - 48.

Definition among (c : ascii) (s : string) : bool :=
  existsb (Ascii.eqb c) (list_ascii_of_string s).

Fixpoint spaces (n : nat) : string :=
  match n with O => EmptyString | S n' => String " " (spaces n') end.

Definition hex_digit (n : nat) : ascii :=
  if (n <? 10)%nat then ascii_of_nat (48 + n) else ascii_of_nat (87 + n).

(** "%x" of a character code (below 256) *)
Definition hex (n : nat) : string :=
  if (n <? 16)%nat then one (hex_digit n)
  else String (hex_digit (n / 16)) (one (hex_digit (n mod 16))).

(** PY_SSIZE_T_MAX and INT_MAX on a 64-bit build *)
Definition PY_SSIZE_T_MAX : Z := 2 ^ 63 - 1.
Definition INT_MAX : Z := 2 ^ 31 - 1.

Section Format.
(** What str(), repr() and ascii() give (for the conversions s, r and a)
    where it is not spelled out here: for the dict itself, and the repr()
    and ascii() of a string. *)
Context (builtin : ascii -> arg -> string).

(** The text of [a] under a conversion s, r or a *)
Definition text (c : ascii) (a : arg) : string :=
  match a with
  | Item s => if Ascii.eqb c "s" then s else builtin c a
  | Mapping _ => builtin c a
  end.

(** Truncation to the precision (conversions s, r and a only), then
    padding with spaces to the width. *)
Definition pad (sp : spec) (truncate : bool) (s : string) : string :=
  let s := match precision sp with
           | Some p => if truncate then prefix (Z.to_nat p) s else s
           | None => s
           end in
  let fill := spaces (Z.to_nat (default 0 (width sp)) - String.length s) in
  if left_justify sp then s ++ fill else fill ++ s.

(** The conversion character [c] at index [i]: the next argument is taken
    and formatted. *)
Definition convert (avail : option arg) (sp : spec) (out : string) (i : nat) (c : ascii)
    : step :=
  match avail with
  | None => Stop (TypeError "not enough arguments for format string")
  | Some a =>
      if among c "sra" then Next Text None sp (out ++ pad sp true (text c a))
      else if among c "diu" then
        Stop (TypeError ("%" ++ one c ++ " format: a real number is required, not "
                           ++ type_name_of a))
      else if among c "oxX" then
        Stop (TypeError ("%" ++ one c ++ " format: an integer is required, not "
                           ++ type_name_of a))
      else if among c "eEfFgG" then
        Stop (TypeError ("must be real number, not " ++ type_name_of a))
      else if Ascii.eqb c "c" then
        match a with
        | Item (String ch EmptyString) => Next Text None sp (out ++ pad sp false (one ch))
        | _ => Stop (TypeError "%c requires int or char")
        end
      else
        Stop (ValueError
                ("unsupported format character '"
                   ++ one (if (31 <=? nat_of_ascii c)%nat && (nat_of_ascii c <=? 126)%nat
                           then c else "?"%char)
                   ++ "' (0x" ++ hex (nat_of_ascii c) ++ ") at index " ++ pretty i))
  end.

(** [*] as width or precision: the next argument has to be an int, and
    here it never is. *)
Definition star (avail : option arg) : step :=
  match avail with
  | None => Stop (TypeError "not enough arguments for format string")
  | Some _ => Stop (TypeError "* wants int")
  end.

(** An optional length modifier h, l or L, then the conversion. *)
Definition at_length (avail : option arg) (sp : spec) (out : string) (i : nat) (c : ascii)
    : step :=
  if among c "hlL" then Next Length avail sp out else convert avail sp out i c.

(** An optional precision. *)
Definition at_dot (avail : option arg) (sp : spec) (out : string) (i : nat) (c : ascii)
    : step :=
  if Ascii.eqb c "."
  then Next Dot avail {| left_justify := left_justify sp; width := width sp;
                         precision := Some 0 |} out
  else at_length avail sp out i c.

(** An optional width. *)
Definition at_width (avail : option arg) (sp : spec) (out : string) (i : nat) (c : ascii)
    : step :=
  if Ascii.eqb c "*" then star avail
  else if is_digit c
  then Next Width avail {| left_justify := left_justify sp; width := Some (digit c);
                           precision := precision sp |} out
  else at_dot avail sp out i c.

(** Any number of the flags - + space # 0; only - acts on a string. *)
Definition at_flags (avail : option arg) (sp : spec) (out : string) (i : nat) (c : ascii)
    : step :=
  if among c "-+ #0"
  then Next Flags avail
            {| left_justify := left_justify sp || Ascii.eqb c "-"; width := width sp;
               precision := precision sp |} out
  else at_width avail sp out i c.

(** One character of the format string. *)
Definition on_char (mapping : gmap string string) (ph : phase) (avail : option arg)
    (sp : spec) (out : string) (i : nat) (c : ascii) : step :=
  match ph with
  | Text =>
      if Ascii.eqb c "%" then Next Start avail no_spec out
      else Next Text avail sp (out ++ one c)
  | Start =>
      if Ascii.eqb c "%" then Next Text avail sp (out ++ "%")
      else if Ascii.eqb c "(" then Next (InKey 1 "") avail sp out
      else at_flags avail sp out i c
  | InKey depth key =>
      if Ascii.eqb c ")" then
        match depth with
        | 1%nat =>
            match mapping !! key with
            | Some v => Next Flags (Some (Item v)) sp out
            | None => Stop (KeyError key)
            end
        | _ => Next (InKey (Nat.pred depth) (key ++ one c)) avail sp out
        end
      else if Ascii.eqb c "(" then Next (InKey (S depth) (key ++ one c)) avail sp out
      else Next (InKey depth (key ++ one c)) avail sp out
  | Flags => at_flags avail sp out i c
  | Width =>
      if is_digit c then
        let w := default 0 (width sp) in
        if Z.ltb ((PY_SSIZE_T_MAX - digit c) / 10) w then Stop (ValueError "width too big")
        else Next Width avail {| left_justify := left_justify sp;
                                 width := Some (w * 10 + digit c);
                                 precision := precision sp |} out
      else at_dot avail sp out i c
  | Dot =>
      if Ascii.eqb c "*" then star avail
      else if is_digit c
      then Next Precision avail {| left_justify := left_justify sp; width := width sp;
                                   precision := Some (digit c) |} out
      else at_length avail sp out i c
  | Precision =>
      if is_digit c then
        let p := default 0 (precision sp) in
        if Z.ltb ((INT_MAX - digit c) / 10) p then Stop (ValueError "precision too big")
        else Next Precision avail {| left_justify := left_justify sp; width := width sp;
                                     precision := Some (p * 10 + digit c) |} out
      else at_length avail sp out i c
  | Length => convert avail sp out i c
  end.

(** The scan from index [i] on. *)
Fixpoint scan (mapping : gmap string string) (fmt : string) (ph : phase)
    (avail : option arg) (sp : spec) (out : string) (i : nat) : result string :=
  match fmt with
  | EmptyString =>
      match ph with
      | Text => Return out
      | InKey _ _ => Raise (ValueError "incomplete format key")
      | _ => Raise (ValueError "incomplete format")
      end
  | String c rest =>
      match on_char mapping ph avail sp out i c with
      | Next ph avail sp out => scan mapping rest ph avail sp out (S i)
      | Stop e => Raise e
      end
  end.

(** [fmt % mapping] *)
Definition format (fmt : string) (mapping : gmap string string) : result string :=
  scan mapping fmt Text (Some (Mapping mapping)) no_spec "" 0.

End Format.

End Percent.

(* ===================================================================== *)
(*  database.py and routers/traces.py                                     *)
(* ===================================================================== *)

Module Traces.
Import Py Http.

(** class TraceStatus(str, Enum) *)
Inductive TraceStatus := COMPLETED | FAILED | RUNNING | CANCELLED.

Definition TraceStatus_value (s : TraceStatus) : string :=
  match s with
  | COMPLETED => "completed"
  | FAILED => "failed"
  | RUNNING => "running"
  | CANCELLED => "cancelled"
  end.

Definition TraceStatus_members : list TraceStatus := [COMPLETED; FAILED; RUNNING; CANCELLED].

(** [TraceStatus(v)]: the member whose value is [v]; ValueError ([None]) otherwise. *)
Definition TraceStatus_call (v : string) : option TraceStatus :=
  find (fun s => String.eqb (TraceStatus_value s) v) TraceStatus_members.

(** status_value = row["status"]
    if status_value not in [s.value for s in TraceStatus]: status_value = "completed"
    TraceStatus(status_value) *)
Definition to_TraceStatus (status_value : string) : option TraceStatus :=
  let status_value :=
    if existsb (String.eqb status_value) (map TraceStatus_value TraceStatus_members)
    then status_value else TraceStatus_value COMPLETED in
  TraceStatus_call status_value.

(** ** What the database client returns

    The rows of a result are read by column name. Each query is given the
    rows of its SELECT list, typed as the response models read them;
    timestamps are points on an integer time line. The store computes
    costs on Float64 and Python rounds them as floats: the type [float]
    and the three operations used on it are taken as parameters. *)

Record float_ops (float : Type) := {
  round_ : float -> Z -> float;
  float_bool : float -> bool;
  float_of_int : Z -> float;
}.
Arguments round_ {float} _ _ _.
Arguments float_bool {float} _ _.
Arguments float_of_int {float} _ _.

(** A row of the /recent query *)
Module RecentRow.
Record t {float : Type} := {
    trace_id : string;
    session_name : option string;
    start_time : Z;
    duration_ms : Z;
    status : string;
    agents_count : Z;
    tasks_count : Z;
    total_tokens : option Z;
    total_cost : option float;
    env : option string;
  }.
Arguments t : clear implicits.
End RecentRow.

(** A row of the summary query of /{trace_id} *)
Module SummaryRow.
Record t {float : Type} := {
    trace_id : string;
    session_name : option string;
    start_time : Z;
    end_time : Z;
    duration_ms : Z;
    status : string;
    environment : option string;
    total_cost : option float;
    total_tokens : option Z;
    agents_count : Z;
    tasks_count : Z;
  }.
Arguments t : clear implicits.
End SummaryRow.

(** A row of the timeline query of /{trace_id} *)
Module TimelineRow.
Record t {float : Type} := {
    timestamp : Z;
    event_type : option string;
    agent_id : option string;
    agent_name : option string;
    task_id : option string;
    task_name : option string;
    tool_name : option string;
    model_name : option string;
    tokens_used : option Z;
    cost_usd : option float;
    latency_ms : option Z;
    execution_time_ms : option Z;
    status : option string;
    error_message : option string;
    raw_data : json;
  }.
Arguments t : clear implicits.
End TimelineRow.

(** The three SELECT lists of the two endpoints. *)
Inductive selection := Recent | Summary | Timeline.

Definition row (float : Type) (s : selection) : Type :=
  match s with
  | Recent => RecentRow.t float
  | Summary => SummaryRow.t float
  | Timeline => TimelineRow.t float
  end.

(** A value of the parameter dict passed beside a query. *)
Inductive param :=
  | PStr (s : string)
  | PInt (n : Z).

(** The database client an endpoint is given (Depends(get_clickhouse_client)):
    [await clickhouse.execute(query, params)] returns rows or raises. *)
Record client (float : Type) := {
  execute : forall s : selection, string -> gmap string param -> result (list (row float s));
}.
Arguments execute {float} _ _ _ _.

(** class MockClickHouseClient (database.py): execute logs the query and
    returns the empty list. *)
Definition MockClickHouseClient (float : Type) : client float :=
  {| execute := fun _ _ _ => Return [] |}.

(** async def get_clickhouse_client(): the only client database.py has. *)
Definition get_clickhouse_client (float : Type) : client float :=
  MockClickHouseClient float.

(** A client that binds the parameters the way the [%(name)s] placeholders
    of the queries ask for (pyformat: the driver quotes each value and
    evaluates [query % quoted]) and sends the text to a server. The
    quoting and the server are arbitrary. *)
Definition pyformat_client {float : Type} (builtin : ascii -> Percent.arg -> string)
    (quote : param -> string)
    (server : forall s : selection, string -> result (list (row float s)))
    : client float :=
  {| execute := fun s query params =>
       match Percent.format builtin query (quote <$> params) with
       | Return sql => server s sql
       | Raise e => Raise e
       end |}.

(** [clickhouse] binds by pyformat. *)
Definition binds_by_pyformat {float : Type} (clickhouse : client float) : Prop :=
  exists builtin quote server, clickhouse = pyformat_client builtin quote server.

(** ** Response models *)

Module TraceListItem.
Record t {float : Type} := {
    id : string;
    name : string;
    start_time : Z;
    duration : Z;
    status : TraceStatus;
    agents : Z;
    tasks : Z;
    tokens : Z;
    cost : float;
    environment : string;
  }.
Arguments t : clear implicits.
End TraceListItem.

(** An entry of TraceDetail.timeline (a dict) *)
Module TimelineItem.
Record t := {
    timestamp : Z;
    type : option string;
    agent_id : option string;
    agent_name : option string;
    task_id : option string;
    task_name : option string;
    tool_name : option string;
    duration_ms : option Z;
    status : option string;
    error : option string;
    metadata : json;
  }.
End TimelineItem.

Module LLMCall.
Record t {float : Type} := {
    timestamp : Z;
    agent_id : string;
    model_name : string;
    prompt_tokens : Z;
    completion_tokens : Z;
    cost : float;
    latency_ms : Z;
    prompt : string;
    response : string;
  }.
Arguments t : clear implicits.
End LLMCall.

(** class TraceDetail(BaseModel); agent_communications and metadata are
    always empty. *)
Module TraceDetail.
Record t {float : Type} := {
    id : string;
    name : string;
    start_time : Z;
    end_time : option Z;
    duration : option Z;
    status : TraceStatus;
    environment : string;
    total_cost : float;
    total_tokens : Z;
    agents_count : Z;
    tasks_count : Z;
    timeline : list TimelineItem.t;
    llm_calls : list (LLMCall.t float);
  }.
Arguments t : clear implicits.
End TraceDetail.

(** ** The query texts *)

(** The f-string of get_recent_traces before and after {where_clause}. *)
Definition recent_query_head : string :=
  "
        SELECT 
            trace_id,
            any(session_id) as session_name,
            min(timestamp) as start_time,
            max(timestamp) - min(timestamp) as duration_ms,
            CASE 
                WHEN countIf(event_type LIKE '%.error') > 0 THEN 'failed'
                WHEN countIf(event_type LIKE '%.start') > countIf(event_type LIKE '%.end') THEN 'running'
                ELSE 'completed'
            END as status,
            uniq(agent_id) as agents_count,
            uniq(task_id) as tasks_count,
            sum(tokens_used) as total_tokens,
            sum(cost_usd) as total_cost,
            any(environment) as env
        FROM telemetry_events
        WHERE ".

Definition recent_query_tail : string :=
  "
        GROUP BY trace_id
        ORDER BY start_time DESC
        LIMIT %(limit)s OFFSET %(offset)s
        ".

Definition summary_query : string :=
  "
        SELECT 
            trace_id,
            any(session_id) as session_name,
            min(timestamp) as start_time,
            max(timestamp) as end_time,
            max(timestamp) - min(timestamp) as duration_ms,
            CASE 
                WHEN countIf(event_type LIKE '%.error') > 0 THEN 'failed'
                WHEN countIf(event_type LIKE '%.start') > countIf(event_type LIKE '%.end') THEN 'running'
                ELSE 'completed'
            END as status,
            any(environment) as environment,
            sum(cost_usd) as total_cost,
            sum(tokens_used) as total_tokens,
            uniq(agent_id) as agents_count,
            uniq(task_id) as tasks_count
        FROM telemetry_events
        WHERE project_id = %(project_id)s AND trace_id = %(trace_id)s
        GROUP BY trace_id
        ".

Definition timeline_query : string :=
  "
        SELECT 
            timestamp,
            event_type,
            agent_id,
            agent_name,
            task_id,
            task_name,
            tool_name,
            model_name,
            tokens_used,
            cost_usd,
            latency_ms,
            execution_time_ms,
            status,
            error_message,
            raw_data
        FROM telemetry_events
        WHERE project_id = %(project_id)s AND trace_id = %(trace_id)s
        ORDER BY timestamp ASC
        ".

(** ** The endpoints *)

Section Endpoints.
Context {float : Type} (ops : float_ops float) (clickhouse : client float).

(** [x or 0] on a cost *)
Definition cost_or_zero (x : option float) : float :=
  match x with
  | Some c => if float_bool ops c then c else float_of_int ops 0
  | None => float_of_int ops 0
  end.

(** [round(x or 0, 2)]; round(0, 2) is the int 0 *)
Definition round_cost (x : option float) : float :=
  match x with
  | Some c => if float_bool ops c then round_ ops c 2 else float_of_int ops 0
  | None => float_of_int ops 0
  end.

(** [except Exception as e:] the error is logged and becomes HTTP 500; an
    exception outside Exception leaves the handler. *)
Definition on_exception {A} (detail : string) (e : exn) : result (response A) :=
  if is_Exception e then Return (HTTPException 500 detail) else Raise e.

(** *** GET /recent *)

(** TraceListItem(...) of one row; [None] when TraceStatus() raises. *)
Definition recent_item (r : RecentRow.t float) : option (TraceListItem.t float) :=
  st ← to_TraceStatus (RecentRow.status r);
  Some {| TraceListItem.id := RecentRow.trace_id r;
          TraceListItem.name :=
            or_str (RecentRow.session_name r) ("Trace " ++ prefix 8 (RecentRow.trace_id r));
          TraceListItem.start_time := RecentRow.start_time r;
          TraceListItem.duration := RecentRow.duration_ms r;
          TraceListItem.status := st;
          TraceListItem.agents := RecentRow.agents_count r;
          TraceListItem.tasks := RecentRow.tasks_count r;
          TraceListItem.tokens := or_zero (RecentRow.total_tokens r);
          TraceListItem.cost := round_cost (RecentRow.total_cost r);
          TraceListItem.environment := or_str (RecentRow.env r) "unknown" |}.

(** where_conditions, extended only for a truthy [environment] *)
Definition where_conditions (environment : option string) : list string :=
  if truthy_str environment
  then ["project_id = %(project_id)s"; "environment = %(environment)s"]
  else ["project_id = %(project_id)s"].

Definition recent_query (environment : option string) : string :=
  recent_query_head ++ String.concat " AND " (where_conditions environment)
    ++ recent_query_tail.

Definition recent_params (project_id : string) (limit offset : Z)
    (environment : option string) : gmap string param :=
  let params : gmap string param := {[ "project_id" := PStr project_id ]} in
  let params :=
    if truthy_str environment
    then <["environment" := PStr (default "" environment)]> params
    else params in
  <["limit" := PInt limit]> (<["offset" := PInt offset]> params).

(** async def get_recent_traces(project_id, limit, offset, environment,
    api_key, clickhouse) *)
Definition get_recent_traces (project_id : string) (limit offset : Z)
    (environment : option string) : result (response (list (TraceListItem.t float))) :=
  match execute clickhouse Recent (recent_query environment)
                (recent_params project_id limit offset environment) with
  | Raise e => on_exception "Failed to fetch recent traces" e
  | Return rows =>
      match mapM recent_item rows with
      | Some traces => Return (Ok traces)
      | None => Return (HTTPException 500 "Failed to fetch recent traces")
      end
  end.

(** *** GET /{trace_id} *)

(** [a or b] on two optional integers: [a] when it is neither None nor 0 *)
Definition or_int (a b : option Z) : option Z :=
  match a with
  | Some z => if Z.eqb z 0 then b else a
  | None => b
  end.

Definition timeline_item (event : TimelineRow.t float) : TimelineItem.t :=
  {| TimelineItem.timestamp := TimelineRow.timestamp event;
     TimelineItem.type := TimelineRow.event_type event;
     TimelineItem.agent_id := TimelineRow.agent_id event;
     TimelineItem.agent_name := TimelineRow.agent_name event;
     TimelineItem.task_id := TimelineRow.task_id event;
     TimelineItem.task_name := TimelineRow.task_name event;
     TimelineItem.tool_name := TimelineRow.tool_name event;
     TimelineItem.duration_ms :=
       or_int (TimelineRow.execution_time_ms event) (TimelineRow.latency_ms event);
     TimelineItem.status := TimelineRow.status event;
     TimelineItem.error := TimelineRow.error_message event;
     TimelineItem.metadata := TimelineRow.raw_data event |}.

(** event["event_type"] in ["llm.start", "llm.end"] and event["model_name"] *)
Definition is_llm_call (event : TimelineRow.t float) : bool :=
  match TimelineRow.event_type event with
  | Some t =>
      (String.eqb t "llm.start" || String.eqb t "llm.end")
      && truthy_str (TimelineRow.model_name event)
  | None => false
  end.

Definition llm_call (event : TimelineRow.t float) : LLMCall.t float :=
  {| LLMCall.timestamp := TimelineRow.timestamp event;
     LLMCall.agent_id := or_str (TimelineRow.agent_id event) "unknown";
     LLMCall.model_name := default "" (TimelineRow.model_name event);
     LLMCall.prompt_tokens := 0;
     LLMCall.completion_tokens := or_zero (TimelineRow.tokens_used event);
     LLMCall.cost := cost_or_zero (TimelineRow.cost_usd event);
     LLMCall.latency_ms := or_zero (TimelineRow.latency_ms event);
     LLMCall.prompt := "";
     LLMCall.response := "" |}.

Definition detail_params (trace_id project_id : string) : gmap string param :=
  {[ "project_id" := PStr project_id; "trace_id" := PStr trace_id ]}.

(** async def get_trace_detail(trace_id, project_id, api_key, clickhouse):
    the HTTPException of the body (404) is raised again as it is. *)
Definition get_trace_detail (trace_id project_id : string)
    : result (response (TraceDetail.t float)) :=
  match execute clickhouse Summary summary_query (detail_params trace_id project_id) with
  | Raise e => on_exception "Failed to fetch trace details" e
  | Return [] => Return (HTTPException 404 "Trace not found")
  | Return (trace_summary :: _) =>
      match execute clickhouse Timeline timeline_query
                    (detail_params trace_id project_id) with
      | Raise e => on_exception "Failed to fetch trace details" e
      | Return timeline_result =>
          match to_TraceStatus (SummaryRow.status trace_summary) with
          | None => Return (HTTPException 500 "Failed to fetch trace details")
          | Some st =>
              Return (Ok {|
                TraceDetail.id := trace_id;
                TraceDetail.name :=
                  or_str (SummaryRow.session_name trace_summary)
                         ("Trace " ++ prefix 8 trace_id);
                TraceDetail.start_time := SummaryRow.start_time trace_summary;
                TraceDetail.end_time := Some (SummaryRow.end_time trace_summary);
                TraceDetail.duration := Some (SummaryRow.duration_ms trace_summary);
                TraceDetail.status := st;
                TraceDetail.environment :=
                  or_str (SummaryRow.environment trace_summary) "unknown";
                TraceDetail.total_cost := round_cost (SummaryRow.total_cost trace_summary);
                TraceDetail.total_tokens :=
                  or_zero (SummaryRow.total_tokens trace_summary);
                TraceDetail.agents_count := SummaryRow.agents_count trace_summary;
                TraceDetail.tasks_count := SummaryRow.tasks_count trace_summary;
                TraceDetail.timeline := map timeline_item timeline_result;
                TraceDetail.llm_calls :=
                  map llm_call (List.filter is_llm_call timeline_result) |})
          end
      end
  end.

End Endpoints.

End Traces.

(* ===================================================================== *)
(*  routers/traces.py: servers and requests to run the endpoints on       *)
(* ===================================================================== *)

Module Servers.
Import Py Http Traces.

(** A float type with a single value, for runs in which no cost is read. *)
Definition no_costs : float_ops unit :=
  {| round_ := fun x _ => x; float_bool := fun _ => false; float_of_int := fun _ => tt |}.

(** str(), repr() and ascii() where the formatting does not spell them out:
    never reached by the queries below. *)
Definition no_builtin : ascii -> Percent.arg -> string := fun _ _ => "".

(** The quoting of a driver: a string between single quotes, an int in
    decimal. *)
Definition quote (p : param) : string :=
  match p with
  | PStr s => "'" ++ s ++ "'"
  | PInt n => pretty n
  end.

(** What the store holds for the trace "t" of project "p" with the events
    {agent.start, tool.start, tool.end, agent.end} stamped 2, 7, 9 and 12:
    the row ClickHouse computes for either summary. *)
Definition summary_of_t : SummaryRow.t unit :=
  {| SummaryRow.trace_id := "t"; SummaryRow.session_name := None;
     SummaryRow.start_time := 2; SummaryRow.end_time := 12;
     SummaryRow.duration_ms := 10; SummaryRow.status := "completed";
     SummaryRow.environment := None; SummaryRow.total_cost := None;
     SummaryRow.total_tokens := None; SummaryRow.agents_count := 0;
     SummaryRow.tasks_count := 0 |}.

Definition recent_of_t : RecentRow.t unit :=
  {| RecentRow.trace_id := "t"; RecentRow.session_name := None;
     RecentRow.start_time := 2; RecentRow.duration_ms := 10;
     RecentRow.status := "completed"; RecentRow.agents_count := 0;
     RecentRow.tasks_count := 0; RecentRow.total_tokens := None;
     RecentRow.total_cost := None; RecentRow.env := None |}.

(** A server that answers every query it receives with those rows. *)
Definition server_of_t (s : selection) (sql : string) : result (list (row unit s)) :=
  match s with
  | Recent => Return [recent_of_t]
  | Summary => Return [summary_of_t]
  | Timeline => Return []
  end.

(** The driver in front of that server. *)
Definition driver_of_t : client unit := pyformat_client no_builtin quote server_of_t.

(** The detail the endpoint would build from the rows of that server. *)
Definition detail_of_t : TraceDetail.t unit :=
  {| TraceDetail.id := "t"; TraceDetail.name := "Trace t";
     TraceDetail.start_time := 2; TraceDetail.end_time := Some 12;
     TraceDetail.duration := Some 10; TraceDetail.status := COMPLETED;
     TraceDetail.environment := "unknown"; TraceDetail.total_cost := tt;
     TraceDetail.total_tokens := 0; TraceDetail.agents_count := 0;
     TraceDetail.tasks_count := 0; TraceDetail.timeline := [];
     TraceDetail.llm_calls := [] |}.

End Servers.

(* ===================================================================== *)
(*  client.py                                                             *)
(* ===================================================================== *)

Module Client.
Import Py Types.

(** Instance attributes of a ReplAyClient object. [_event_buffer] is the
    address of the list object the attribute is bound to; the HTTP client
    and the OpenTelemetry tracer are left out. *)
Module Attrs.
Record t := {
  api_key : string;
  project_id : option string;
  base_url : string;
  environment : string;
  batch_size : Z;
  flush_interval_seconds : Z;
  debug : bool;
  _session_id : string;
  _event_buffer : nat;
  _last_flush : Z;
}.
End Attrs.

(** A scheduled coroutine [self._send_events_async(events)]: the client it
    is bound to and the address of the list object passed as [events]. *)
Record task := { task_self : nat; task_events : nat }.

(** The state of the instrumented process.
    - [clock]: the reading of time.time(), in whole milliseconds;
    - [uuid_src], [uuid_next]: the stream uuid.uuid4() draws from;
    - [event_loop]: whether the calling thread has an event loop, so that
      asyncio.get_event_loop() returns it and loop.create_task(..)
      schedules the coroutine; without one get_event_loop() raises
      RuntimeError;
    - [lists]: the list objects, by address;
    - [clients]: the ReplAyClient objects, by address;
    - [_global_client]: the module variable of client.py;
    - [tasks]: the coroutines scheduled so far, oldest first;
    - [stdout]: the lines printed so far. *)
Record world := {
  clock : Z;
  uuid_src : nat -> string;
  uuid_next : nat;
  event_loop : bool;
  lists : gmap nat (list TelemetryEvent);
  clients : gmap nat Attrs.t;
  _global_client : option nat;
  tasks : list task;
  stdout : list string;
}.

Definition set_clock (t : Z) (w : world) : world :=
  {| clock := t; uuid_src := uuid_src w; uuid_next := uuid_next w;
     event_loop := event_loop w; lists := lists w; clients := clients w;
     _global_client := _global_client w; tasks := tasks w; stdout := stdout w |}.

Definition set_uuid_next (n : nat) (w : world) : world :=
  {| clock := clock w; uuid_src := uuid_src w; uuid_next := n;
     event_loop := event_loop w; lists := lists w; clients := clients w;
     _global_client := _global_client w; tasks := tasks w; stdout := stdout w |}.

Definition set_lists (h : gmap nat (list TelemetryEvent)) (w : world) : world :=
  {| clock := clock w; uuid_src := uuid_src w; uuid_next := uuid_next w;
     event_loop := event_loop w; lists := h; clients := clients w;
     _global_client := _global_client w; tasks := tasks w; stdout := stdout w |}.

Definition set_clients (h : gmap nat Attrs.t) (w : world) : world :=
  {| clock := clock w; uuid_src := uuid_src w; uuid_next := uuid_next w;
     event_loop := event_loop w; lists := lists w; clients := h;
     _global_client := _global_client w; tasks := tasks w; stdout := stdout w |}.

Definition set_global_client (g : option nat) (w : world) : world :=
  {| clock := clock w; uuid_src := uuid_src w; uuid_next := uuid_next w;
     event_loop := event_loop w; lists := lists w; clients := clients w;
     _global_client := g; tasks := tasks w; stdout := stdout w |}.

Definition set_tasks (ts : list task) (w : world) : world :=
  {| clock := clock w; uuid_src := uuid_src w; uuid_next := uuid_next w;
     event_loop := event_loop w; lists := lists w; clients := clients w;
     _global_client := _global_client w; tasks := ts; stdout := stdout w |}.

Definition set_stdout (out : list string) (w : world) : world :=
  {| clock := clock w; uuid_src := uuid_src w; uuid_next := uuid_next w;
     event_loop := event_loop w; lists := lists w; clients := clients w;
     _global_client := _global_client w; tasks := tasks w; stdout := out |}.

(** print(line) *)
Definition print (line : string) (w : world) : world :=
  set_stdout (stdout w ++ [line])%list w.

(** str(uuid.uuid4()) *)
Definition uuid4 (w : world) : string * world :=
  (uuid_src w (uuid_next w), set_uuid_next (S (uuid_next w)) w).

(** ** List objects *)

(** the contents of the list at address [a] *)
Definition list_get (a : nat) (w : world) : list TelemetryEvent :=
  default [] (lists w !! a).

(** a new list object holding [l] *)
Definition list_new (l : list TelemetryEvent) (w : world) : nat * world :=
  let a := fresh (dom (lists w)) in
  (a, set_lists (<[a := l]> (lists w)) w).

(** lst.append(x) *)
Definition list_append (a : nat) (x : TelemetryEvent) (w : world) : world :=
  set_lists (<[a := (list_get a w ++ [x])%list]> (lists w)) w.

(** lst[:] *)
Definition list_copy (a : nat) (w : world) : nat * world :=
  list_new (list_get a w) w.

(** lst.clear() *)
Definition list_clear (a : nat) (w : world) : world :=
  set_lists (<[a := []]> (lists w)) w.

(** s.rstrip(ch) *)
Fixpoint rstrip (ch : ascii) (s : string) : string :=
  match s with
  | EmptyString => EmptyString
  | String c s' =>
      match rstrip ch s' with
      | EmptyString => if Ascii.eqb c ch then EmptyString else String c EmptyString
      | r => String c r
      end
  end.

(** ** class ReplAyClient *)

Module ReplAyClient.

(** Keyword arguments of the constructor; [None] leaves the default. *)
Record kwargs := {
  kw_base_url : option string;
  kw_environment : option string;
  kw_batch_size : option Z;
  kw_flush_interval_seconds : option Z;
  kw_debug : option bool;
}.

Definition no_kwargs : kwargs :=
  {| kw_base_url := None; kw_environment := None; kw_batch_size := None;
     kw_flush_interval_seconds := None; kw_debug := None |}.

(** ReplAyClient(api_key, project_id, **kwargs): the address of the new object *)
Definition __init__ (api_key : string) (project_id : option string) (kw : kwargs)
    (w : world) : nat * world :=
  let '(sid, w) := uuid4 w in
  let '(buf, w) := list_new [] w in
  let attrs :=
    {| Attrs.api_key := api_key;
       Attrs.project_id := project_id;
       Attrs.base_url := rstrip "/" (default "https://api.repl-ay.dev" (kw_base_url kw));
       Attrs.environment := default "production" (kw_environment kw);
       Attrs.batch_size := default 100 (kw_batch_size kw);
       Attrs.flush_interval_seconds := default 30 (kw_flush_interval_seconds kw);
       Attrs.debug := default false (kw_debug kw);
       Attrs._session_id := sid;
       Attrs._event_buffer := buf;
       Attrs._last_flush := clock w |} in
  let self := fresh (dom (clients w)) in
  (self, set_clients (<[self := attrs]> (clients w)) w).

(** self._last_flush = t *)
Definition set_last_flush (t : Z) (c : Attrs.t) : Attrs.t :=
  {| Attrs.api_key := Attrs.api_key c;
     Attrs.project_id := Attrs.project_id c;
     Attrs.base_url := Attrs.base_url c;
     Attrs.environment := Attrs.environment c;
     Attrs.batch_size := Attrs.batch_size c;
     Attrs.flush_interval_seconds := Attrs.flush_interval_seconds c;
     Attrs.debug := Attrs.debug c;
     Attrs._session_id := Attrs._session_id c;
     Attrs._event_buffer := Attrs._event_buffer c;
     Attrs._last_flush := t |}.

(** def create_trace_context(self, trace_id=None, parent_span_id=None) *)
Definition create_trace_context (self : nat) (trace_id parent_span_id : option string)
    (w : world) : TraceContext.t * world :=
  let '(tid, w) :=
    if truthy_str trace_id then (default "" trace_id, w) else uuid4 w in
  let '(sid, w) := uuid4 w in
  ({| TraceContext.trace_id := tid;
      TraceContext.span_id := sid;
      TraceContext.parent_span_id := parent_span_id;
      TraceContext.session_id := Attrs._session_id <$> (clients w !! self);
      TraceContext.user_id := None |}, w).

(** loop.create_task(self._send_events_async(events)): the coroutine is
    scheduled on the loop, which runs it later. *)
Definition create_task (self events : nat) (w : world) : world :=
  set_tasks (tasks w ++ [{| task_self := self; task_events := events |}])%list w.

(** What asyncio.create_task(coro) raises in a thread without a running
    event loop. *)
Definition no_running_loop : exn :=
  {| exc_type := "RuntimeError"; exc_msg := "no running event loop";
     exc_traceback := "Traceback (most recent call last): ... RuntimeError";
     is_Exception := true |}.

(** def _flush_events(self). In the [except RuntimeError:] branch no event
    loop is at hand; asyncio.create_task needs a running one and raises
    RuntimeError, which leaves the method. *)
Definition _flush_events (self : nat) (w : world) : result unit * world :=
  match clients w !! self with
  | None => (Return tt, w)
  | Some c =>
      match list_get (Attrs._event_buffer c) w with
      | [] => (Return tt, w)
      | _ :: _ =>
          let '(events_to_send, w) := list_copy (Attrs._event_buffer c) w in
          let w := list_clear (Attrs._event_buffer c) w in
          let w := set_clients (<[self := set_last_flush (clock w) c]> (clients w)) w in
          if event_loop w
          then (Return tt, create_task self events_to_send w)
          else (Raise no_running_loop, w)
      end
  end.

(** The auto-flush test of track_event:
      len(self._event_buffer) >= self.batch_size or
      time.time() - self._last_flush >= self.flush_interval_seconds
    with the clock in milliseconds. *)
Definition flush_due (c : Attrs.t) (w : world) : bool :=
  (Z.of_nat (length (list_get (Attrs._event_buffer c) w)) >=? Attrs.batch_size c)
  || (clock w - Attrs._last_flush c >=? 1000 * Attrs.flush_interval_seconds c).

(** The first two statements of track_event: the append and the debug print. *)
Definition appended (c : Attrs.t) (event : TelemetryEvent) (w : world) : world :=
  let w := list_append (Attrs._event_buffer c) event w in
  if Attrs.debug c
  then print ("[REPL;ay] Tracked event: " ++ EventType_value (event_type event)) w
  else w.

(** def track_event(self, event) *)
Definition track_event (self : nat) (event : TelemetryEvent) (w : world)
    : result unit * world :=
  match clients w !! self with
  | None => (Return tt, w)
  | Some c =>
      let w := appended c event w in
      if flush_due c w then _flush_events self w else (Return tt, w)
  end.

(** def flush(self) *)
Definition flush (self : nat) (w : world) : result unit * world :=
  _flush_events self w.

(** def close(self): flush, then time.sleep(0.1) *)
Definition close (self : nat) (w : world) : result unit * world :=
  match flush self w with
  | (Return _, w) => (Return tt, set_clock (clock w + 100) w)
  | (Raise e, w) => (Raise e, w)
  end.

(** The request body _send_events_async builds when the coroutine runs. *)
Record payload := {
  p_events : list TelemetryEvent;
  p_session_id : string;
  p_project_id : option string;
  p_environment : string;
  p_timestamp : Z;
}.

Definition _send_events_async (self events : nat) (w : world) : option payload :=
  c ← clients w !! self;
  Some {| p_events := list_get events w;
          p_session_id := Attrs._session_id c;
          p_project_id := Attrs.project_id c;
          p_environment := Attrs.environment c;
          p_timestamp := clock w |}.

End ReplAyClient.

(** ** Reachable process states *)

(** Every client's buffer is an allocated list object, and so is the
    argument of every scheduled coroutine, which is never a client's buffer
    itself. The constructor and the methods keep this. *)
Definition wf (w : world) : Prop :=
  (∀ s c, clients w !! s = Some c → Attrs._event_buffer c ∈ dom (lists w)) ∧
  (∀ t, t ∈ tasks w → task_events t ∈ dom (lists w)) ∧
  (∀ s c t, clients w !! s = Some c → t ∈ tasks w →
            task_events t ≠ Attrs._event_buffer c).

(** The events still queued in a client. *)
Definition buffered (self : nat) (w : world) : list TelemetryEvent :=
  match clients w !! self with
  | Some c => list_get (Attrs._event_buffer c) w
  | None => []
  end.

(** The batch a scheduled coroutine will transmit when it runs in [w]. *)
Definition batch (t : task) (w : world) : list TelemetryEvent :=
  list_get (task_events t) w.

(** All events handed to transmission so far, oldest batch first. *)
Definition handed_over (w : world) : list TelemetryEvent :=
  concat (map (fun t => batch t w) (tasks w)).

(** What the instrumented program may do to a client between two points. *)
Inductive op :=
| Track (self : nat) (event : TelemetryEvent)
| Flush (self : nat)
| Sleep (ms : Z).

(** The state after an operation, whether it returned or raised. *)
Definition run_op (o : op) (w : world) : world :=
  match o with
  | Track self event => snd (ReplAyClient.track_event self event w)
  | Flush self => snd (ReplAyClient.flush self w)
  | Sleep ms => set_clock (clock w + ms) w
  end.

Definition run_ops (os : list op) (w : world) : world :=
  fold_left (fun w o => run_op o w) os w.

(** The events recorded by a run of operations, in recording order. *)
Definition tracked (os : list op) : list TelemetryEvent :=
  flat_map (fun o => match o with Track _ event => [event] | _ => [] end) os.

(** All operations of the run address the client [self]. *)
Definition only_on (self : nat) (os : list op) : Prop :=
  Forall (fun o => match o with
                   | Track s _ | Flush s => s = self
                   | Sleep _ => True
                   end) os.

(** def initialize(api_key, project_id=None, **kwargs) *)
Definition initialize (api_key : string) (project_id : option string)
    (kw : ReplAyClient.kwargs) (w : world) : nat * world :=
  let '(c, w) := ReplAyClient.__init__ api_key project_id kw w in
  (c, set_global_client (Some c) w).

(** def get_client() *)
Definition get_client (w : world) : option nat := _global_client w.

(** def track_event(event), at module level. A ReplAyClient object is always
    truthy: the class defines neither __bool__ nor __len__. *)
Definition track_event (event : TelemetryEvent) (w : world) : result unit * world :=
  match get_client w with
  | Some client => ReplAyClient.track_event client event w
  | None =>
      (Return tt,
       if truthy_str (TraceContext.session_id (trace_context event))
       then print ("[REPL;ay] No client initialized. Event: "
                     ++ EventType_value (event_type event)) w
       else w)
  end.

(** ** A process to run the examples in *)

(** The process before the SDK is used: nothing allocated, an event loop
    at hand, UUIDs numbered in generation order. *)
Definition boot : world :=
  {| clock := 0; uuid_src := fun n => "uuid-" ++ pretty n; uuid_next := 0;
     event_loop := true; lists := ∅; clients := ∅; _global_client := None;
     tasks := []; stdout := [] |}.

(** An agent event with the given id and type, no session, no metadata. *)
Definition sample_event (id : string) (ty : EventType) : TelemetryEvent :=
  OfAgent {| AgentEvent.event_id := id;
             AgentEvent.event_type := ty;
             AgentEvent.timestamp := 0;
             AgentEvent.trace_context :=
               {| TraceContext.trace_id := "trace"; TraceContext.span_id := id;
                  TraceContext.parent_span_id := None; TraceContext.session_id := None;
                  TraceContext.user_id := None |};
             AgentEvent.metadata := ∅;
             AgentEvent.agent_id := "agent";
             AgentEvent.agent_name := "agent";
             AgentEvent.agent_role := None;
             AgentEvent.agent_goal := None;
             AgentEvent.backstory := None;
             AgentEvent.llm_model := None;
             AgentEvent.status := None;
             AgentEvent.error_message := None |}.

(** initialize("key", batch_size=n) in the fresh process *)
Definition started (n : Z) : nat * world :=
  initialize "key" None
    {| ReplAyClient.kw_base_url := None; ReplAyClient.kw_environment := None;
       ReplAyClient.kw_batch_size := Some n;
       ReplAyClient.kw_flush_interval_seconds := None;
       ReplAyClient.kw_debug := None |} boot.

(** The attributes of the client [started n] creates. *)
Definition started_attrs (n : Z) : Attrs.t :=
  {| Attrs.api_key := "key"; Attrs.project_id := None;
     Attrs.base_url := "https://api.repl-ay.dev"; Attrs.environment := "production";
     Attrs.batch_size := n; Attrs.flush_interval_seconds := 30; Attrs.debug := false;
     Attrs._session_id := "uuid-0"; Attrs._event_buffer := 0%nat;
     Attrs._last_flush := 0 |}.

(** The client of [started 3] (at address 0) after recording two events. *)
Definition two_queued : world :=
  run_ops [Track 0 (sample_event "a" AGENT_START); Track 0 (sample_event "b" AGENT_END)]
          (snd (started 3)).

(** The same state in a thread that has no event loop. *)
Definition two_queued_no_loop : world :=
  {| clock := clock two_queued; uuid_src := uuid_src two_queued;
     uuid_next := uuid_next two_queued; event_loop := false;
     lists := lists two_queued; clients := clients two_queued;
     _global_client := _global_client two_queued; tasks := tasks two_queued;
     stdout := stdout two_queued |}.

End Client.

(* ===================================================================== *)
(*  decorators.py                                                         *)
(* ===================================================================== *)

Module Decorators.
Import Py Types Client.

(** A decorated callable: its [__name__] and what a call does. A call runs
    in the process state (it may record events of its own, or let time
    pass) and returns an object or raises. *)
Definition result_of_call : Type := result object * world.

Record function := {
  __name__ : string;
  call : list object -> list (string * object) -> world -> result_of_call;
}.

(** uuid.uuid4().hex: the UUID without its dashes *)
Fixpoint hex (s : string) : string :=
  match s with
  | EmptyString => EmptyString
  | String c s' => if Ascii.eqb c "-" then hex s' else String c (hex s')
  end.

(** int((time.time() - start_time) * 1000) *)
Definition elapsed_ms (start_time : Z) (w : world) : Z := clock w - start_time.

(** What a wrapper keeps in its local variables between the start event
    and the end of the call. *)
Record span := {
  sp_client : nat;
  sp_trace_context : TraceContext.t;
  sp_id : string;
  sp_name : string;
  sp_input : ToolInput.t;
  sp_start_time : Z;
}.

(** ** trace_agent *)

Section TraceAgent.
Context (name role goal backstory llm_model : option string) (func : function).

Definition agent_event (w : world) (event_id : string) (ty : EventType) (sp : span)
    (status error_message : option string) (metadata : gmap string json)
    : TelemetryEvent :=
  OfAgent {| AgentEvent.event_id := event_id;
             AgentEvent.event_type := ty;
             AgentEvent.timestamp := clock w;
             AgentEvent.trace_context := sp_trace_context sp;
             AgentEvent.metadata := metadata;
             AgentEvent.agent_id := sp_id sp;
             AgentEvent.agent_name := sp_name sp;
             AgentEvent.agent_role := role;
             AgentEvent.agent_goal := goal;
             AgentEvent.backstory := backstory;
             AgentEvent.llm_model := llm_model;
             AgentEvent.status := status;
             AgentEvent.error_message := error_message |}.

(** From [agent_name = name or func.__name__] to [start_time = time.time()]:
    the start event is recorded. These statements stand before the [try:]
    block: an exception of client.track_event leaves the wrapper. *)
Definition agent_enter (client : nat) (w : world) : result span * world :=
  let agent_name := or_str name (__name__ func) in
  let '(u, w) := uuid4 w in
  let agent_id := agent_name ++ "_" ++ prefix 8 (hex u) in
  let '(trace_context, w) := ReplAyClient.create_trace_context client None None w in
  let '(event_id, w) := uuid4 w in
  let sp := {| sp_client := client; sp_trace_context := trace_context;
               sp_id := agent_id; sp_name := agent_name;
               sp_input := {| ToolInput.args := None; ToolInput.kwargs := None |};
               sp_start_time := 0 |} in
  let start_event := agent_event w event_id AGENT_START sp (Some "running") None ∅ in
  match ReplAyClient.track_event client start_event w with
  | (Return _, w) =>
      (Return {| sp_client := client; sp_trace_context := trace_context;
                 sp_id := agent_id; sp_name := agent_name;
                 sp_input := sp_input sp; sp_start_time := clock w |}, w)
  | (Raise e, w) => (Raise e, w)
  end.

(** The [except Exception as e:] clause: the error event is recorded and
    the exception raised again. An exception that does not derive from
    Exception passes the clause by; an exception of client.track_event
    inside the clause leaves the wrapper in place of [e]. *)
Definition agent_except (sp : span) (e : exn) (w : world) : result_of_call :=
  if is_Exception e then
    let '(event_id, w) := uuid4 w in
    let error_event :=
      agent_event w event_id AGENT_ERROR sp (Some "failed") (Some (exc_msg e))
        (<["duration_ms" := JInt (elapsed_ms (sp_start_time sp) w)]>
         (<["error_type" := JStr (exc_type e)]>
         (<["traceback" := JStr (exc_traceback e)]> ∅))) in
    match ReplAyClient.track_event (sp_client sp) error_event w with
    | (Return _, w) => (Raise e, w)
    | (Raise e', w) => (Raise e', w)
    end
  else (Raise e, w).

(** The rest of the [try:] block after [result = func(...)]. Building the
    end event tests the truth of the result for
    [type(result).__name__ if result else None]; an exception raised there,
    or by client.track_event, is raised inside the [try:] block. *)
Definition agent_success (sp : span) (result : object) (w : world)
    : result_of_call :=
  let '(event_id, w) := uuid4 w in
  let duration_ms := elapsed_ms (sp_start_time sp) w in
  match truth result with
  | Return b =>
      let end_event :=
        agent_event w event_id AGENT_END sp (Some "completed") None
          (<["duration_ms" := JInt duration_ms]>
           (<["result_type" := if b then JStr (type_name result) else JNull]> ∅)) in
      match ReplAyClient.track_event (sp_client sp) end_event w with
      | (Return _, w) => (Return result, w)
      | (Raise e, w) => agent_except sp e w
      end
  | Raise e => agent_except sp e w
  end.

(** The wrapper trace_agent(name, role, goal, backstory, llm_model)(func),
    called with [args] and [kwargs]. *)
Definition trace_agent (args : list object) (kwargs : list (string * object))
    (w : world) : result_of_call :=
  match get_client w with
  | None => call func args kwargs w
  | Some client =>
      match agent_enter client w with
      | (Raise e, w) => (Raise e, w)
      | (Return sp, w) =>
          (* try: *)
          match call func args kwargs w with
          | (Return result, w) => agent_success sp result w
          | (Raise e, w) => agent_except sp e w
          end
      end
  end.

End TraceAgent.

(** ** trace_tool *)

Section TraceTool.
Context (name agent_id task_id : option string) (func : function).

Definition tool_event (w : world) (event_id : string) (ty : EventType) (sp : span)
    (tool_output : option object) (execution_time_ms : option Z)
    (error_message : option string) (metadata : gmap string json) : TelemetryEvent :=
  OfTool {| ToolEvent.event_id := event_id;
            ToolEvent.event_type := ty;
            ToolEvent.timestamp := clock w;
            ToolEvent.trace_context := sp_trace_context sp;
            ToolEvent.metadata := metadata;
            ToolEvent.tool_name := sp_name sp;
            ToolEvent.tool_input := Some (sp_input sp);
            ToolEvent.tool_output := tool_output;
            ToolEvent.agent_id := agent_id;
            ToolEvent.task_id := task_id;
            ToolEvent.execution_time_ms := execution_time_ms;
            ToolEvent.error_message := error_message |}.

(** From [tool_name = name or func.__name__] to [start_time = time.time()]. *)
Definition tool_enter (client : nat) (args : list object)
    (kwargs : list (string * object)) (w : world) : result span * world :=
  let tool_name := or_str name (__name__ func) in
  let '(trace_context, w) := ReplAyClient.create_trace_context client None None w in
  let tool_input :=
    {| ToolInput.args := match args with [] => None | _ => Some args end;
       ToolInput.kwargs := match kwargs with [] => None | _ => Some kwargs end |} in
  let '(event_id, w) := uuid4 w in
  let sp := {| sp_client := client; sp_trace_context := trace_context;
               sp_id := ""; sp_name := tool_name; sp_input := tool_input;
               sp_start_time := 0 |} in
  let start_event := tool_event w event_id TOOL_START sp None None None ∅ in
  match ReplAyClient.track_event client start_event w with
  | (Return _, w) =>
      (Return {| sp_client := client; sp_trace_context := trace_context;
                 sp_id := ""; sp_name := tool_name; sp_input := tool_input;
                 sp_start_time := clock w |}, w)
  | (Raise e, w) => (Raise e, w)
  end.

(** The [except Exception as e:] clause of the tool wrapper. *)
Definition tool_except (sp : span) (e : exn) (w : world) : result_of_call :=
  if is_Exception e then
    let execution_time := elapsed_ms (sp_start_time sp) w in
    let '(event_id, w) := uuid4 w in
    let error_event :=
      tool_event w event_id TOOL_ERROR sp None (Some execution_time) (Some (exc_msg e))
        (<["error_type" := JStr (exc_type e)]>
         (<["traceback" := JStr (exc_traceback e)]> ∅)) in
    match ReplAyClient.track_event (sp_client sp) error_event w with
    | (Return _, w) => (Raise e, w)
    | (Raise e', w) => (Raise e', w)
    end
  else (Raise e, w).

(** The rest of the [try:] block after [result = func(...)]. *)
Definition tool_success (sp : span) (result : object) (w : world) : result_of_call :=
  let execution_time := elapsed_ms (sp_start_time sp) w in
  let '(event_id, w) := uuid4 w in
  let end_event :=
    tool_event w event_id TOOL_END sp (Some result) (Some execution_time) None ∅ in
  match ReplAyClient.track_event (sp_client sp) end_event w with
  | (Return _, w) => (Return result, w)
  | (Raise e, w) => tool_except sp e w
  end.

(** The wrapper trace_tool(name, agent_id, task_id)(func), called with
    [args] and [kwargs]. *)
Definition trace_tool (args : list object) (kwargs : list (string * object))
    (w : world) : result_of_call :=
  match get_client w with
  | None => call func args kwargs w
  | Some client =>
      match tool_enter client args kwargs w with
      | (Raise e, w) => (Raise e, w)
      | (Return sp, w) =>
          (* try: *)
          match call func args kwargs w with
          | (Return result, w) => tool_success sp result w
          | (Raise e, w) => tool_except sp e w
          end
      end
  end.

End TraceTool.

(** ** What a hook leaves behind *)

(** [w3] is [w2] after one more UUID was drawn and [ev] was recorded on
    [client]. *)
Definition records (client : nat) (ev : TelemetryEvent) (w2 w3 : world) : Prop :=
  ReplAyClient.track_event client ev (set_uuid_next (S (uuid_next w2)) w2)
  = (Return tt, w3).

(** [ev] is an event of type [ty] that carries the message, the class name
    and the traceback of [e]. *)
Definition describes (ev : TelemetryEvent) (ty : EventType) (e : exn) : Prop :=
  event_type ev = ty ∧
  error_message ev = Some (exc_msg e) ∧
  metadata ev !! "error_type" = Some (JStr (exc_type e)) ∧
  metadata ev !! "traceback" = Some (JStr (exc_traceback e)).

(** ** Objects and functions to run the hooks on *)

(** The ValueError numpy raises for [bool(array)] on more than one element. *)
Definition ambiguous_truth : exn :=
  {| exc_type := "ValueError";
     exc_msg := "The truth value of an array with more than one element is ambiguous";
     exc_traceback := "Traceback (most recent call last): ... ValueError";
     is_Exception := true |}.

Definition array_object : object :=
  {| type_name := "ndarray"; truth := Raise ambiguous_truth;
     data := JArr [JInt 1; JInt 2] |}.

Definition str_object (s : string) : object :=
  {| type_name := "str"; truth := Return (negb (String.eqb s "")); data := JStr s |}.

(** def load(): return numpy.array([1, 2]) *)
Definition returns_array : function :=
  {| __name__ := "load"; call := fun _ _ w => (Return array_object, w) |}.

(** def greet(): return "hello" *)
Definition returns_hello : function :=
  {| __name__ := "greet"; call := fun _ _ w => (Return (str_object "hello"), w) |}.

(** def fail(): raise KeyError("missing") *)
Definition key_error : exn :=
  {| exc_type := "KeyError"; exc_msg := "'missing'";
     exc_traceback := "Traceback (most recent call last): ... KeyError";
     is_Exception := true |}.

Definition raises_key_error : function :=
  {| __name__ := "fail"; call := fun _ _ w => (Raise key_error, w) |}.

(** def stop(): raise KeyboardInterrupt() -- a BaseException that is not an
    Exception *)
Definition keyboard_interrupt : exn :=
  {| exc_type := "KeyboardInterrupt"; exc_msg := "";
     exc_traceback := "Traceback (most recent call last): ... KeyboardInterrupt";
     is_Exception := false |}.

Definition raises_interrupt : function :=
  {| __name__ := "stop"; call := fun _ _ w => (Raise keyboard_interrupt, w) |}.

End Decorators.

(* ===================================================================== *)
(*  routers/events.py                                                     *)
(* ===================================================================== *)

Module Events.
Import Py Http.

(** What a call draws from its surroundings: the UUIDs uuid4() generates
    (in generation order), the strings datetime.utcnow().isoformat() gives
    (in reading order) and the built-in hash of a string. *)
Record env := {
  uuid4 : nat -> string;
  utcnow : nat -> string;
  hash : string -> Z;
}.

(** The JSON body of a request, read at the fields of class
    EventRequest(BaseModel). The model declares every entry of [events] a
    dict, and the body is validated against it before the handler is
    called (see [Endpoint.post_events]); the handler guards each entry
    itself, so the entries are kept as arbitrary JSON values here. *)
Module EventRequest.
Record t := {
  events : list json;
  session_id : string;
  project_id : string;
  environment : string;
  timestamp : string;
}.
End EventRequest.

(** class EventResponse(BaseModel) *)
Module EventResponse.
Record t := {
  success : bool;
  events_received : Z;
  batch_id : string;
  message : string;
}.
End EventResponse.

(** background_tasks.add_task(store_events_batch, parsed_events, batch_id, clickhouse) *)
Record background_task := {
  task_events : list (gmap string json);
  task_batch_id : string;
}.

(** event_data.update({...}) with the metadata of the batch; [i] numbers the
    clock reading. *)
Definition stamp (e : env) (request : EventRequest.t) (api_key batch_id : string)
    (i : nat) (event_data : gmap string json) : gmap string json :=
  <["batch_id" := JStr batch_id]>
  (<["api_key_hash" := JInt (hash e api_key)]>
  (<["ingested_at" := JStr (utcnow e i)]>
  (<["project_id" := JStr (EventRequest.project_id request)]>
  (<["session_id" := JStr (EventRequest.session_id request)]>
  (<["environment" := JStr (EventRequest.environment request)]> event_data))))).

(** The loop over enumerate(request.events). Only a dict has an [update]
    method: on any other entry the call raises AttributeError, the entry
    is logged and skipped. *)
Fixpoint parse_events (e : env) (request : EventRequest.t) (api_key batch_id : string)
    (i : nat) (events : list json) : list (gmap string json) :=
  match events with
  | [] => []
  | JObj event_data :: rest =>
      stamp e request api_key batch_id i event_data
        :: parse_events e request api_key batch_id (S i) rest
  | _ :: rest => parse_events e request api_key batch_id (S i) rest
  end.

(** async def ingest_events(request, background_tasks, api_key, clickhouse):
    the response, and the tasks added to [background_tasks]. *)
Definition ingest_events (e : env) (request : EventRequest.t) (api_key : string)
    : response EventResponse.t * list background_task :=
  let batch_id := uuid4 e 0 in
  let parsed_events :=
    parse_events e request api_key batch_id 0 (EventRequest.events request) in
  match parsed_events with
  | [] => (HTTPException 400 "No valid events found in batch", [])
  | _ :: _ =>
      let n := Z.of_nat (length parsed_events) in
      (Ok {| EventResponse.success := true;
             EventResponse.events_received := n;
             EventResponse.batch_id := batch_id;
             EventResponse.message :=
               "Successfully queued " ++ pretty n ++ " events for processing" |},
       [{| task_events := parsed_events; task_batch_id := batch_id |}])
  end.

(** event.get(key): None for a missing key *)
Definition get (event : gmap string json) (key : string) : json :=
  default JNull (event !! key).

(** event.get(key, d) *)
Definition get_default (event : gmap string json) (key : string) (d : json) : json :=
  default d (event !! key).

(** event.get("trace_context", {}).get(key): AttributeError ([None]) when
    the value under "trace_context" is not a dict. *)
Definition trace_context_get (event : gmap string json) (key : string) : option json :=
  match get_default event "trace_context" (JObj ∅) with
  | JObj tc => Some (get tc key)
  | _ => None
  end.

(** if key in event: row.update({key: event[key], others: event.get(..)}) *)
Definition promote (event : gmap string json) (key : string) (others : list string)
    (row : gmap string json) : gmap string json :=
  match event !! key with
  | Some v => <[key := v]> (foldr (fun k r => <[k := get event k]> r) row others)
  | None => row
  end.

(** The row of one event; [i] numbers the UUID and the clock reading drawn
    for the two defaults. *)
Definition make_row (e : env) (batch_id : string) (i : nat) (event : gmap string json)
    : option (gmap string json) :=
  trace_id ← trace_context_get event "trace_id";
  span_id ← trace_context_get event "span_id";
  parent_span_id ← trace_context_get event "parent_span_id";
  let row : gmap string json :=
    <["batch_id" := JStr batch_id]>
    (<["event_id" := get_default event "event_id" (JStr (uuid4 e i))]>
    (<["event_type" := get event "event_type"]>
    (<["timestamp" := get_default event "timestamp" (JStr (utcnow e i))]>
    (<["trace_id" := trace_id]>
    (<["span_id" := span_id]>
    (<["parent_span_id" := parent_span_id]>
    (<["session_id" := get event "session_id"]>
    (<["project_id" := get event "project_id"]>
    (<["environment" := get event "environment"]>
    (<["api_key_hash" := get event "api_key_hash"]>
    (<["ingested_at" := get event "ingested_at"]>
    (<["raw_data" := JObj event]> ∅)))))))))))) in
  let row := promote event "agent_id" ["agent_name"; "agent_role"] row in
  let row := promote event "task_id" ["task_name"] row in
  let row := promote event "tool_name" ["execution_time_ms"] row in
  let row := promote event "model_name" ["tokens_used"; "cost_usd"; "latency_ms"] row in
  Some row.

Fixpoint make_rows (e : env) (batch_id : string) (i : nat) (events : list (gmap string json))
    : option (list (gmap string json)) :=
  match events with
  | [] => Some []
  | event :: rest =>
      row ← make_row e batch_id i event;
      rows ← make_rows e batch_id (S i) rest;
      Some (row :: rows)
  end.

(** async def store_events_batch(events, batch_id, clickhouse_client): the
    rows passed to insert_batch("telemetry_events", rows), or [None] when an
    exception ended the task before the insert (it is logged and swallowed). *)
Definition store_events_batch (e : env) (events : list (gmap string json))
    (batch_id : string) : option (list (gmap string json)) :=
  make_rows e batch_id 0 events.

(** The rows a background task stores when it runs. *)
Definition run_task (e : env) (t : background_task) : option (list (gmap string json)) :=
  store_events_batch e (task_events t) (task_batch_id t).

(** ** Requests and events to run the endpoint on *)

(** An entry the handler accepts: a dict. *)
Definition is_dict (j : json) : bool :=
  match j with JObj _ => true | _ => false end.

(** An event whose trace_context, when present, is a dict: its row can be built. *)
Definition flattens (event : gmap string json) : Prop :=
  match event !! "trace_context" with
  | Some (JObj _) | None => True
  | Some _ => False
  end.

Definition example_env : env :=
  {| uuid4 := fun n => "uuid-" ++ pretty n;
     utcnow := fun n => "2024-01-01T00:00:0" ++ pretty n;
     hash := fun s => Z.of_nat (String.length s) |}.

(** A batch of three entries, the second of which is not a dict. *)
Definition mixed_request : EventRequest.t :=
  {| EventRequest.events :=
       [JObj {["event_id" := JStr "e1"]}; JStr "garbage"; JObj {["event_id" := JStr "e3"]}];
     EventRequest.session_id := "s";
     EventRequest.project_id := "p";
     EventRequest.environment := "production";
     EventRequest.timestamp := "2024-01-01T00:00:00" |}.

(** An event that spells out a null id and a null timestamp. *)
Definition null_id_event : gmap string json :=
  {["event_id" := JNull; "timestamp" := JNull; "event_type" := JStr "agent.start"]}.

End Events.

(* ===================================================================== *)
(*  routers/events.py: POST /v1/events/ as the application serves it      *)
(* ===================================================================== *)

Module Endpoint.
Import Py Http Events.

(** The body of a request is validated against class EventRequest before
    ingest_events is called. The field [events: List[Dict[str, Any]]]
    admits a JSON object in every place and nothing else. *)
Definition valid_events (request : EventRequest.t) : bool :=
  forallb is_dict (EventRequest.events request).

(** What the application answers to a body that does not validate: HTTP
    422 with the validation error; the handler is not called. *)
Definition validation_error {A} : response A :=
  HTTPException 422 "Input should be a valid dictionary".

(** POST /v1/events/: validation of the body, then the handler. *)
Definition post_events (e : env) (request : EventRequest.t) (api_key : string)
    : response EventResponse.t * list background_task :=
  if valid_events request
  then ingest_events e request api_key
  else (validation_error, []).

(** A batch of two events. *)
Definition two_events_request : EventRequest.t :=
  {| EventRequest.events :=
       [JObj {["event_id" := JStr "e1"]}; JObj {["event_id" := JStr "e2"]}];
     EventRequest.session_id := "s";
     EventRequest.project_id := "p";
     EventRequest.environment := "production";
     EventRequest.timestamp := "2024-01-01T00:00:00" |}.

End Endpoint.

(* ===================================================================== *)
(*  Several call sites inside ReplAyClient.track_event at once            *)
(* ===================================================================== *)

Module Interleaving.
Import Py Types Client.

(** The statements of one call self.track_event(event), with
    self._flush_events() inlined. A thread switch can happen between any
    two of them; [events_to_send] is the local variable of _flush_events. *)
Inductive pc :=
| AtAppend
| AtDebug
| AtCheck
| AtEmptyTest
| AtCopy
| AtClear (events_to_send : nat)
| AtStamp (events_to_send : nat)
| AtDispatch (events_to_send : nat)
| Done
| Failed (e : exn).

Record thread := { th_self : nat; th_event : TelemetryEvent; th_pc : pc }.

Definition at_pc (t : thread) (p : pc) : thread :=
  {| th_self := th_self t; th_event := th_event t; th_pc := p |}.

(** A call that has not started yet. *)
Definition call (self : nat) (event : TelemetryEvent) : thread :=
  {| th_self := self; th_event := event; th_pc := AtAppend |}.

(** One statement of thread [t]. *)
Definition step (t : thread) (w : world) : thread * world :=
  match clients w !! th_self t with
  | None => (match th_pc t with Failed _ => t | _ => at_pc t Done end, w)
  | Some c =>
      match th_pc t with
      | AtAppend =>
          (at_pc t AtDebug, list_append (Attrs._event_buffer c) (th_event t) w)
      | AtDebug =>
          (at_pc t AtCheck,
           if Attrs.debug c
           then print ("[REPL;ay] Tracked event: "
                         ++ EventType_value (event_type (th_event t))) w
           else w)
      | AtCheck =>
          (at_pc t (if ReplAyClient.flush_due c w then AtEmptyTest else Done), w)
      | AtEmptyTest =>
          (at_pc t (match list_get (Attrs._event_buffer c) w with
                    | [] => Done
                    | _ :: _ => AtCopy
                    end), w)
      | AtCopy =>
          let '(events_to_send, w) := list_copy (Attrs._event_buffer c) w in
          (at_pc t (AtClear events_to_send), w)
      | AtClear events_to_send =>
          (at_pc t (AtStamp events_to_send), list_clear (Attrs._event_buffer c) w)
      | AtStamp events_to_send =>
          (at_pc t (AtDispatch events_to_send),
           set_clients (<[th_self t := ReplAyClient.set_last_flush (clock w) c]> (clients w)) w)
      | AtDispatch events_to_send =>
          if event_loop w
          then (at_pc t Done, ReplAyClient.create_task (th_self t) events_to_send w)
          else (at_pc t (Failed ReplAyClient.no_running_loop), w)
      | Done => (t, w)
      | Failed _ => (t, w)
      end
  end.

(** The threads of the process and its state. *)
Definition config : Type := list thread * world.

(** The scheduler lets thread number [i] run one statement. *)
Definition sched_step (i : nat) (cf : config) : config :=
  match fst cf !! i with
  | None => cf
  | Some t =>
      let '(t', w') := step t (snd cf) in
      (<[i := t']> (fst cf), w')
  end.

(** A schedule: which thread runs next, statement after statement. *)
Definition run (schedule : list nat) (cf : config) : config :=
  fold_left (fun cf i => sched_step i cf) schedule cf.

(** Every call has returned or raised. *)
Definition finished (cf : config) : bool :=
  forallb (fun t => match th_pc t with Done | Failed _ => true | _ => false end) (fst cf).

(** Where a call ends. *)
Definition final_pc (r : result unit) : pc :=
  match r with Return _ => Done | Raise e => Failed e end.

(** [n] statements of one thread in a row. *)
Definition steps (n : nat) (tw : thread * world) : thread * world :=
  Nat.iter n (fun tw => step (fst tw) (snd tw)) tw.

(** One call run from its first statement to its last without a switch. *)
Definition run_alone (self : nat) (event : TelemetryEvent) (w : world) : config :=
  run (replicate 8 0%nat) ([call self event], w).

(** The calls that record [events] on the client [self], none started yet. *)
Definition calls (self : nat) (events : list TelemetryEvent) : list thread :=
  map (call self) events.

(** A schedule under mutual exclusion: the calls run one after the other,
    in the order [order] of their thread numbers, each to its last
    statement before the next begins. *)
Definition serial_schedule (order : list nat) : list nat :=
  flat_map (fun i => replicate 8 i) order.

(** The threads after the calls numbered in [ran] have returned. *)
Definition returned (self : nat) (events : list TelemetryEvent) (ran : list nat)
    : list thread :=
  imap (fun j event =>
          if bool_decide (j ∈ ran)
          then at_pc (call self event) Done
          else call self event) events.

(** Two call sites record "a" and "b" on the client of [started 1]
    (batch_size 1) at the same time. *)
Definition racing : config :=
  (calls 0 [sample_event "a" AGENT_START; sample_event "b" AGENT_START],
   snd (started 1)).

(** Thread 0 appends "a", finds the flush due and copies the buffer; thread
    1 appends "b"; thread 0 clears the buffer, stamps the flush time and
    dispatches its copy; thread 1 finds no flush due. *)
Definition lossy_schedule : list nat := [0; 0; 0; 0; 0; 1; 0; 0; 0; 1; 1]%nat.

(** Thread 0 copies the buffer holding "a"; thread 1 appends "b", finds the
    flush due and copies the buffer holding both; then both clear and
    dispatch. *)
Definition duplicating_schedule : list nat :=
  [0; 0; 0; 0; 0; 1; 1; 1; 1; 1; 0; 0; 0; 1; 1; 1]%nat.

End Interleaving.

(* ===================================================================== *)
(*  routers/events.py: GET /batch/{batch_id}                              *)
(* ===================================================================== *)

Module BatchStatus.
Import Py Http.

(** One row of the batch query: count(), min(timestamp), max(timestamp),
    uniq(event_type), groupUniqArray(event_type), uniq(trace_id). *)
Module BatchInfo.
Record t := {
  events_count : Z;
  first_event_time : option string;
  last_event_time : option string;
  event_types_count : Z;
  event_types : list string;
  unique_traces : Z;
}.
End BatchInfo.

(** The dict the endpoint returns. *)
Module Body.
Record t := {
  batch_id : string;
  status : string;
  events_count : Z;
  first_event_time : option string;
  last_event_time : option string;
  event_types : list string;
  unique_traces : Z;
}.
End Body.

(** What a name of the function body can be bound to: a string, a database
    client (its answer to the batch query for a batch id), or some other
    object (a module, a class, a function) that has no [execute]. *)
Inductive value :=
  | Str (s : string)
  | Client (execute : string -> list BatchInfo.t)
  | Other.

(** The parameters of get_batch_status(batch_id, api_key, clickhouse). *)
Definition locals (batch_id api_key : string) (clickhouse : value) : gmap string value :=
  list_to_map [("batch_id", Str batch_id); ("api_key", Str api_key);
               ("clickhouse", clickhouse)].

(** The names events.py binds at module level: its imports, logger and
    router, the two request models and the three functions. *)
Definition module_names : list string :=
  ["time"; "datetime"; "Any"; "Dict"; "List"; "uuid4"; "structlog"; "APIRouter";
   "Depends"; "HTTPException"; "BackgroundTasks"; "BaseModel"; "Field"; "get_api_key";
   "get_clickhouse_client"; "EventBatch"; "TelemetryEvent"; "logger"; "router";
   "EventRequest"; "EventResponse"; "ingest_events"; "store_events_batch";
   "get_batch_status"].

Definition globals : gmap string value :=
  list_to_map (map (fun name => (name, Other)) module_names).

Definition NameError (name : string) : exn :=
  {| exc_type := "NameError"; exc_msg := "name '" ++ name ++ "' is not defined";
     exc_traceback := "Traceback (most recent call last): ... NameError";
     is_Exception := true |}.

Definition AttributeError (attr : string) : exn :=
  {| exc_type := "AttributeError"; exc_msg := "object has no attribute '" ++ attr ++ "'";
     exc_traceback := "Traceback (most recent call last): ... AttributeError";
     is_Exception := true |}.

(** Evaluating a name in the function body: the parameters first, then the
    module (no builtin is called clickhouse_client or clickhouse). *)
Definition load (scope_locals scope_globals : gmap string value) (name : string)
    : result value :=
  match scope_locals !! name with
  | Some v => Return v
  | None =>
      match scope_globals !! name with
      | Some v => Return v
      | None => Raise (NameError name)
      end
  end.

(** [obj.execute(query, {"batch_id": batch_id})] *)
Definition execute (obj : value) (batch_id : string) : result (list BatchInfo.t) :=
  match obj with
  | Client run => Return (run batch_id)
  | _ => Raise (AttributeError "execute")
  end.

(** The [try:] block of get_batch_status. The parameter is called
    [clickhouse]; the query is sent through the name [clickhouse_client]. *)
Definition get_batch_status_body (batch_id api_key : string) (clickhouse : value)
    : result (response Body.t) :=
  match load (locals batch_id api_key clickhouse) globals "clickhouse_client" with
  | Raise e => Raise e
  | Return client =>
      match execute client batch_id with
      | Raise e => Raise e
      | Return [] => Return (HTTPException 404 "Batch not found")
      | Return (batch_info :: _) =>
          Return (Ok {|
            Body.batch_id := batch_id;
            Body.status :=
              if BatchInfo.events_count batch_info >? 0 then "processed" else "not_found";
            Body.events_count := BatchInfo.events_count batch_info;
            Body.first_event_time := BatchInfo.first_event_time batch_info;
            Body.last_event_time := BatchInfo.last_event_time batch_info;
            Body.event_types := BatchInfo.event_types batch_info;
            Body.unique_traces := BatchInfo.unique_traces batch_info |})
      end
  end.

(** async def get_batch_status(batch_id, api_key, clickhouse): an
    HTTPException of the body is raised again, any other Exception is
    logged and becomes HTTP 500. [None]: an exception outside Exception
    leaves the handler. *)
Definition get_batch_status (batch_id api_key : string) (clickhouse : value)
    : option (response Body.t) :=
  match get_batch_status_body batch_id api_key clickhouse with
  | Return r => Some r
  | Raise e =>
      if is_Exception e
      then Some (HTTPException 500 "Failed to retrieve batch status")
      else None
  end.

End BatchStatus.

(* ===================================================================== *)
(*  routers/events.py: more requests to run the endpoint on               *)
(* ===================================================================== *)

Module Requests.
Import Py Events.

(** A batch for project "p" whose only event names another project, another
    session and a batch id of its own. *)
Definition spoofing_request : EventRequest.t :=
  {| EventRequest.events :=
       [JObj {["event_id" := JStr "e1"; "project_id" := JStr "other";
               "session_id" := JStr "theirs"; "batch_id" := JStr "mine"]}];
     EventRequest.session_id := "s";
     EventRequest.project_id := "p";
     EventRequest.environment := "production";
     EventRequest.timestamp := "2024-01-01T00:00:00" |}.

(** A batch of two events, the second with "trace_context": null. *)
Definition null_context_request : EventRequest.t :=
  {| EventRequest.events :=
       [JObj {["event_id" := JStr "e1"]};
        JObj {["event_id" := JStr "e2"; "trace_context" := JNull]}];
     EventRequest.session_id := "s";
     EventRequest.project_id := "p";
     EventRequest.environment := "production";
     EventRequest.timestamp := "2024-01-01T00:00:00" |}.

(** An event with a cost but no model name, and one with a model name only. *)
Definition cost_without_model : gmap string json :=
  {["event_id" := JStr "e1"; "cost_usd" := JFloat (3 # 2)]}.

Definition model_without_cost : gmap string json :=
  {["event_id" := JStr "e2"; "model_name" := JStr "gpt-4"]}.

End Requests.

(* ===================================================================== *)
(*  client.py: the context manager, the endpoint URL, several clients     *)
(* ===================================================================== *)

Module Lifecycle.
Import Py Types Client.

(** def __enter__(self): return self *)
Definition __enter__ (self : nat) (w : world) : nat * world := (self, w).

(** def __exit__(self, exc_type, exc_val, exc_tb): self.close(). The method
    returns None, which is falsy: it never asks to suppress the exception
    of the block. *)
Definition __exit__ (self : nat) (exc : option exn) (w : world) : result bool * world :=
  match ReplAyClient.close self w with
  | (Return _, w) => (Return false, w)
  | (Raise e, w) => (Raise e, w)
  end.

(** [with client as c: body(c)]. The block's value is [Some a] when the
    body returned [a], and [None] when __exit__ asked to suppress the
    body's exception; an exception of __exit__ itself leaves the statement
    in place of the body's outcome. *)
Definition with_ {A} (self : nat) (body : nat -> world -> result A * world) (w : world)
    : result (option A) * world :=
  let '(c, w) := __enter__ self w in
  match body c w with
  | (Return a, w) =>
      match __exit__ self None w with
      | (Return _, w) => (Return (Some a), w)
      | (Raise e, w) => (Raise e, w)
      end
  | (Raise e, w) =>
      match __exit__ self (Some e) w with
      | (Return suppress, w) => if suppress then (Return None, w) else (Raise e, w)
      | (Raise e', w) => (Raise e', w)
      end
  end.

(** f"{self.base_url}/v1/events", the URL _send_events_async posts to *)
Definition events_url (c : Attrs.t) : string := Attrs.base_url c ++ "/v1/events".

(** A run of [n] characters [ch]. *)
Fixpoint run_of (ch : ascii) (n : nat) : string :=
  match n with
  | O => EmptyString
  | S n' => String ch (run_of ch n')
  end.

(** [s] ends with the character [ch]. *)
Definition ends_with (ch : ascii) (s : string) : Prop :=
  exists s', s = s' ++ String ch EmptyString.

(** No two client objects share a buffer list. *)
Definition isolated (w : world) : Prop :=
  forall s1 s2 c1 c2,
    clients w !! s1 = Some c1 -> clients w !! s2 = Some c2 -> s1 <> s2 ->
    Attrs._event_buffer c1 <> Attrs._event_buffer c2.

(** A body that records two events on the client and returns their number. *)
Definition records_two (c : nat) (w : world) : result Z * world :=
  match ReplAyClient.track_event c (sample_event "a" AGENT_START) w with
  | (Raise e, w) => (Raise e, w)
  | (Return _, w) =>
      match ReplAyClient.track_event c (sample_event "b" AGENT_END) w with
      | (Raise e, w) => (Raise e, w)
      | (Return _, w) => (Return 2, w)
      end
  end.

(** A client created with base_url="https://collector.example///". *)
Definition slashed : nat * world :=
  ReplAyClient.__init__ "key" None
    {| ReplAyClient.kw_base_url := Some "https://collector.example///";
       ReplAyClient.kw_environment := None; ReplAyClient.kw_batch_size := None;
       ReplAyClient.kw_flush_interval_seconds := None;
       ReplAyClient.kw_debug := None |} boot.

(** A second client next to the client of [two_queued]. *)
Definition two_clients : nat * world :=
  ReplAyClient.__init__ "other-key" None ReplAyClient.no_kwargs two_queued.

End Lifecycle.

(* ===================================================================== *)
(*  decorators.py: what the hooks add to the record                       *)
(* ===================================================================== *)

Module Spans.
Import Py Types Client Decorators.

(** Between [w] and [w'] the events [evs] were recorded on [client], in
    this order and nothing else: what was handed over and what is queued
    in [w'] is what was handed over and queued in [w], followed by [evs].
    The state [w'] is again one in which the client records, and the
    global client is the same. *)
Definition appends (client : nat) (evs : list TelemetryEvent) (w w' : world) : Prop :=
  wf w' /\ event_loop w' = true /\ is_Some (clients w' !! client) /\
  get_client w' = get_client w /\
  (handed_over w' ++ buffered client w' = handed_over w ++ buffered client w ++ evs)%list.

(** def plan(): return greet(), with greet traced as a tool *)
Definition calls_traced_tool : function :=
  {| __name__ := "plan";
     call := fun args kwargs w => trace_tool None None None returns_hello args kwargs w |}.

End Spans.

(* ===================================================================== *)
(*  Any schedule of concurrent track_event calls                          *)
(* ===================================================================== *)

Module Schedules.
Import Py Types Client Interleaving.

(** The statements a call still has before it, at most. *)
Definition remaining (p : pc) : nat :=
  match p with
  | AtAppend => 8
  | AtDebug => 7
  | AtCheck => 6
  | AtEmptyTest => 5
  | AtCopy => 4
  | AtClear _ => 3
  | AtStamp _ => 2
  | AtDispatch _ => 1
  | Done => 0
  | Failed _ => 0
  end.

(** An event the process knows of in [cf]: it is in some list object, or
    it is the argument of one of the calls. *)
Definition known (cf : config) (e : TelemetryEvent) : Prop :=
  (exists a l, lists (snd cf) !! a = Some l /\ e ∈ l) \/
  (exists t, t ∈ fst cf /\ th_event t = e).

(** How often the schedule lets thread [i] run. *)
Definition turns (i : nat) (schedule : list nat) : nat :=
  length (List.filter (Nat.eqb i) schedule).

(** No call has raised. *)
Definition none_failed (cf : config) : Prop :=
  Forall (fun t => match th_pc t with Failed _ => False | _ => True end) (fst cf).

End Schedules.

(* ===================================================================== *)
(*  integrations/crewai.py: Crew.kickoff, instrumented                    *)
(* ===================================================================== *)

Module CrewAI.
Import Py Types Client Decorators.

(** class CrewAIInstrumentation: the attributes of an instance. *)
Module Instrumentation.
Record t := {
    enabled : bool;
    _active_traces : gmap string TraceContext.t;
    _crew_start_times : gmap string Z;
  }.
End Instrumentation.

(** The process: the instrumentation object beside the state of the SDK. *)
Definition state : Type := Instrumentation.t * world.

(** A crewai.Crew as far as the wrapper looks at it: for each of the
    attributes [agents] and [tasks], whether the object has it (hasattr)
    and what len() of it gives. *)
Module Crew.
Record t := {
    agents : option (result Z);
    tasks : option (result Z);
  }.
End Crew.

(** What a call of kickoff gives: an object or an exception, and the state
    it leaves. *)
Definition outcome : Type := result object * state.

(** crew_class.kickoff as it was before it is replaced. A call may record
    events and may use the instrumentation object itself. *)
Definition method : Type :=
  Crew.t -> list object -> list (string * object) -> state -> outcome.

(** len(crew_self.attr) if hasattr(crew_self, 'attr') else 0 *)
Definition len_or_zero (attr : option (result Z)) : result Z :=
  match attr with
  | Some n => n
  | None => Return 0
  end.

(** What d[key] raises for a missing key. *)
Definition KeyError (key : string) : exn :=
  {| exc_type := "KeyError"; exc_msg := "'" ++ key ++ "'";
     exc_traceback := "Traceback (most recent call last): ... KeyError";
     is_Exception := true |}.

(** self._active_traces[crew_id] = trace_context;
    self._crew_start_times[crew_id] = time.time() *)
Definition register (crew_id : string) (trace_context : TraceContext.t) (now : Z)
    (self : Instrumentation.t) : Instrumentation.t :=
  {| Instrumentation.enabled := Instrumentation.enabled self;
     Instrumentation._active_traces :=
       <[crew_id := trace_context]> (Instrumentation._active_traces self);
     Instrumentation._crew_start_times :=
       <[crew_id := now]> (Instrumentation._crew_start_times self) |}.

(** self._active_traces.pop(crew_id, None);
    self._crew_start_times.pop(crew_id, None) *)
Definition unregister (crew_id : string) (self : Instrumentation.t) : Instrumentation.t :=
  {| Instrumentation.enabled := Instrumentation.enabled self;
     Instrumentation._active_traces := delete crew_id (Instrumentation._active_traces self);
     Instrumentation._crew_start_times :=
       delete crew_id (Instrumentation._crew_start_times self) |}.

Section Kickoff.
Context (original_kickoff : method).
Context (client : nat) (trace_context : TraceContext.t) (crew_id : string).

Definition crew_event (w : world) (event_id : string) (ty : EventType)
    (status error_message : option string) (metadata : gmap string json)
    : TelemetryEvent :=
  OfAgent {| AgentEvent.event_id := event_id;
             AgentEvent.event_type := ty;
             AgentEvent.timestamp := clock w;
             AgentEvent.trace_context := trace_context;
             AgentEvent.metadata := metadata;
             AgentEvent.agent_id := crew_id;
             AgentEvent.agent_name := "CrewAI Crew";
             AgentEvent.agent_role := Some "coordinator";
             AgentEvent.agent_goal := None;
             AgentEvent.backstory := None;
             AgentEvent.llm_model := None;
             AgentEvent.status := status;
             AgentEvent.error_message := error_message |}.

(** The [except Exception as e:] clause. The start time is read from
    self._crew_start_times again; a KeyError there, or an exception of
    client.track_event, leaves the clause in place of [e]. *)
Definition kickoff_except (e : exn) (st : state) : outcome :=
  let '(self, w) := st in
  if is_Exception e then
    match Instrumentation._crew_start_times self !! crew_id with
    | None => (Raise (KeyError crew_id), (self, w))
    | Some start =>
        let duration_ms := elapsed_ms start w in
        let '(event_id, w) := uuid4 w in
        let error_event :=
          crew_event w event_id AGENT_ERROR (Some "failed") (Some (exc_msg e))
            (<["crew_id" := JStr crew_id]>
             (<["duration_ms" := JInt duration_ms]>
             (<["error_type" := JStr (exc_type e)]> ∅))) in
        match ReplAyClient.track_event client error_event w with
        | (Return _, w) => (Raise e, (self, w))
        | (Raise e', w) => (Raise e', (self, w))
        end
    end
  else (Raise e, (self, w)).

(** The rest of the [try:] block after [result = original_kickoff(...)]. *)
Definition kickoff_success (result : object) (st : state) : outcome :=
  let '(self, w) := st in
  match Instrumentation._crew_start_times self !! crew_id with
  | None => kickoff_except (KeyError crew_id) (self, w)
  | Some start =>
      let duration_ms := elapsed_ms start w in
      let '(event_id, w) := uuid4 w in
      match truth result with
      | Return b =>
          let end_event :=
            crew_event w event_id AGENT_END (Some "completed") None
              (<["crew_id" := JStr crew_id]>
               (<["duration_ms" := JInt duration_ms]>
               (<["result_type" := if b then JStr (type_name result) else JNull]> ∅))) in
          match ReplAyClient.track_event client end_event w with
          | (Return _, w) => (Return result, (self, w))
          | (Raise e, w) => kickoff_except e (self, w)
          end
      | Raise e => kickoff_except e (self, w)
      end
  end.

(** The [finally:] clause, on the way out of the [try:] statement. *)
Definition kickoff_finally (out : outcome) : outcome :=
  (fst out, (unregister crew_id (fst (snd out)), snd (snd out))).

(** The [try:] statement as a whole. *)
Definition kickoff_try (crew_self : Crew.t) (args : list object)
    (kwargs : list (string * object)) (st : state) : outcome :=
  kickoff_finally
    match original_kickoff crew_self args kwargs st with
    | (Return result, st) => kickoff_success result st
    | (Raise e, st) => kickoff_except e st
    end.

End Kickoff.

(** The identifier the wrapper draws for a run started in [w]. *)
Definition next_crew_id (w : world) : string :=
  "crew_" ++ prefix 8 (hex (fst (uuid4 w))).

(** def instrumented_kickoff(crew_self, *args, **kwargs), the closure of
    _instrument_crew over [self] and [original_kickoff]. The registration
    of the run and the start event stand before the [try:] statement. *)
Definition instrumented_kickoff (original_kickoff : method) (crew_self : Crew.t)
    (args : list object) (kwargs : list (string * object)) (st : state)
    : outcome :=
  let '(self, w) := st in
  match get_client w with
  | None => original_kickoff crew_self args kwargs (self, w)
  | Some client =>
      if negb (Instrumentation.enabled self)
      then original_kickoff crew_self args kwargs (self, w)
      else
        let '(u, w) := uuid4 w in
        let crew_id := "crew_" ++ prefix 8 (hex u) in
        let '(trace_context, w) := ReplAyClient.create_trace_context client None None w in
        let self := register crew_id trace_context (clock w) self in
        let '(event_id, w) := uuid4 w in
        match len_or_zero (Crew.agents crew_self) with
        | Raise e => (Raise e, (self, w))
        | Return agents_count =>
            match len_or_zero (Crew.tasks crew_self) with
            | Raise e => (Raise e, (self, w))
            | Return tasks_count =>
                let start_event :=
                  crew_event trace_context crew_id w event_id AGENT_START
                    (Some "running") None
                    (<["crew_id" := JStr crew_id]>
                     (<["agents_count" := JInt agents_count]>
                     (<["tasks_count" := JInt tasks_count]> ∅))) in
                match ReplAyClient.track_event client start_event w with
                | (Raise e, w) => (Raise e, (self, w))
                | (Return _, w) =>
                    kickoff_try original_kickoff client trace_context crew_id
                                crew_self args kwargs (self, w)
                end
            end
        end
  end.

(** ** Crews and kickoff methods to run the wrapper on *)

Definition fresh_instrumentation : Instrumentation.t :=
  {| Instrumentation.enabled := true; Instrumentation._active_traces := ∅;
     Instrumentation._crew_start_times := ∅ |}.

(** A crew of two agents and three tasks. *)
Definition small_crew : Crew.t :=
  {| Crew.agents := Some (Return 2); Crew.tasks := Some (Return 3) |}.

(** def kickoff(self): return "done" *)
Definition kickoff_done : method :=
  fun _ _ _ st => (Return (str_object "done"), st).

(** def kickoff(self): raise KeyError("missing") *)
Definition kickoff_fails : method :=
  fun _ _ _ st => (Raise key_error, st).

(** A thread without an event loop holding the client of [started 1]
    (batch_size 1). *)
Definition no_loop_1 : world :=
  let w := snd (started 1) in
  {| clock := clock w; uuid_src := uuid_src w; uuid_next := uuid_next w;
     event_loop := false; lists := lists w; clients := clients w;
     _global_client := _global_client w; tasks := tasks w;
     stdout := stdout w |}.

End CrewAI.

(* ===================================================================== *)
(*  Properties                                                            *)
(* ===================================================================== *)

(* ===================================================================== *)
(** * The trace endpoints                                                 *)
(* ===================================================================== *)

Module TracesFacts.
Import Py Http Traces Servers.

(** The summary query cannot be bound: its text holds the LIKE pattern
    '%.error', whose [%.e] is a float conversion without a key, and the
    argument of such a conversion is the parameter dict. *)
Lemma summary_query_unbindable (builtin : ascii → Percent.arg → string)
    (mapping : gmap string string) :
  Percent.format builtin summary_query mapping
  = Raise (Percent.TypeError "must be real number, not dict").
Proof. vm_compute. reflexivity. Qed.

(** Nor can the /recent query, whatever its WHERE clause. *)
Lemma recent_query_unbindable (builtin : ascii → Percent.arg → string)
    (mapping : gmap string string) (rest : string) :
  Percent.format builtin (recent_query_head ++ rest) mapping
  = Raise (Percent.TypeError "must be real number, not dict").
Proof. vm_compute. reflexivity. Qed.

(** The status column as the handlers read it: one of the four values of
    TraceStatus, or 'completed' in place of anything else. *)
Lemma to_TraceStatus_total (status_value : string) :
  ∃ st, to_TraceStatus status_value = Some st ∧
        TraceStatus_value st =
          if existsb (String.eqb status_value) (map TraceStatus_value TraceStatus_members)
          then status_value else "completed".
Proof.
  unfold to_TraceStatus.
  destruct (existsb _ _) eqn:Hknown; [|by exists COMPLETED].
  apply existsb_exists in Hknown as (v & Hin & Heq).
  apply String.eqb_eq in Heq as ->.
  apply in_map_iff in Hin as (st & <- & _).
  exists st. by destruct st.
Qed.

Section Endpoints.
Context {float : Type} (ops : float_ops float).

Lemma detail_by_pyformat (clickhouse : client float) (trace_id project_id : string) :
  binds_by_pyformat clickhouse →
  get_trace_detail ops clickhouse trace_id project_id
  = Return (HTTPException 500 "Failed to fetch trace details").
Proof.
  intros (builtin & quote & server & ->). unfold get_trace_detail. cbn [execute pyformat_client].
  by rewrite summary_query_unbindable.
Qed.

Lemma recent_by_pyformat (clickhouse : client float) (project_id : string)
    (limit offset : Z) (environment : option string) :
  binds_by_pyformat clickhouse →
  get_recent_traces ops clickhouse project_id limit offset environment
  = Return (HTTPException 500 "Failed to fetch recent traces").
Proof.
  intros (builtin & quote & server & ->). unfold get_recent_traces, recent_query.
  cbn [execute pyformat_client]. by rewrite recent_query_unbindable.
Qed.

(** The client the application ships answers every query with no row. *)
Lemma detail_by_mock (trace_id project_id : string) :
  get_trace_detail ops (get_clickhouse_client float) trace_id project_id
  = Return (HTTPException 404 "Trace not found").
Proof. reflexivity. Qed.

Lemma recent_by_mock (project_id : string) (limit offset : Z)
    (environment : option string) :
  get_recent_traces ops (get_clickhouse_client float) project_id limit offset environment
  = Return (Ok []).
Proof. reflexivity. Qed.

(** When the client returns rows, the handlers build their answers from
    them, row by row. *)
Lemma recent_of_rows (clickhouse : client float) (project_id : string)
    (limit offset : Z) (environment : option string) (rows : list (RecentRow.t float)) :
  execute clickhouse Recent (recent_query environment)
          (recent_params project_id limit offset environment) = Return rows →
  ∃ items,
    get_recent_traces ops clickhouse project_id limit offset environment
      = Return (Ok items) ∧
    Forall2 (λ r item, recent_item ops r = Some item) rows items.
Proof.
  intros Hrows. unfold get_recent_traces. rewrite Hrows.
  assert (is_Some (mapM (recent_item ops) rows)) as [items Hitems].
  { apply mapM_is_Some, Forall_forall. intros r _. unfold compose, recent_item.
    destruct (to_TraceStatus_total (RecentRow.status r)) as (st & Hst & _).
    rewrite Hst. by eexists. }
  exists items. rewrite Hitems. split; [done|]. by apply mapM_Some.
Qed.

Lemma detail_of_rows (clickhouse : client float) (trace_id project_id : string)
    (trace_summary : SummaryRow.t float) (rest : list (SummaryRow.t float))
    (timeline_result : list (TimelineRow.t float)) :
  execute clickhouse Summary summary_query (detail_params trace_id project_id)
    = Return (trace_summary :: rest) →
  execute clickhouse Timeline timeline_query (detail_params trace_id project_id)
    = Return timeline_result →
  ∃ d,
    get_trace_detail ops clickhouse trace_id project_id = Return (Ok d) ∧
    to_TraceStatus (SummaryRow.status trace_summary) = Some (TraceDetail.status d) ∧
    TraceDetail.start_time d = SummaryRow.start_time trace_summary ∧
    TraceDetail.end_time d = Some (SummaryRow.end_time trace_summary) ∧
    TraceDetail.duration d = Some (SummaryRow.duration_ms trace_summary).
Proof.
  intros Hsummary Htimeline. unfold get_trace_detail. rewrite Hsummary, Htimeline.
  destruct (to_TraceStatus_total (SummaryRow.status trace_summary)) as (st & Hst & _).
  rewrite Hst. by eexists.
Qed.

End Endpoints.

(** C1 at the failing input. The handlers derive no status themselves:
    when the client returns rows, the status of an answer is the status
    column of its row (anything that is not a value of TraceStatus read
    as 'completed'). The status is derived by the CASE expression inside
    the two queries, and neither query can be executed. Through a client
    that binds the [%(name)s] placeholders (pyformat), whatever it quotes
    and whatever the server holds, binding raises TypeError at the [%.e]
    of LIKE '%.error' and both endpoints answer HTTP 500 for every
    request; with the client database.py provides, execute returns no
    row, so the detail endpoint answers 404 for every trace and the
    listing is empty. No request is answered with a derived status. *)
Theorem status_never_derived {float : Type} (ops : float_ops float) :
  let read status_value :=
    if existsb (String.eqb status_value) (map TraceStatus_value TraceStatus_members)
    then status_value else "completed" in
  (∀ (clickhouse : client float) trace_id project_id trace_summary rest timeline_result,
     execute clickhouse Summary summary_query (detail_params trace_id project_id)
       = Return (trace_summary :: rest) →
     execute clickhouse Timeline timeline_query (detail_params trace_id project_id)
       = Return timeline_result →
     ∃ d, get_trace_detail ops clickhouse trace_id project_id = Return (Ok d) ∧
          TraceStatus_value (TraceDetail.status d)
            = read (SummaryRow.status trace_summary)) ∧
  (∀ (clickhouse : client float) project_id limit offset environment rows,
     execute clickhouse Recent (recent_query environment)
             (recent_params project_id limit offset environment) = Return rows →
     ∃ items,
       get_recent_traces ops clickhouse project_id limit offset environment
         = Return (Ok items) ∧
       Forall2 (λ r item,
                  TraceListItem.id item = RecentRow.trace_id r ∧
                  TraceStatus_value (TraceListItem.status item) = read (RecentRow.status r))
               rows items) ∧
  (∀ clickhouse : client float,
     binds_by_pyformat clickhouse →
     (∀ trace_id project_id,
        get_trace_detail ops clickhouse trace_id project_id
        = Return (HTTPException 500 "Failed to fetch trace details")) ∧
     (∀ project_id limit offset environment,
        get_recent_traces ops clickhouse project_id limit offset environment
        = Return (HTTPException 500 "Failed to fetch recent traces"))) ∧
  (∀ trace_id project_id,
     get_trace_detail ops (get_clickhouse_client float) trace_id project_id
     = Return (HTTPException 404 "Trace not found")) ∧
  (∀ project_id limit offset environment,
     get_recent_traces ops (get_clickhouse_client float) project_id limit offset
                       environment
     = Return (Ok [])).
Proof.
  intros read. split; [|split; [|split; [|split]]].
  - intros clickhouse trace_id project_id trace_summary rest timeline_result Hs Ht.
    destruct (detail_of_rows ops clickhouse _ _ _ _ _ Hs Ht) as (d & Hd & Hst & _).
    exists d. split; [exact Hd|].
    destruct (to_TraceStatus_total (SummaryRow.status trace_summary)) as (st & Hst' & Hv).
    rewrite Hst in Hst'. by injection Hst' as ->.
  - intros clickhouse project_id limit offset environment rows Hrows.
    destruct (recent_of_rows ops clickhouse _ _ _ _ _ Hrows) as (items & Hitems & Hall).
    exists items. split; [exact Hitems|].
    eapply Forall2_impl; [exact Hall|]. cbv beta. intros r item Hitem.
    unfold recent_item in Hitem.
    destruct (to_TraceStatus_total (RecentRow.status r)) as (st & Hst & Hv).
    rewrite Hst in Hitem. cbn in Hitem. by injection Hitem as <-.
  - intros clickhouse Hbinds. split.
    + intros. by apply detail_by_pyformat.
    + intros. by apply recent_by_pyformat.
  - apply detail_by_mock.
  - apply recent_by_mock.
Qed.

(** The trace {agent.start, tool.start, tool.end, agent.end} of project
    "p": the server holds the row with status 'completed' for it, and the
    endpoints answer 500 through the driver and 404 with the client of
    database.py. The timeline query, which has placeholders only, is
    bound by the same driver. *)
Lemma status_never_derived_witness :
  SummaryRow.status summary_of_t = "completed" ∧
  (∃ sql, Percent.format no_builtin timeline_query (quote <$> detail_params "t" "p")
          = Return sql) ∧
  get_trace_detail no_costs driver_of_t "t" "p"
    = Return (HTTPException 500 "Failed to fetch trace details") ∧
  get_recent_traces no_costs driver_of_t "p" 20 0 None
    = Return (HTTPException 500 "Failed to fetch recent traces") ∧
  get_trace_detail no_costs (get_clickhouse_client unit) "t" "p"
    = Return (HTTPException 404 "Trace not found") ∧
  get_recent_traces no_costs (get_clickhouse_client unit) "p" 20 0 None = Return (Ok []).
Proof.
  destruct (status_never_derived no_costs) as (_ & _ & Hdriver & Hdetail & Hrecent).
  destruct (Hdriver driver_of_t) as [H1 H2].
  { by exists no_builtin, quote, server_of_t. }
  split; [reflexivity|]. split; [eexists; vm_compute; reflexivity|].
  split; [apply H1|]. split; [apply H2|].
  split; [apply Hdetail|apply Hrecent].
Defined.

(** C4 at the failing input. The handlers compute no time bound
    themselves: when the client returns rows, start, end and duration of
    an answer are the columns min(timestamp), max(timestamp) and their
    difference of its row. These are computed inside the same two
    queries. Through a client that binds by pyformat, or with the client
    database.py provides, no request for a trace is answered with a
    detail, and no listing holds a trace: no start time, end time or
    duration is ever reported, in whatever order the events arrived. *)
Theorem time_bounds_never_reported {float : Type} (ops : float_ops float)
    (clickhouse : client float) :
  (∀ trace_id project_id trace_summary rest timeline_result,
     execute clickhouse Summary summary_query (detail_params trace_id project_id)
       = Return (trace_summary :: rest) →
     execute clickhouse Timeline timeline_query (detail_params trace_id project_id)
       = Return timeline_result →
     ∃ d, get_trace_detail ops clickhouse trace_id project_id = Return (Ok d) ∧
          TraceDetail.start_time d = SummaryRow.start_time trace_summary ∧
          TraceDetail.end_time d = Some (SummaryRow.end_time trace_summary) ∧
          TraceDetail.duration d = Some (SummaryRow.duration_ms trace_summary)) ∧
  (∀ project_id limit offset environment rows,
     execute clickhouse Recent (recent_query environment)
             (recent_params project_id limit offset environment) = Return rows →
     ∃ items,
       get_recent_traces ops clickhouse project_id limit offset environment
         = Return (Ok items) ∧
       Forall2 (λ r item,
                  TraceListItem.start_time item = RecentRow.start_time r ∧
                  TraceListItem.duration item = RecentRow.duration_ms r)
               rows items) ∧
  (binds_by_pyformat clickhouse ∨ clickhouse = get_clickhouse_client float →
   (∀ trace_id project_id d,
      get_trace_detail ops clickhouse trace_id project_id ≠ Return (Ok d)) ∧
   (∀ project_id limit offset environment items,
      get_recent_traces ops clickhouse project_id limit offset environment
        = Return (Ok items) →
      items = [])).
Proof.
  split; [|split].
  - intros trace_id project_id trace_summary rest timeline_result Hs Ht.
    destruct (detail_of_rows ops clickhouse _ _ _ _ _ Hs Ht) as (d & Hd & _ & Hbounds).
    by exists d.
  - intros project_id limit offset environment rows Hrows.
    destruct (recent_of_rows ops clickhouse _ _ _ _ _ Hrows) as (items & Hitems & Hall).
    exists items. split; [exact Hitems|].
    eapply Forall2_impl; [exact Hall|]. cbv beta. intros r item Hitem.
    unfold recent_item in Hitem.
    destruct (to_TraceStatus (RecentRow.status r)); [|discriminate].
    cbn in Hitem. by injection Hitem as <-.
  - intros [Hbinds| ->]; split.
    + intros trace_id project_id d. by rewrite detail_by_pyformat.
    + intros project_id limit offset environment items.
      by rewrite recent_by_pyformat.
    + intros trace_id project_id d. by rewrite detail_by_mock.
    + intros project_id limit offset environment items. rewrite recent_by_mock.
      by intros [= <-].
Qed.

(** The events of trace "t" stamped 7, 2, 12, 9: the server holds start 2,
    end 12 and duration 10 for it; the endpoint does not answer with them. *)
Lemma time_bounds_never_reported_witness :
  (TraceDetail.start_time detail_of_t, TraceDetail.end_time detail_of_t,
   TraceDetail.duration detail_of_t) = (2, Some 12, Some 10) ∧
  get_trace_detail no_costs driver_of_t "t" "p" ≠ Return (Ok detail_of_t) ∧
  (∀ items, get_recent_traces no_costs driver_of_t "p" 20 0 None = Return (Ok items) →
            items = []).
Proof.
  destruct (time_bounds_never_reported no_costs driver_of_t) as (_ & _ & Hnever).
  destruct Hnever as [Hdetail Hrecent].
  { left. by exists no_builtin, quote, server_of_t. }
  split; [reflexivity|]. split; [apply Hdetail|apply Hrecent].
Defined.

End TracesFacts.

(* ===================================================================== *)
(** * The buffering client                                                *)
(* ===================================================================== *)

Module ClientFacts.
Import Py Types Client.

(** ** List objects *)

Lemma list_get_ext (a : nat) (w w' : world) :
  lists w' !! a = lists w !! a → list_get a w' = list_get a w.
Proof. unfold list_get. by intros ->. Qed.

Lemma fresh_not_allocated (w : world) (a : nat) :
  a ∈ dom (lists w) → fresh (dom (lists w)) ≠ a.
Proof. intros Ha Heq. apply (is_fresh (dom (lists w))). by rewrite Heq. Qed.

(** ** What the methods do to each component of the state *)

(** Flushing an empty buffer changes nothing and raises nothing. *)
Lemma flush_events_empty (self : nat) (c : Attrs.t) (w : world) :
  clients w !! self = Some c →
  list_get (Attrs._event_buffer c) w = [] →
  ReplAyClient._flush_events self w = (Return tt, w).
Proof. intros Hc Hl. unfold ReplAyClient._flush_events. by rewrite Hc, Hl. Qed.

(** Flushing a non-empty buffer: the copy is a new list object, the buffer
    is emptied in place and the flush time is stamped; then, with an event
    loop, one coroutine is scheduled with the copy, and without one the
    method raises and nothing is scheduled. *)
Lemma flush_events_nonempty (self : nat) (c : Attrs.t) (w : world) :
  clients w !! self = Some c →
  list_get (Attrs._event_buffer c) w ≠ [] →
  let a := fresh (dom (lists w)) in
  let w' := snd (ReplAyClient._flush_events self w) in
  lists w' = <[Attrs._event_buffer c := []]>
               (<[a := list_get (Attrs._event_buffer c) w]> (lists w)) ∧
  clients w' = <[self := ReplAyClient.set_last_flush (clock w) c]> (clients w) ∧
  (if event_loop w
   then fst (ReplAyClient._flush_events self w) = Return tt ∧
        tasks w' = (tasks w ++ [{| task_self := self; task_events := a |}])%list
   else fst (ReplAyClient._flush_events self w) = Raise ReplAyClient.no_running_loop ∧
        tasks w' = tasks w) ∧
  clock w' = clock w ∧ _global_client w' = _global_client w ∧
  event_loop w' = event_loop w.
Proof.
  intros Hc Hl a w'. subst w'. unfold ReplAyClient._flush_events. rewrite Hc.
  destruct (list_get (Attrs._event_buffer c) w) as [|e l] eqn:Hb; [done|].
  unfold list_copy, list_new. rewrite Hb. cbn.
  destruct (event_loop w) eqn:He; cbn; rewrite ?He; repeat split; done.
Qed.

Lemma appended_spec (c : Attrs.t) (event : TelemetryEvent) (w : world) :
  let w' := ReplAyClient.appended c event w in
  lists w' = <[Attrs._event_buffer c :=
                 (list_get (Attrs._event_buffer c) w ++ [event])%list]> (lists w) ∧
  clients w' = clients w ∧ tasks w' = tasks w ∧ clock w' = clock w ∧
  _global_client w' = _global_client w ∧ event_loop w' = event_loop w.
Proof.
  unfold ReplAyClient.appended. destruct (Attrs.debug c); cbn; repeat split.
Qed.

Lemma track_event_unfold (self : nat) (c : Attrs.t) (event : TelemetryEvent) (w : world) :
  clients w !! self = Some c →
  ReplAyClient.track_event self event w =
  if ReplAyClient.flush_due c (ReplAyClient.appended c event w)
  then ReplAyClient._flush_events self (ReplAyClient.appended c event w)
  else (Return tt, ReplAyClient.appended c event w).
Proof. intros Hc. unfold ReplAyClient.track_event. by rewrite Hc. Qed.

Lemma buffered_eq (self : nat) (c : Attrs.t) (w : world) :
  clients w !! self = Some c → buffered self w = list_get (Attrs._event_buffer c) w.
Proof. intros Hc. unfold buffered. by rewrite Hc. Qed.

(** ** The append *)

Lemma appended_step (self : nat) (c : Attrs.t) (event : TelemetryEvent) (w : world) :
  wf w → clients w !! self = Some c →
  let w' := ReplAyClient.appended c event w in
  wf w' ∧
  buffered self w' = (buffered self w ++ [event])%list ∧
  (∀ t, t ∈ tasks w → batch t w' = batch t w).
Proof.
  intros (Hbuf & Htask & Hsep) Hc w'.
  destruct (appended_spec c event w) as (Hl & Hcl & Ht & _).
  fold w' in Hl, Hcl, Ht.
  split; [|split].
  - split; [|split].
    + intros s c' Hs. rewrite Hcl in Hs. rewrite Hl, dom_insert.
      apply elem_of_union_r. eauto.
    + intros t Hin. rewrite Ht in Hin. rewrite Hl, dom_insert.
      apply elem_of_union_r. eauto.
    + intros s c' t Hs Hin. rewrite Hcl in Hs. rewrite Ht in Hin. eauto.
  - unfold buffered. rewrite Hcl, Hc. unfold list_get at 1.
    rewrite Hl, lookup_insert_eq. reflexivity.
  - intros t Hin. unfold batch. apply list_get_ext.
    rewrite Hl. apply lookup_insert_ne. intros Heq. by apply (Hsep self c t).
Qed.

(** ** The flush *)

Lemma flush_step (self : nat) (c : Attrs.t) (w : world) :
  wf w → clients w !! self = Some c →
  let w' := snd (ReplAyClient._flush_events self w) in
  wf w' ∧
  buffered self w' = [] ∧
  (∀ t, t ∈ tasks w → batch t w' = batch t w) ∧
  (buffered self w = [] → ReplAyClient._flush_events self w = (Return tt, w)) ∧
  (buffered self w ≠ [] →
     clients w' = <[self := ReplAyClient.set_last_flush (clock w) c]> (clients w) ∧
     if event_loop w
     then fst (ReplAyClient._flush_events self w) = Return tt ∧
          ∃ t, tasks w' = (tasks w ++ [t])%list ∧ task_self t = self ∧
               batch t w' = buffered self w
     else fst (ReplAyClient._flush_events self w) = Raise ReplAyClient.no_running_loop ∧
          tasks w' = tasks w) ∧
  clock w' = clock w ∧ event_loop w' = event_loop w ∧
  is_Some (clients w' !! self).
Proof.
  intros Hwf Hc w'. pose proof Hwf as (Hbuf & Htask & Hsep).
  rewrite (buffered_eq self c w Hc).
  destruct (list_get (Attrs._event_buffer c) w) as [|e l] eqn:Hl.
  - assert (ReplAyClient._flush_events self w = (Return tt, w)) as Hw
      by (by apply (flush_events_empty self c)).
    subst w'. rewrite Hw. cbn [snd]. repeat split; try done; eauto.
    by rewrite (buffered_eq self c w Hc).
  - assert (list_get (Attrs._event_buffer c) w ≠ []) as Hne by (by rewrite Hl).
    destruct (flush_events_nonempty self c w Hc Hne)
      as (Hls & Hcl & Hts & Hck & _ & Hev).
    fold w' in Hls, Hcl, Hts, Hck, Hev. rewrite Hl in Hls.
    set (a := fresh (dom (lists w))) in *.
    set (b := Attrs._event_buffer c) in *.
    assert (b ∈ dom (lists w)) as Hb by (by apply (Hbuf self c)).
    assert (a ≠ b) as Hab by (by apply fresh_not_allocated).
    assert (Hclb : ∀ s c', clients w' !! s = Some c' →
              ∃ c0, clients w !! s = Some c0 ∧ Attrs._event_buffer c' = Attrs._event_buffer c0).
    { intros s c' Hs. rewrite Hcl in Hs.
      apply lookup_insert_Some in Hs as [[<- <-]|[_ Hs]]; eauto. }
    assert (Htin : ∀ t, t ∈ tasks w' →
              t ∈ tasks w ∨ t = {| task_self := self; task_events := a |}).
    { intros t Hin. destruct (event_loop w).
      - destruct Hts as [_ Hts]. rewrite Hts in Hin.
        apply elem_of_app in Hin as [Hin|Hin]; [by left|].
        apply list_elem_of_singleton in Hin. by right.
      - destruct Hts as [_ Hts]. rewrite Hts in Hin. by left. }
    split; [|split; [|split; [|split; [|split; [|split; [|split]]]]]].
    + split; [|split].
      * intros s c' Hs. destruct (Hclb s c' Hs) as (c0 & Hs0 & ->).
        rewrite Hls, !dom_insert. apply elem_of_union_r, elem_of_union_r. eauto.
      * intros t Hin. rewrite Hls, !dom_insert.
        destruct (Htin t Hin) as [Hold| ->].
        -- apply elem_of_union_r, elem_of_union_r. eauto.
        -- cbn. apply elem_of_union_r, elem_of_union_l, elem_of_singleton. done.
      * intros s c' t Hs Hin. destruct (Hclb s c' Hs) as (c0 & Hs0 & ->).
        destruct (Htin t Hin) as [Hold| ->].
        -- eauto.
        -- cbn. apply fresh_not_allocated. eauto.
    + unfold buffered. rewrite Hcl, lookup_insert_eq. cbn. fold b.
      unfold list_get. by rewrite Hls, lookup_insert_eq.
    + intros t Hin. unfold batch. apply list_get_ext. rewrite Hls.
      rewrite lookup_insert_ne by (intros Heq; by apply (Hsep self c t)).
      apply lookup_insert_ne. apply fresh_not_allocated. eauto.
    + done.
    + intros _. split; [exact Hcl|].
      destruct (event_loop w).
      * destruct Hts as [Hr Hts]. split; [exact Hr|].
        eexists. split; [exact Hts|]. split; [done|].
        unfold batch. cbn. unfold list_get.
        rewrite Hls, lookup_insert_ne by done. by rewrite lookup_insert_eq.
      * exact Hts.
    + done.
    + done.
    + rewrite Hcl, lookup_insert_eq. eauto.
Qed.

Lemma handed_over_extend (w w' : world) (extra : list task) :
  tasks w' = (tasks w ++ extra)%list →
  (∀ t, t ∈ tasks w → batch t w' = batch t w) →
  handed_over w' = (handed_over w ++ concat (map (λ t, batch t w') extra))%list.
Proof.
  intros Ht Hb. unfold handed_over. rewrite Ht, map_app, concat_app. f_equal.
  f_equal. apply map_ext_in. intros t Hin. apply Hb. by apply list_elem_of_In.
Qed.

Lemma handed_over_same (w w' : world) :
  tasks w' = tasks w →
  (∀ t, t ∈ tasks w → batch t w' = batch t w) →
  handed_over w' = handed_over w.
Proof.
  intros Ht Hb. rewrite (handed_over_extend w w' []).
  - cbn. by rewrite app_nil_r.
  - by rewrite app_nil_r.
  - done.
Qed.

(** With an event loop a flush returns and hands over exactly what was queued. *)
Lemma flush_handed_over (self : nat) (c : Attrs.t) (w : world) :
  wf w → clients w !! self = Some c → event_loop w = true →
  fst (ReplAyClient._flush_events self w) = Return tt ∧
  handed_over (snd (ReplAyClient._flush_events self w))
  = (handed_over w ++ buffered self w)%list.
Proof.
  intros Hwf Hc Hloop.
  destruct (flush_step self c w Hwf Hc) as (_ & _ & Hold & Hempty & Hfull & _).
  destruct (buffered self w) as [|e l] eqn:Hb.
  - rewrite Hempty by done. cbn [fst snd]. by rewrite app_nil_r.
  - destruct Hfull as (_ & Hfull); [done|]. rewrite Hloop in Hfull.
    destruct Hfull as (Hr & t & Hts & _ & Hbt). split; [exact Hr|].
    rewrite (handed_over_extend w _ [t] Hts Hold). cbn.
    by rewrite Hbt, app_nil_r.
Qed.

(** Without an event loop a flush of a non-empty queue raises and hands
    nothing over, yet the queue is emptied. *)
Lemma flush_no_loop (self : nat) (c : Attrs.t) (w : world) :
  wf w → clients w !! self = Some c → event_loop w = false →
  buffered self w ≠ [] →
  fst (ReplAyClient._flush_events self w) = Raise ReplAyClient.no_running_loop ∧
  handed_over (snd (ReplAyClient._flush_events self w)) = handed_over w ∧
  buffered self (snd (ReplAyClient._flush_events self w)) = [].
Proof.
  intros Hwf Hc Hloop Hne.
  destruct (flush_step self c w Hwf Hc) as (_ & Hb & Hold & _ & Hfull & _).
  destruct (Hfull Hne) as (_ & Hf). rewrite Hloop in Hf. destruct Hf as [Hr Hts].
  split; [exact Hr|]. split; [|exact Hb]. by apply handed_over_same.
Qed.

(** ** One call of track_event *)

Lemma track_step (self : nat) (c : Attrs.t) (event : TelemetryEvent) (w : world) :
  wf w → clients w !! self = Some c →
  let w' := snd (ReplAyClient.track_event self event w) in
  wf w' ∧
  (∃ extra, tasks w' = (tasks w ++ extra)%list) ∧
  (∀ t, t ∈ tasks w → batch t w' = batch t w) ∧
  (event_loop w = true →
     fst (ReplAyClient.track_event self event w) = Return tt ∧
     (handed_over w' ++ buffered self w'
      = handed_over w ++ buffered self w ++ [event])%list) ∧
  is_Some (clients w' !! self) ∧
  clock w' = clock w ∧ event_loop w' = event_loop w.
Proof.
  intros Hwf Hc w'. subst w'. rewrite (track_event_unfold self c event w Hc).
  destruct (appended_step self c event w Hwf Hc) as (Hwf1 & Hb1 & Hold1).
  destruct (appended_spec c event w) as (_ & Hcl1 & Ht1 & Hck1 & _ & Hev1).
  set (w1 := ReplAyClient.appended c event w) in *.
  assert (clients w1 !! self = Some c) as Hc1 by (by rewrite Hcl1).
  assert (handed_over w1 = handed_over w) as Hh1 by (by apply handed_over_same).
  destruct (ReplAyClient.flush_due c w1).
  - destruct (flush_step self c w1 Hwf1 Hc1)
      as (Hwf2 & Hb2 & Hold2 & Hempty & Hfull & Hck2 & Hev2 & Hsome).
    split; [done|]. split; [|split; [|split; [|split; [|split]]]].
    + destruct (buffered self w1) as [|e l] eqn:Hb.
      * rewrite Hempty by done. cbn [fst snd]. exists []. by rewrite Ht1, app_nil_r.
      * destruct Hfull as (_ & Hfull); [done|]. destruct (event_loop w1).
        -- destruct Hfull as (_ & t & Hts & _). exists [t]. by rewrite Hts, Ht1.
        -- destruct Hfull as (_ & Hts). exists []. by rewrite Hts, Ht1, app_nil_r.
    + intros t Hin. rewrite Hold2 by (by rewrite Ht1). by apply Hold1.
    + intros Hloop. rewrite <- Hev1 in Hloop.
      destruct (flush_handed_over self c w1 Hwf1 Hc1 Hloop) as [Hr Hh].
      split; [exact Hr|]. by rewrite Hb2, app_nil_r, Hh, Hh1, Hb1.
    + exact Hsome.
    + by rewrite Hck2.
    + by rewrite Hev2.
  - cbn [fst snd]. split; [done|]. split; [|split; [|split; [|split; [|split]]]].
    + exists []. by rewrite Ht1, app_nil_r.
    + done.
    + intros _. split; [done|]. by rewrite Hh1, Hb1.
    + eauto.
    + done.
    + done.
Qed.

(** ** Runs of operations *)

Lemma op_step (o : op) (w : world) :
  wf w →
  wf (run_op o w) ∧
  (∃ extra, tasks (run_op o w) = (tasks w ++ extra)%list) ∧
  (∀ t, t ∈ tasks w → batch t (run_op o w) = batch t w) ∧
  event_loop (run_op o w) = event_loop w.
Proof.
  intros Hwf. destruct o as [s event|s|ms]; cbn.
  - destruct (clients w !! s) as [c|] eqn:Hc.
    + destruct (track_step s c event w Hwf Hc) as (H1 & H2 & H3 & _ & _ & _ & H4). done.
    + unfold ReplAyClient.track_event. rewrite Hc. cbn.
      split; [done|]. split; [|done]. exists []. by rewrite app_nil_r.
  - unfold ReplAyClient.flush. destruct (clients w !! s) as [c|] eqn:Hc.
    + destruct (flush_step s c w Hwf Hc) as (H1 & _ & H3 & Hempty & Hfull & _ & H4 & _).
      split; [done|]. split; [|done].
      destruct (buffered s w) as [|e l] eqn:Hb.
      * rewrite Hempty by done. cbn [fst snd]. exists []. by rewrite app_nil_r.
      * destruct Hfull as (_ & Hfull); [done|]. destruct (event_loop w).
        -- destruct Hfull as (_ & t & Hts & _). eauto.
        -- destruct Hfull as (_ & Hts). exists []. by rewrite Hts, app_nil_r.
    + unfold ReplAyClient._flush_events. rewrite Hc. cbn.
      split; [done|]. split; [|done]. exists []. by rewrite app_nil_r.
  - split; [exact Hwf|]. split; [|done]. exists []. by rewrite app_nil_r.
Qed.

Lemma ops_steps (os : list op) (w : world) :
  wf w →
  wf (run_ops os w) ∧
  (∃ extra, tasks (run_ops os w) = (tasks w ++ extra)%list) ∧
  (∀ t, t ∈ tasks w → batch t (run_ops os w) = batch t w) ∧
  event_loop (run_ops os w) = event_loop w.
Proof.
  revert w. induction os as [|o os IH]; intros w Hwf; cbn.
  - split; [done|]. split; [|done]. exists []. by rewrite app_nil_r.
  - destruct (op_step o w Hwf) as (Hwf1 & (ex1 & Ht1) & Hb1 & He1).
    destruct (IH (run_op o w) Hwf1) as (Hwf2 & (ex2 & Ht2) & Hb2 & He2).
    split; [done|]. split; [|split].
    + exists (ex1 ++ ex2)%list. unfold run_ops in Ht2. rewrite Ht2, Ht1.
      by rewrite app_assoc.
    + intros t Hin. unfold run_ops in Hb2. rewrite Hb2.
      * by apply Hb1.
      * rewrite Ht1. apply elem_of_app. by left.
    + unfold run_ops in He2. by rewrite He2.
Qed.

(** With an event loop, serial use of one client neither loses nor
    duplicates nor reorders an event: what has been handed over followed by
    what is still queued is what it was before followed by the events
    recorded since. *)
Lemma ops_conserve (self : nat) (os : list op) (w : world) :
  wf w → is_Some (clients w !! self) → event_loop w = true → only_on self os →
  (handed_over (run_ops os w) ++ buffered self (run_ops os w)
   = handed_over w ++ buffered self w ++ tracked os)%list ∧
  is_Some (clients (run_ops os w) !! self).
Proof.
  revert w. induction os as [|o os IH]; intros w Hwf [c Hc] Hloop Hon.
  - cbn. rewrite !app_nil_r. eauto.
  - apply Forall_cons in Hon as [Ho Hon].
    destruct (op_step o w Hwf) as (Hwf1 & _ & _ & Hev1).
    assert ((handed_over (run_op o w) ++ buffered self (run_op o w)
             = handed_over w ++ buffered self w
                 ++ match o with Track _ event => [event] | _ => [] end)%list
            ∧ is_Some (clients (run_op o w) !! self)) as [Hstep Hsome].
    { destruct o as [s event|s|ms]; cbn.
      - subst s.
        destruct (track_step self c event w Hwf Hc) as (_ & _ & _ & H & Hs & _).
        destruct (H Hloop) as [_ Hcons]. done.
      - subst s. unfold ReplAyClient.flush.
        destruct (flush_step self c w Hwf Hc) as (_ & Hb & _ & _ & _ & _ & _ & Hs).
        destruct (flush_handed_over self c w Hwf Hc Hloop) as [_ Hh].
        by rewrite Hb, !app_nil_r, Hh.
      - rewrite app_nil_r. split; [reflexivity|eauto]. }
    destruct (IH (run_op o w) Hwf1 Hsome) as [Hrest Hsome'];
      [by rewrite Hev1|exact Hon|].
    split; [|exact Hsome'].
    change (run_ops (o :: os) w) with (run_ops os (run_op o w)).
    rewrite Hrest, (app_assoc (handed_over (run_op o w))), Hstep.
    cbn [tracked flat_map]. fold (tracked os). by rewrite <- !app_assoc.
Qed.

(** ** The constructor *)

Lemma wf_boot : wf boot.
Proof.
  split; [|split].
  - intros s c Hs. cbn in Hs. by rewrite lookup_empty in Hs.
  - intros t Ht. cbn in Ht. by apply elem_of_nil in Ht.
  - intros s c t Hs. cbn in Hs. by rewrite lookup_empty in Hs.
Qed.

Lemma init_step (api_key : string) (project_id : option string)
    (kw : ReplAyClient.kwargs) (w : world) :
  wf w →
  let self := fst (ReplAyClient.__init__ api_key project_id kw w) in
  let w' := snd (ReplAyClient.__init__ api_key project_id kw w) in
  wf w' ∧
  clients w !! self = None ∧
  (∃ c, clients w' !! self = Some c ∧
        Attrs.batch_size c = default 100 (ReplAyClient.kw_batch_size kw) ∧
        Attrs.flush_interval_seconds c
          = default 30 (ReplAyClient.kw_flush_interval_seconds kw) ∧
        Attrs._last_flush c = clock w) ∧
  buffered self w' = [] ∧
  tasks w' = tasks w ∧
  _global_client w' = _global_client w ∧
  event_loop w' = event_loop w ∧
  (∀ t, t ∈ tasks w → batch t w' = batch t w).
Proof.
  intros (Hbuf & Htask & Hsep) self w'. subst self w'.
  unfold ReplAyClient.__init__, uuid4, list_new. cbn.
  set (a := fresh (dom (lists w))).
  set (self := fresh (dom (clients w))).
  assert (clients w !! self = None) as Hnew.
  { apply not_elem_of_dom. apply is_fresh. }
  split; [|split; [done|split; [|split; [|split; [done|split; [done|split; [done|]]]]]]].
  - split; [|split]; cbn.
    + intros s c Hs. rewrite dom_insert.
      apply lookup_insert_Some in Hs as [[_ <-]|[_ Hs]]; cbn.
      * apply elem_of_union_l, elem_of_singleton. done.
      * apply elem_of_union_r. eauto.
    + intros t Hin. rewrite dom_insert. apply elem_of_union_r. eauto.
    + intros s c t Hs Hin.
      apply lookup_insert_Some in Hs as [[_ <-]|[_ Hs]]; cbn.
      * intros Heq. apply (is_fresh (dom (lists w))). fold a. rewrite <- Heq. eauto.
      * eauto.
  - eexists. rewrite lookup_insert_eq. split; [reflexivity|]. cbn. done.
  - unfold buffered. cbn. rewrite lookup_insert_eq. cbn.
    unfold list_get. cbn. by rewrite lookup_insert_eq.
  - intros t Hin. unfold batch, list_get. cbn.
    rewrite lookup_insert_ne; [done|]. apply fresh_not_allocated. eauto.
Qed.

Lemma wf_started (n : Z) : wf (snd (started n)).
Proof.
  unfold started, initialize.
  pose proof (init_step "key" None
    {| ReplAyClient.kw_base_url := None; ReplAyClient.kw_environment := None;
       ReplAyClient.kw_batch_size := Some n;
       ReplAyClient.kw_flush_interval_seconds := None;
       ReplAyClient.kw_debug := None |} boot wf_boot) as (H & _).
  destruct (ReplAyClient.__init__ _ _ _ _) as [c w]. cbn in *.
  destruct H as (H1 & H2 & H3). split; [|split]; done.
Qed.

Lemma wf_two_queued : wf two_queued.
Proof. apply ops_steps, wf_started. Qed.

Lemma wf_two_queued_no_loop : wf two_queued_no_loop.
Proof. destruct wf_two_queued as (H1 & H2 & H3). split; [|split]; done. Qed.

(* ===================================================================== *)
(** * Flush                                                               *)
(* ===================================================================== *)

(** X13. Flush drains the current queue snapshot when the thread has an event
    loop. In every reachable state of a client: flush() returns, its buffer
    is empty afterwards; the events handed to transmission are those
    handed over before followed by exactly the events that were queued, as
    one new batch when there were any; no later operation changes a batch
    already handed over; and the events recorded afterwards are found, each
    once and in order, in the emptied queue or in batches handed over
    later. *)
Lemma flush_drains_snapshot_with_loop (self : nat) (w : world) :
  wf w → is_Some (clients w !! self) → event_loop w = true →
  let w' := snd (ReplAyClient.flush self w) in
  fst (ReplAyClient.flush self w) = Return tt ∧
  buffered self w' = [] ∧
  handed_over w' = (handed_over w ++ buffered self w)%list ∧
  (buffered self w ≠ [] →
     ∃ t, tasks w' = (tasks w ++ [t])%list ∧ task_self t = self ∧
          batch t w' = buffered self w) ∧
  (∀ os t, t ∈ tasks w' → batch t (run_ops os w') = batch t w') ∧
  (∀ os, only_on self os →
     (handed_over (run_ops os w') ++ buffered self (run_ops os w')
      = handed_over w' ++ tracked os)%list).
Proof.
  intros Hwf [c Hc] Hloop w'. subst w'. unfold ReplAyClient.flush.
  destruct (flush_step self c w Hwf Hc)
    as (Hwf' & Hb & _ & Hempty & Hfull & _ & Hev & Hsome).
  destruct (flush_handed_over self c w Hwf Hc Hloop) as [Hr Hh].
  split; [exact Hr|]. split; [exact Hb|]. split; [exact Hh|]. split; [|split].
  - intros Hne. destruct (Hfull Hne) as (_ & Hf). rewrite Hloop in Hf.
    destruct Hf as (_ & t & Ht & Hs & Hbt). eauto.
  - intros os t Hin. by apply (ops_steps os _ Hwf').
  - intros os Hon.
    destruct (ops_conserve self os _ Hwf' Hsome) as [H _]; [by rewrite Hev|exact Hon|].
    by rewrite H, Hb.
Qed.

(** C5 at the failing input. In a thread without an event loop, flush() on a
    client with queued events empties the buffer and then raises the
    RuntimeError of asyncio.create_task: no batch is scheduled, nothing is
    handed to transmission, and the queued events are in neither the
    buffer nor any batch. *)
Theorem flush_without_loop_drops_batch (self : nat) (w : world) :
  wf w → is_Some (clients w !! self) → event_loop w = false →
  buffered self w ≠ [] →
  let w' := snd (ReplAyClient.flush self w) in
  fst (ReplAyClient.flush self w) = Raise ReplAyClient.no_running_loop ∧
  buffered self w' = [] ∧
  tasks w' = tasks w ∧
  handed_over w' = handed_over w.
Proof.
  intros Hwf [c Hc] Hloop Hne w'. subst w'. unfold ReplAyClient.flush.
  destruct (flush_no_loop self c w Hwf Hc Hloop Hne) as (Hr & Hh & Hb).
  destruct (flush_step self c w Hwf Hc) as (_ & _ & _ & _ & Hfull & _).
  destruct (Hfull Hne) as (_ & Hf). rewrite Hloop in Hf. destruct Hf as [_ Hts].
  done.
Qed.

(** The client holding "a" and "b" in a thread without an event loop: the
    flush raises, the buffer is empty and no batch exists. *)
Lemma flush_without_loop_drops_batch_witness :
  map event_id (buffered 0 two_queued_no_loop) = ["a"; "b"] ∧
  fst (ReplAyClient.flush 0 two_queued_no_loop) = Raise ReplAyClient.no_running_loop ∧
  buffered 0 (snd (ReplAyClient.flush 0 two_queued_no_loop)) = [] ∧
  handed_over (snd (ReplAyClient.flush 0 two_queued_no_loop)) = [].
Proof.
  destruct (flush_without_loop_drops_batch 0 two_queued_no_loop wf_two_queued_no_loop)
    as (H1 & H2 & _ & H4).
  { vm_compute. eauto. }
  { reflexivity. }
  { vm_compute. discriminate. }
  split; [vm_compute; reflexivity|]. split; [exact H1|]. split; [exact H2|].
  rewrite H4. vm_compute. reflexivity.
Defined.

(* ===================================================================== *)
(** * Auto-flush                                                          *)
(* ===================================================================== *)

Lemma flush_due_appended (self : nat) (c : Attrs.t) (event : TelemetryEvent) (w : world) :
  wf w → clients w !! self = Some c →
  ReplAyClient.flush_due c (ReplAyClient.appended c event w) = true ↔
  (Attrs.batch_size c <= Z.of_nat (length (buffered self w)) + 1 ∨
   1000 * Attrs.flush_interval_seconds c <= clock w - Attrs._last_flush c).
Proof.
  intros Hwf Hc.
  destruct (appended_step self c event w Hwf Hc) as (_ & Hb & _).
  destruct (appended_spec c event w) as (_ & Hcl & _ & Hck & _).
  unfold ReplAyClient.flush_due.
  rewrite <- (buffered_eq self c (ReplAyClient.appended c event w)) by (by rewrite Hcl).
  rewrite Hb, Hck, length_app. cbn [length].
  rewrite orb_true_iff, !Z.geb_leb, !Z.leb_le. lia.
Qed.

(** C6. Auto-flush triggers exactly when, after the append inside
    track_event, the queue length has reached batch_size or the time since
    the last flush has reached flush_interval_seconds. In that case the
    flush runs within the same call: the queue, the new event included, is
    emptied, the flush time is set, and the batch is scheduled (in a
    thread without an event loop the scheduling raises instead). Otherwise
    the call returns with the event queued, nothing handed over and the
    client unchanged. Flushing an empty buffer changes nothing and raises
    nothing. *)
Theorem auto_flush_trigger (self : nat) (c : Attrs.t) (event : TelemetryEvent) (w : world) :
  wf w → clients w !! self = Some c →
  let due :=
    Attrs.batch_size c <= Z.of_nat (length (buffered self w)) + 1 ∨
    1000 * Attrs.flush_interval_seconds c <= clock w - Attrs._last_flush c in
  let w' := snd (ReplAyClient.track_event self event w) in
  (due →
     buffered self w' = [] ∧
     (∃ c', clients w' !! self = Some c' ∧ Attrs._last_flush c' = clock w) ∧
     if event_loop w
     then fst (ReplAyClient.track_event self event w) = Return tt ∧
          ∃ t, tasks w' = (tasks w ++ [t])%list ∧ task_self t = self ∧
               batch t w' = (buffered self w ++ [event])%list
     else fst (ReplAyClient.track_event self event w)
            = Raise ReplAyClient.no_running_loop ∧
          tasks w' = tasks w) ∧
  (¬ due →
     fst (ReplAyClient.track_event self event w) = Return tt ∧
     buffered self w' = (buffered self w ++ [event])%list ∧
     tasks w' = tasks w ∧ clients w' = clients w) ∧
  (buffered self w = [] → ReplAyClient.flush self w = (Return tt, w)).
Proof.
  intros Hwf Hc due w'. subst w'.
  rewrite (track_event_unfold self c event w Hc).
  pose proof (flush_due_appended self c event w Hwf Hc) as Hdue. fold due in Hdue.
  destruct (appended_step self c event w Hwf Hc) as (Hwf1 & Hb1 & _).
  destruct (appended_spec c event w) as (_ & Hcl1 & Ht1 & Hck1 & _ & Hev1).
  set (w1 := ReplAyClient.appended c event w) in *.
  assert (clients w1 !! self = Some c) as Hc1 by (by rewrite Hcl1).
  split; [|split].
  - intros Hd. apply Hdue in Hd. rewrite Hd.
    destruct (flush_step self c w1 Hwf1 Hc1) as (_ & Hb & _ & _ & Hfull & _).
    destruct Hfull as (Hcl & Hfull).
    { rewrite Hb1. by destruct (buffered self w). }
    split; [exact Hb|]. split.
    + eexists. rewrite Hcl, lookup_insert_eq. split; [reflexivity|]. cbn. exact Hck1.
    + rewrite Hev1 in Hfull. destruct (event_loop w).
      * destruct Hfull as (Hr & t & Hts & Hs & Hbt). split; [exact Hr|].
        exists t. by rewrite Hts, Ht1, Hbt, Hb1.
      * destruct Hfull as (Hr & Hts). split; [exact Hr|]. by rewrite Hts.
  - intros Hnd.
    destruct (ReplAyClient.flush_due c w1) eqn:Hf.
    + exfalso. apply Hnd. by apply Hdue.
    + done.
  - intros Hempty. unfold ReplAyClient.flush.
    apply (flush_events_empty self c w Hc). by rewrite <- (buffered_eq self c w Hc).
Qed.

(** With batch_size 3: the third event recorded triggers the flush of all
    three; the second did not. *)
Lemma auto_flush_trigger_witness :
  map event_id (buffered 0 two_queued) = ["a"; "b"] ∧
  tasks two_queued = [] ∧
  buffered 0 (snd (ReplAyClient.track_event 0 (sample_event "c" AGENT_START) two_queued))
    = [] ∧
  ∃ t, tasks (snd (ReplAyClient.track_event 0 (sample_event "c" AGENT_START) two_queued))
         = [t] ∧
       map event_id
           (batch t (snd (ReplAyClient.track_event 0 (sample_event "c" AGENT_START)
                                                   two_queued)))
         = ["a"; "b"; "c"].
Proof.
  split; [vm_compute; reflexivity|]. split; [vm_compute; reflexivity|].
  assert (clients two_queued !! 0%nat = Some (started_attrs 3)) as Hc
    by (vm_compute; reflexivity).
  destruct (auto_flush_trigger 0 (started_attrs 3) (sample_event "c" AGENT_START)
              two_queued wf_two_queued Hc) as ((Hb & _ & Hloop) & _).
  { left. vm_compute. discriminate. }
  change (event_loop two_queued) with true in Hloop. cbv iota in Hloop.
  destruct Hloop as (_ & t & Ht & _ & Hbt).
  split; [exact Hb|]. exists t. split; [exact Ht|].
  rewrite Hbt. vm_compute. reflexivity.
Defined.

(* ===================================================================== *)
(** * The global client                                                   *)
(* ===================================================================== *)

(** C9. Without an initialized global client the module-level track_event
    records nothing and raises nothing: it returns with every client,
    every list object, the scheduled coroutines and the global variable
    untouched, and prints one line exactly when the event carries a
    session id. After initialize(...) get_client() returns the new client
    and the same call is ReplAyClient.track_event on that client, which
    (with an event loop at hand) returns having taken the event into its
    queue or handed it over. *)
Theorem global_track_event :
  (∀ event w,
     get_client w = None →
     let w' := snd (Client.track_event event w) in
     fst (Client.track_event event w) = Return tt ∧
     clients w' = clients w ∧ lists w' = lists w ∧ tasks w' = tasks w ∧
     _global_client w' = None ∧ clock w' = clock w ∧
     stdout w' =
       (stdout w ++
        if truthy_str (TraceContext.session_id (trace_context event))
        then [("[REPL;ay] No client initialized. Event: "
                 ++ EventType_value (event_type event))%string]
        else [])%list) ∧
  (∀ api_key project_id kw w event,
     wf w →
     let c := fst (initialize api_key project_id kw w) in
     let w1 := snd (initialize api_key project_id kw w) in
     get_client w1 = Some c ∧
     clients w !! c = None ∧
     is_Some (clients w1 !! c) ∧
     Client.track_event event w1 = ReplAyClient.track_event c event w1 ∧
     (event_loop w = true →
        fst (Client.track_event event w1) = Return tt ∧
        (handed_over (snd (Client.track_event event w1))
           ++ buffered c (snd (Client.track_event event w1))
         = handed_over w1 ++ [event])%list)).
Proof.
  split.
  - intros event w Hnone w'. subst w'. unfold Client.track_event. rewrite Hnone.
    unfold get_client in Hnone.
    destruct (truthy_str _); cbn; rewrite ?app_nil_r; repeat split; done.
  - intros api_key project_id kw w event Hwf c w1. subst c w1.
    unfold initialize.
    pose proof (init_step api_key project_id kw w Hwf)
      as (Hwf1 & Hnew & (a & Ha & _) & Hb & Ht & _ & Hev & Hold).
    destruct (ReplAyClient.__init__ api_key project_id kw w) as [c w1]. cbn in *.
    assert (wf (set_global_client (Some c) w1)) as Hwf2.
    { destruct Hwf1 as (H1 & H2 & H3). split; [|split]; done. }
    assert (clients (set_global_client (Some c) w1) !! c = Some a) as Ha2 by exact Ha.
    split; [reflexivity|]. split; [done|]. split; [eauto|]. split; [reflexivity|].
    intros Hloop.
    change (Client.track_event event (set_global_client (Some c) w1))
      with (ReplAyClient.track_event c event (set_global_client (Some c) w1)).
    destruct (track_step c a event _ Hwf2 Ha2) as (_ & _ & _ & H & _).
    destruct H as [Hr Hcons]; [cbn; congruence|].
    split; [exact Hr|]. rewrite Hcons. f_equal.
    change (buffered c (set_global_client (Some c) w1)) with (buffered c w1).
    by rewrite Hb.
Qed.

(** In the fresh process an event without session id leaves the state as it
    is; after initialize the same call queues the event in client 0. *)
Lemma global_track_event_witness :
  Client.track_event (sample_event "a" AGENT_START) boot = (Return tt, boot) ∧
  get_client (snd (started 3)) = Some 0%nat ∧
  map event_id (buffered 0 (snd (Client.track_event (sample_event "a" AGENT_START)
                                                    (snd (started 3))))) = ["a"].
Proof.
  destruct global_track_event as [H1 H2].
  destruct (H1 (sample_event "a" AGENT_START) boot eq_refl) as (_ & _ & _ & _ & _ & _).
  destruct (H2 "key" None
              {| ReplAyClient.kw_base_url := None; ReplAyClient.kw_environment := None;
                 ReplAyClient.kw_batch_size := Some 3;
                 ReplAyClient.kw_flush_interval_seconds := None;
                 ReplAyClient.kw_debug := None |} boot (sample_event "a" AGENT_START) wf_boot)
    as (Hg & _).
  split; [vm_compute; reflexivity|]. split; [exact Hg|].
  vm_compute. reflexivity.
Defined.

End ClientFacts.

(* ===================================================================== *)
(** * Concurrent call sites                                               *)
(* ===================================================================== *)

Module InterleavingFacts.
Import Py Types Client Interleaving ClientFacts.

Lemma steps_S (n : nat) (tw : thread * world) :
  steps (S n) tw = step (fst (steps n tw)) (snd (steps n tw)).
Proof. reflexivity. Qed.

Lemma steps_1 (tw : thread * world) : steps 1 tw = step (fst tw) (snd tw).
Proof. reflexivity. Qed.

Lemma steps_add (n m : nat) (tw : thread * world) :
  steps (n + m) tw = steps n (steps m tw).
Proof. unfold steps. apply Nat.iter_add. Qed.

Lemma step_final (self : nat) (event : TelemetryEvent) (r : result unit) (w : world) :
  step (at_pc (call self event) (final_pc r)) w
  = (at_pc (call self event) (final_pc r), w).
Proof. unfold step. destruct r; cbn; by destruct (clients w !! self). Qed.

Lemma steps_final (n : nat) (self : nat) (event : TelemetryEvent) (r : result unit)
    (w : world) :
  steps n (at_pc (call self event) (final_pc r), w)
  = (at_pc (call self event) (final_pc r), w).
Proof.
  induction n as [|n IH]; [reflexivity|].
  rewrite steps_S, IH. cbn [fst snd]. apply step_final.
Qed.

(** A call that runs without a thread switch is the method track_event:
    it ends where the method returns or raises, in the state the method
    leaves. *)
Lemma steps_call (self : nat) (event : TelemetryEvent) (w : world) :
  steps 8 (call self event, w)
  = (at_pc (call self event) (final_pc (fst (ReplAyClient.track_event self event w))),
     snd (ReplAyClient.track_event self event w)).
Proof.
  destruct (clients w !! self) as [c|] eqn:Hc.
  - rewrite (track_event_unfold self c event w Hc).
    assert (steps 1 (call self event, w)
            = (at_pc (call self event) AtDebug,
               list_append (Attrs._event_buffer c) event w)) as S1.
    { rewrite steps_1. unfold step. cbn. by rewrite Hc. }
    assert (steps 2 (call self event, w)
            = (at_pc (call self event) AtCheck, ReplAyClient.appended c event w)) as S2.
    { rewrite steps_S, S1. unfold step. cbn. by rewrite Hc. }
    destruct (appended_spec c event w) as (_ & Hcl & _).
    set (w2 := ReplAyClient.appended c event w) in *.
    assert (clients w2 !! self = Some c) as Hc2 by (by rewrite Hcl).
    destruct (ReplAyClient.flush_due c w2) eqn:Hdue.
    + assert (steps 3 (call self event, w)
              = (at_pc (call self event) AtEmptyTest, w2)) as S3.
      { rewrite steps_S, S2. unfold step. cbn. by rewrite Hc2, Hdue. }
      unfold ReplAyClient._flush_events. rewrite Hc2.
      destruct (list_get (Attrs._event_buffer c) w2) as [|e0 l0] eqn:Hl.
      * change 8%nat with (4 + 4)%nat. rewrite steps_add.
        assert (steps 4 (call self event, w)
                = (at_pc (call self event) (final_pc (Return tt)), w2)) as ->.
        { rewrite steps_S, S3. unfold step. cbn. by rewrite Hc2, Hl. }
        apply steps_final.
      * assert (steps 4 (call self event, w) = (at_pc (call self event) AtCopy, w2)) as S4.
        { rewrite steps_S, S3. unfold step. cbn. by rewrite Hc2, Hl. }
        unfold list_copy, list_new. rewrite Hl.
        set (a := fresh (dom (lists w2))).
        set (w5 := set_lists (<[a := e0 :: l0]> (lists w2)) w2).
        assert (steps 5 (call self event, w)
                = (at_pc (call self event) (AtClear a), w5)) as S5.
        { rewrite steps_S, S4. unfold step. cbn. rewrite Hc2.
          unfold list_copy, list_new. by rewrite Hl. }
        assert (steps 6 (call self event, w)
                = (at_pc (call self event) (AtStamp a),
                   list_clear (Attrs._event_buffer c) w5)) as S6.
        { rewrite steps_S, S5. unfold step. cbn. by rewrite Hc2. }
        set (w6 := list_clear (Attrs._event_buffer c) w5) in *.
        set (w7 := set_clients (<[self := ReplAyClient.set_last_flush (clock w6) c]>
                                  (clients w6)) w6).
        assert (steps 7 (call self event, w)
                = (at_pc (call self event) (AtDispatch a), w7)) as S7.
        { rewrite steps_S, S6. unfold step. cbn. by rewrite Hc2. }
        rewrite steps_S, S7. unfold step. cbn. rewrite lookup_insert_eq.
        destruct (event_loop w2); reflexivity.
    + change 8%nat with (5 + 3)%nat. rewrite steps_add.
      assert (steps 3 (call self event, w)
              = (at_pc (call self event) (final_pc (Return tt)), w2)) as ->.
      { rewrite steps_S, S2. unfold step. cbn. by rewrite Hc2, Hdue. }
      apply steps_final.
  - unfold ReplAyClient.track_event. rewrite Hc.
    change 8%nat with (7 + 1)%nat. rewrite steps_add.
    assert (steps 1 (call self event, w)
            = (at_pc (call self event) (final_pc (Return tt)), w)) as ->.
    { rewrite steps_1. unfold step. cbn. by rewrite Hc. }
    apply steps_final.
Qed.

(** With an event loop track_event returns. *)
Lemma track_event_returns (self : nat) (event : TelemetryEvent) (w : world) :
  wf w → event_loop w = true →
  fst (ReplAyClient.track_event self event w) = Return tt.
Proof.
  intros Hwf Hloop. destruct (clients w !! self) as [c|] eqn:Hc.
  - destruct (track_step self c event w Hwf Hc) as (_ & _ & _ & H & _).
    by destruct (H Hloop).
  - unfold ReplAyClient.track_event. by rewrite Hc.
Qed.

(** ** The scheduler *)

Lemma run_app (s1 s2 : list nat) (cf : config) :
  run (s1 ++ s2) cf = run s2 (run s1 cf).
Proof. unfold run. apply fold_left_app. Qed.

Lemma steps_succ_first (n : nat) (tw : thread * world) :
  steps (S n) tw = steps n (step (fst tw) (snd tw)).
Proof. rewrite <- Nat.add_1_r, steps_add. reflexivity. Qed.

(** Letting thread [i] run [n] statements in a row. *)
Lemma run_thread (n i : nat) (ths : list thread) (w : world) (t : thread) :
  ths !! i = Some t →
  run (replicate n i) (ths, w)
  = (<[i := fst (steps n (t, w))]> ths, snd (steps n (t, w))).
Proof.
  revert ths w t. induction n as [|n IH]; intros ths w t Ht.
  - cbn. by rewrite list_insert_id.
  - cbn [replicate]. change (run (i :: replicate n i) (ths, w))
      with (run (replicate n i) (sched_step i (ths, w))).
    unfold sched_step. cbn [fst snd]. rewrite Ht.
    rewrite steps_succ_first. cbn [fst snd].
    destruct (step t w) as [t' w'] eqn:Hs.
    rewrite (IH _ w' t').
    + by rewrite list_insert_insert_eq.
    + apply list_lookup_insert_eq. by apply lookup_lt_Some in Ht.
Qed.

Lemma calls_returned (self : nat) (events : list TelemetryEvent) :
  calls self events = returned self events [].
Proof.
  unfold calls, returned. rewrite <- imap_const. apply imap_ext.
  intros j e _. rewrite bool_decide_eq_false_2; [done|]. apply not_elem_of_nil.
Qed.

Lemma returned_insert (self : nat) (events : list TelemetryEvent) (ran : list nat)
    (i : nat) (e : TelemetryEvent) :
  events !! i = Some e →
  <[i := at_pc (call self e) Done]> (returned self events ran)
  = returned self events (ran ++ [i]).
Proof.
  intros He. apply list_eq. intros j. unfold returned.
  destruct (decide (i = j)) as [<-|Hne].
  - rewrite list_lookup_insert_eq by (rewrite length_imap; by apply lookup_lt_Some in He).
    rewrite list_lookup_imap, He. cbn.
    rewrite bool_decide_eq_true_2; [done|]. apply elem_of_app. right. left.
  - rewrite list_lookup_insert_ne by done. rewrite !list_lookup_imap.
    destruct (events !! j) as [e'|]; [|done]. cbn. f_equal.
    assert (j ∈ ran ↔ j ∈ (ran ++ [i])%list) as Hiff.
    { rewrite elem_of_app, list_elem_of_singleton. split; [by left|].
      intros [?|?]; [done|congruence]. }
    destruct (decide (j ∈ ran)) as [Hin|Hnin].
    + rewrite !bool_decide_eq_true_2; [done|by apply Hiff|done].
    + rewrite !bool_decide_eq_false_2; [done| |done]. intros H. by apply Hnin, Hiff.
Qed.

(** Under mutual exclusion, and with an event loop, the calls are the
    method calls in their order, and each returns. *)
Lemma serial_run (self : nat) (events : list TelemetryEvent) (order ran : list nat)
    (w : world) :
  wf w → event_loop w = true →
  NoDup (ran ++ order) → (∀ i, i ∈ order → i < length events)%nat →
  run (serial_schedule order) (returned self events ran, w)
  = (returned self events (ran ++ order),
     run_ops (map (Track self) (omap (λ i, events !! i) order)) w).
Proof.
  revert ran w. induction order as [|i order IH]; intros ran w Hwf Hloop Hnd Hlt.
  - cbn. by rewrite app_nil_r.
  - cbn [serial_schedule flat_map]. fold (serial_schedule order). rewrite run_app.
    assert (i < length events)%nat as Hi by (apply Hlt; left).
    apply lookup_lt_is_Some_2 in Hi as [e He].
    assert (i ∉ ran) as Hnin.
    { apply NoDup_app in Hnd as (_ & Hdis & _). intros Hin.
      apply (Hdis i Hin). left. }
    assert (returned self events ran !! i = Some (call self e)) as Hth.
    { unfold returned. rewrite list_lookup_imap, He. cbn.
      by rewrite bool_decide_eq_false_2. }
    rewrite (run_thread 8 i _ w _ Hth), steps_call. cbn [fst snd].
    rewrite (track_event_returns self e w Hwf Hloop). cbn [final_pc].
    rewrite (returned_insert self events ran i e He).
    destruct (op_step (Track self e) w Hwf) as (Hwf1 & _ & _ & Hev1).
    cbn [run_op] in Hwf1, Hev1.
    rewrite IH.
    + cbn [omap list_omap]. rewrite He. cbn [map]. rewrite <- app_assoc. reflexivity.
    + exact Hwf1.
    + by rewrite Hev1.
    + by rewrite <- app_assoc.
    + intros j Hj. apply Hlt. by right.
Qed.

Lemma omap_lookup_seq {A} (l : list A) :
  omap (λ i, l !! i) (seq 0 (length l)) = l.
Proof.
  induction l as [|x l IH]; [done|].
  cbn [length seq]. rewrite <- fmap_S_seq. cbn [omap list_omap lookup]. cbn.
  f_equal. rewrite <- IH at 2.
  generalize (seq 0 (length l)). intros k.
  induction k as [|j k IHk]; [done|]. cbn. by rewrite IHk.
Qed.

Lemma tracked_map_Track (self : nat) (evs : list TelemetryEvent) :
  tracked (map (Track self) evs) = evs.
Proof. unfold tracked. induction evs as [|e evs IH]; [done|]. cbn. by rewrite IH. Qed.

Lemma only_on_map_Track (self : nat) (evs : list TelemetryEvent) :
  only_on self (map (Track self) evs).
Proof. unfold only_on. induction evs; constructor; done. Qed.

Lemma finished_returned (self : nat) (events : list TelemetryEvent) (ran : list nat)
    (w : world) :
  (∀ i, i < length events → i ∈ ran)%nat →
  finished (returned self events ran, w) = true.
Proof.
  intros Hall. unfold finished. cbn [fst]. apply forallb_forall. intros t Ht.
  apply list_elem_of_In, elem_of_lookup_imap in Ht as (j & e & -> & He).
  rewrite bool_decide_eq_true_2; [done|]. apply Hall. by apply lookup_lt_Some in He.
Qed.

(** C7, as stated, fails: track_event takes no lock. With two call sites
    inside track_event at once on a client with batch_size 1 (and an event
    loop at hand), one schedule loses the event "b" (it is appended between
    the copy and the clear of the other call's flush), another hands "a"
    over twice (both calls copy the buffer before either clears it); so
    not every completed concurrent recording followed by a flush hands
    over each event exactly once. *)
Lemma concurrent_record_unsafe :
  (finished (run lossy_schedule racing) = true ∧
   map event_id (handed_over (snd (ReplAyClient.flush 0 (snd (run lossy_schedule racing)))))
     = ["a"] ∧
   buffered 0 (snd (ReplAyClient.flush 0 (snd (run lossy_schedule racing)))) = []) ∧
  (finished (run duplicating_schedule racing) = true ∧
   map event_id
       (handed_over (snd (ReplAyClient.flush 0 (snd (run duplicating_schedule racing)))))
     = ["a"; "a"; "b"]) ∧
  ¬ (∀ schedule,
       finished (run schedule racing) = true →
       map event_id (handed_over (snd (ReplAyClient.flush 0 (snd (run schedule racing)))))
         ≡ₚ ["a"; "b"]).
Proof.
  split; [|split].
  - vm_compute. repeat split.
  - vm_compute. repeat split.
  - intros H. specialize (H lossy_schedule).
    assert (finished (run lossy_schedule racing) = true) as Hf by (vm_compute; reflexivity).
    apply H in Hf. apply Permutation_length in Hf. vm_compute in Hf. discriminate.
Qed.

(** C7, amended. track_event takes no lock; its append, its flush test and
    the copy and clear of a flush are separate statements. When the calls
    of the call sites exclude each other, that is, each runs to its last
    statement before the next begins, in whatever order, then (in a thread
    with an event loop) every call returns, and recording the events and
    flushing afterwards hands over every event exactly once: the batches
    hold what was handed over and queued before together with the recorded
    events, and the queue is empty. *)
Theorem serial_record_conserves (self : nat) (events : list TelemetryEvent)
    (order : list nat) (w : world) :
  wf w → is_Some (clients w !! self) → event_loop w = true →
  order ≡ₚ seq 0 (length events) →
  let cf := run (serial_schedule order) (calls self events, w) in
  let w' := snd (ReplAyClient.flush self (snd cf)) in
  finished cf = true ∧
  Forall (λ t, th_pc t = Done) (fst cf) ∧
  buffered self w' = [] ∧
  handed_over w' ≡ₚ (handed_over w ++ buffered self w ++ events)%list.
Proof.
  intros Hwf Hsome Hloop Hperm cf w'. subst w' cf.
  assert (NoDup order) as Hnd by (rewrite Hperm; apply NoDup_seq).
  assert (∀ i, i ∈ order ↔ i < length events)%nat as Hin.
  { intros i. rewrite Hperm, elem_of_seq. lia. }
  rewrite calls_returned, serial_run;
    [|exact Hwf|exact Hloop|exact Hnd|intros i; apply Hin].
  cbn [fst snd app].
  set (ops := map (Track self) (omap (λ i, events !! i) order)).
  destruct (ops_steps ops w Hwf) as (Hwf1 & _ & _ & Hev1).
  destruct (ops_conserve self ops w Hwf Hsome Hloop (only_on_map_Track self _))
    as [Hcons [c1 Hc1]].
  destruct (flush_step self c1 _ Hwf1 Hc1) as (_ & Hb & _).
  destruct (flush_handed_over self c1 _ Hwf1 Hc1) as [_ Hh]; [by rewrite Hev1|].
  split; [|split; [|split]].
  - apply finished_returned. intros i. apply Hin.
  - apply Forall_forall. intros t Ht.
    apply elem_of_lookup_imap in Ht as (j & e & -> & He).
    rewrite bool_decide_eq_true_2; [done|]. apply Hin. by apply lookup_lt_Some in He.
  - exact Hb.
  - unfold ReplAyClient.flush. rewrite Hh, Hcons.
    unfold ops. rewrite tracked_map_Track.
    assert (omap (λ i, events !! i) order ≡ₚ events) as ->; [|done].
    rewrite Hperm. by rewrite omap_lookup_seq.
Qed.

(** The two calls of [racing] one after the other, "b" first: both events
    are handed over, each once. *)
Lemma serial_record_conserves_witness :
  finished (run (serial_schedule [1; 0]%nat) racing) = true ∧
  map event_id (handed_over (snd (ReplAyClient.flush 0
                               (snd (run (serial_schedule [1; 0]%nat) racing)))))
    = ["b"; "a"] ∧
  handed_over (snd (ReplAyClient.flush 0 (snd (run (serial_schedule [1; 0]%nat) racing))))
    ≡ₚ [sample_event "a" AGENT_START; sample_event "b" AGENT_START].
Proof.
  destruct (serial_record_conserves 0
              [sample_event "a" AGENT_START; sample_event "b" AGENT_START]
              [1; 0]%nat (snd (started 1)) (wf_started 1)) as (H1 & _ & _ & H3).
  { vm_compute. eauto. }
  { reflexivity. }
  { apply perm_swap. }
  split; [exact H1|]. split; [vm_compute; reflexivity|]. exact H3.
Defined.

End InterleavingFacts.

(* ===================================================================== *)
(** * Instrumentation hooks                                               *)
(* ===================================================================== *)

Module DecoratorsFacts.
Import Py Types Client Decorators ClientFacts.

(** With an event loop at hand client.track_event returns. *)
Lemma track_event_with_loop (self : nat) (event : TelemetryEvent) (w : world) :
  event_loop w = true →
  ∃ w', ReplAyClient.track_event self event w = (Return tt, w').
Proof.
  intros Hloop. unfold ReplAyClient.track_event.
  destruct (clients w !! self) as [c|]; [|eauto].
  destruct (appended_spec c event w) as (_ & _ & _ & _ & _ & Hev).
  cbv zeta in *. rewrite Hloop in Hev.
  destruct (ReplAyClient.flush_due c _); [|eauto].
  unfold ReplAyClient._flush_events.
  destruct (clients _ !! self) as [c'|]; [|eauto].
  destruct (list_get _ _); [eauto|].
  unfold list_copy, list_new. cbn. rewrite Hev. eauto.
Qed.

(** Drawing a UUID leaves the event loop alone. *)
Lemma records_with_loop (client : nat) (ev : TelemetryEvent) (w2 : world) :
  event_loop w2 = true → ∃ w3, records client ev w2 w3.
Proof. intros Hloop. unfold records. by apply track_event_with_loop. Qed.

(** The start event is recorded before the unit of work runs. *)
Lemma agent_enter_records (name role goal backstory llm_model : option string)
    (func : function) (client : nat) (w : world) :
  event_loop w = true →
  ∃ sp w1 ev w0,
    agent_enter name role goal backstory llm_model func client w = (Return sp, w1) ∧
    sp_client sp = client ∧
    ReplAyClient.track_event client ev w0 = (Return tt, w1) ∧
    event_type ev = AGENT_START.
Proof.
  intros Hloop. unfold agent_enter, ReplAyClient.create_trace_context, uuid4.
  cbn [truthy_str]. cbv beta iota zeta.
  match goal with
  | |- context [ReplAyClient.track_event ?c ?e ?w0] =>
      destruct (track_event_with_loop c e w0 Hloop) as [w1 Hw1]; rewrite Hw1
  end.
  eexists _, w1, _, _. split; [reflexivity|]. split; [reflexivity|].
  split; [exact Hw1|reflexivity].
Qed.

Lemma tool_enter_records (name agent_id task_id : option string) (func : function)
    (client : nat) (args : list object) (kwargs : list (string * object)) (w : world) :
  event_loop w = true →
  ∃ sp w1 ev w0,
    tool_enter name agent_id task_id func client args kwargs w = (Return sp, w1) ∧
    sp_client sp = client ∧
    ReplAyClient.track_event client ev w0 = (Return tt, w1) ∧
    event_type ev = TOOL_START.
Proof.
  intros Hloop. unfold tool_enter, ReplAyClient.create_trace_context, uuid4.
  cbn [truthy_str]. cbv beta iota zeta.
  match goal with
  | |- context [ReplAyClient.track_event ?c ?e ?w0] =>
      destruct (track_event_with_loop c e w0 Hloop) as [w1 Hw1]; rewrite Hw1
  end.
  eexists _, w1, _, _. split; [reflexivity|]. split; [reflexivity|].
  split; [exact Hw1|reflexivity].
Qed.




End DecoratorsFacts.

(* ===================================================================== *)
(** * Ingestion                                                           *)
(* ===================================================================== *)

Module EventsFacts.
Import Py Http Events.

(** The loop keeps the dicts, in order, each stamped. *)
Lemma parse_events_spec (e : env) (request : EventRequest.t) (api_key batch_id : string)
    (i : nat) (events : list json) :
  Forall2 (λ v p, ∃ d j, v = JObj d ∧ p = stamp e request api_key batch_id j d)
          (List.filter is_dict events)
          (parse_events e request api_key batch_id i events).
Proof.
  revert i. induction events as [|v events IH]; intros i; cbn.
  - constructor.
  - destruct v; cbn; try apply IH. constructor; [eauto|apply IH].
Qed.

Lemma promote_lookup_ne (event row : gmap string json) (key : string)
    (others : list string) (k : string) :
  forallb (λ o, negb (String.eqb k o)) (key :: others) = true →
  promote event key others row !! k = row !! k.
Proof.
  cbn [forallb]. intros H. apply andb_true_iff in H as [Hk Ho].
  apply negb_true_iff, String.eqb_neq in Hk.
  unfold promote. destruct (event !! key); [|done].
  rewrite lookup_insert_ne by done.
  induction others as [|o others IH]; [done|].
  cbn [forallb] in Ho. apply andb_true_iff in Ho as [Hko Ho].
  apply negb_true_iff, String.eqb_neq in Hko.
  cbn [foldr]. rewrite lookup_insert_ne by done. by apply IH.
Qed.

(** The four columns every row gets, whatever else is promoted. *)
Lemma make_row_spec (e : env) (batch_id : string) (i : nat)
    (event row : gmap string json) :
  make_row e batch_id i event = Some row →
  row !! "batch_id" = Some (JStr batch_id) ∧
  row !! "raw_data" = Some (JObj event) ∧
  row !! "event_id" = Some (get_default event "event_id" (JStr (uuid4 e i))) ∧
  row !! "timestamp" = Some (get_default event "timestamp" (JStr (utcnow e i))).
Proof.
  unfold make_row.
  destruct (trace_context_get event "trace_id") as [t|]; [|discriminate].
  destruct (trace_context_get event "span_id") as [sp|]; [|discriminate].
  destruct (trace_context_get event "parent_span_id") as [ps|]; [|discriminate].
  cbn. intros [= <-].
  repeat split;
    rewrite !promote_lookup_ne by reflexivity;
    repeat (rewrite lookup_insert_ne by discriminate);
    apply lookup_insert_eq.
Qed.

Lemma make_row_total (e : env) (batch_id : string) (i : nat) (event : gmap string json) :
  flattens event → is_Some (make_row e batch_id i event).
Proof.
  unfold flattens, make_row, trace_context_get, get_default. intros H.
  destruct (event !! "trace_context") as [[]|]; cbn; try done; eauto.
Qed.

Lemma make_rows_spec (e : env) (batch_id : string) (i : nat)
    (events rows : list (gmap string json)) :
  make_rows e batch_id i events = Some rows →
  Forall2 (λ event row, ∃ j, make_row e batch_id j event = Some row) events rows.
Proof.
  revert i rows. induction events as [|event events IH]; intros i rows; cbn.
  - intros [= <-]. constructor.
  - destruct (make_row e batch_id i event) as [row|] eqn:Hrow; [|discriminate]. cbn.
    destruct (make_rows e batch_id (S i) events) as [rest|] eqn:Hrest; [|discriminate].
    cbn. intros [= <-]. constructor; [eauto|]. by apply (IH (S i)).
Qed.

Lemma make_rows_total (e : env) (batch_id : string) (i : nat)
    (events : list (gmap string json)) :
  Forall flattens events → is_Some (make_rows e batch_id i events).
Proof.
  intros H. revert i. induction H as [|event events Hf _ IH]; intros i; cbn.
  - eauto.
  - destruct (make_row_total e batch_id i event Hf) as [row ->]. cbn.
    destruct (IH (S i)) as [rest ->]. cbn. eauto.
Qed.

(** C10, as stated, fails: an event that carries "event_id": null and
    "timestamp": null is stored with a null event_id and a null timestamp,
    since the defaults are taken for a missing key only. *)
Lemma null_event_id_stored :
  (map (λ row, (row !! "event_id", row !! "timestamp"))
     <$> store_events_batch example_env [null_id_event] "b")
    = Some [(Some JNull, Some JNull)] ∧
  ¬ (∀ e events batch_id rows row,
       store_events_batch e events batch_id = Some rows → row ∈ rows →
       ∃ v t, row !! "event_id" = Some v ∧ v ≠ JNull ∧
              row !! "timestamp" = Some t ∧ t ≠ JNull).
Proof.
  split; [vm_compute; reflexivity|].
  intros H.
  destruct (store_events_batch example_env [null_id_event] "b") as [rows|] eqn:Hs;
    [|vm_compute in Hs; discriminate].
  destruct rows as [|row rows]; [vm_compute in Hs; discriminate|].
  destruct (H example_env [null_id_event] "b" (row :: rows) row Hs ltac:(left))
    as (v & t & Hv & Hnn & _).
  unfold store_events_batch in Hs. apply make_rows_spec in Hs.
  apply Forall2_cons_1 in Hs as [[j Hrow] _].
  apply make_row_spec in Hrow as (_ & _ & Hid & _).
  rewrite Hid in Hv. vm_compute in Hv. congruence.
Qed.

(** C10, amended. The storage task builds its rows whenever every event's
    trace_context is absent or a dict. Every row it produces carries the
    batch_id of its batch and the full event as raw_data; its event_id and
    timestamp are the event's own values when the event has these keys,
    and a freshly generated UUID and the storage-time clock value when it
    lacks them; so they are non-null unless the event spells out a null. *)
Theorem stored_row_fields (e : env) (events : list (gmap string json)) (batch_id : string) :
  (Forall flattens events → is_Some (store_events_batch e events batch_id)) ∧
  (∀ rows,
     store_events_batch e events batch_id = Some rows →
     Forall2 (λ event row,
        row !! "batch_id" = Some (JStr batch_id) ∧
        row !! "raw_data" = Some (JObj event) ∧
        (∃ j,
           row !! "event_id" = Some (default (JStr (uuid4 e j)) (event !! "event_id")) ∧
           row !! "timestamp" = Some (default (JStr (utcnow e j)) (event !! "timestamp"))) ∧
        (event !! "event_id" ≠ Some JNull →
           ∃ v, row !! "event_id" = Some v ∧ v ≠ JNull) ∧
        (event !! "timestamp" ≠ Some JNull →
           ∃ v, row !! "timestamp" = Some v ∧ v ≠ JNull))
       events rows).
Proof.
  split; [apply make_rows_total|].
  intros rows Hrows. unfold store_events_batch in Hrows. apply make_rows_spec in Hrows.
  eapply Forall2_impl; [exact Hrows|]. cbn.
  intros event row [j Hrow]. apply make_row_spec in Hrow as (H1 & H2 & H3 & H4).
  unfold get_default in H3, H4.
  split; [done|]. split; [done|]. split; [eauto|]. split.
  - intros Hnn. eexists. split; [exact H3|].
    destruct (event !! "event_id") as [v|]; cbn; [congruence|discriminate].
  - intros Hnn. eexists. split; [exact H4|].
    destruct (event !! "timestamp") as [v|]; cbn; [congruence|discriminate].
Qed.

(** An event without id and timestamp is stored with the generated UUID
    and the clock reading. *)
Lemma stored_row_fields_witness :
  (map (λ row, (row !! "event_id", row !! "timestamp", row !! "batch_id"))
     <$> store_events_batch example_env [{["event_type" := JStr "agent.start"]}] "b")
    = Some [(Some (JStr "uuid-0"), Some (JStr "2024-01-01T00:00:00"), Some (JStr "b"))].
Proof.
  destruct (stored_row_fields example_env [{["event_type" := JStr "agent.start"]}] "b")
    as [Htotal Hrows].
  destruct Htotal as [rows Hs].
  { constructor; [vm_compute; exact I|constructor]. }
  specialize (Hrows rows Hs). rewrite Hs.
  vm_compute in Hs. injection Hs as <-. vm_compute. reflexivity.
Defined.

End EventsFacts.

(* ===================================================================== *)
(** * POST /v1/events/                                                    *)
(* ===================================================================== *)

Module EndpointFacts.
Import Py Http Events Endpoint EventsFacts.

Lemma valid_events_filter (request : EventRequest.t) :
  valid_events request = true →
  List.filter is_dict (EventRequest.events request) = EventRequest.events request.
Proof.
  unfold valid_events. induction (EventRequest.events request) as [|v l IH]; [done|].
  cbn. intros H. apply andb_true_iff in H as [Hv Hl]. rewrite Hv. f_equal. by apply IH.
Qed.

(** C2, as stated, fails. The batch of three entries whose second entry is
    the string "garbage" has two valid events; the claim has it answered
    with success and events_received = 2. The body does not validate
    against EventRequest (events: List[Dict[str, Any]]): the request is
    answered 422, the handler does not run and nothing is handed to
    storage. *)
Lemma mixed_batch_rejected :
  length (EventRequest.events mixed_request) = 3%nat ∧
  length (List.filter is_dict (EventRequest.events mixed_request)) = 2%nat ∧
  post_events example_env mixed_request "key" = (validation_error, []) ∧
  ¬ (∀ e request api_key,
       let valid := List.filter is_dict (EventRequest.events request) in
       valid ≠ [] →
       ∃ resp task,
         post_events e request api_key = (Ok resp, [task]) ∧
         EventResponse.success resp = true ∧
         EventResponse.events_received resp = Z.of_nat (length valid)).
Proof.
  split; [reflexivity|]. split; [reflexivity|]. split; [reflexivity|].
  intros H. destruct (H example_env mixed_request "key") as (resp & task & Hpost & _).
  { discriminate. }
  discriminate Hpost.
Qed.

(** C2, amended. A request in which some entry of [events] is not a JSON
    object does not pass the validation of the body: it is answered 422
    as a whole and nothing is handed to storage. A valid request with no
    event is answered 400 and nothing is handed to storage. Every other
    valid request, of N events, is answered with success = true and
    events_received = N, and one storage task is scheduled with exactly
    the N events, in order, each stamped with the batch metadata; when
    that task stores rows it stores N of them, one per event. The handler
    checks no field of an event: no request is accepted in part. *)
Theorem ingest_whole_batch (e : env) (request : EventRequest.t) (api_key : string) :
  let events := EventRequest.events request in
  (valid_events request = false →
     post_events e request api_key = (validation_error, [])) ∧
  (events = [] →
     post_events e request api_key
       = (HTTPException 400 "No valid events found in batch", [])) ∧
  (valid_events request = true → events ≠ [] →
     ∃ resp task,
       post_events e request api_key = (Ok resp, [task]) ∧
       EventResponse.success resp = true ∧
       EventResponse.events_received resp = Z.of_nat (length events) ∧
       task_batch_id task = EventResponse.batch_id resp ∧
       Forall2 (λ v p, ∃ d j, v = JObj d ∧
                  p = stamp e request api_key (EventResponse.batch_id resp) j d)
               events (task_events task) ∧
       ∀ e' rows,
         run_task e' task = Some rows →
         length rows = length events ∧
         Forall2 (λ p row,
                    row !! "raw_data" = Some (JObj p) ∧
                    row !! "batch_id" = Some (JStr (EventResponse.batch_id resp)))
                 (task_events task) rows).
Proof.
  intros events. split; [|split].
  - intros Hbad. unfold post_events. by rewrite Hbad.
  - intros Hnil. unfold post_events, valid_events, ingest_events.
    subst events. by rewrite Hnil.
  - intros Hvalid Hne. unfold post_events. rewrite Hvalid.
    pose proof (parse_events_spec e request api_key (uuid4 e 0) 0
                  (EventRequest.events request)) as Hparse.
    rewrite (valid_events_filter request Hvalid) in Hparse. fold events in Hparse.
    unfold ingest_events. fold events.
    destruct (parse_events e request api_key (uuid4 e 0) 0 events) as [|p ps] eqn:Hp.
    { apply Forall2_nil_inv_r in Hparse. done. }
    eexists _, _. split; [reflexivity|].
    cbn [EventResponse.success EventResponse.events_received EventResponse.batch_id
         task_batch_id task_events].
    split; [done|]. split.
    { apply Forall2_length in Hparse. by rewrite Hparse. }
    split; [done|]. split; [exact Hparse|].
    intros e' rows Hrows. unfold run_task, store_events_batch in Hrows.
    cbn [task_events task_batch_id] in Hrows.
    apply make_rows_spec in Hrows. split.
    + apply Forall2_length in Hrows. apply Forall2_length in Hparse.
      cbn in *. congruence.
    + eapply Forall2_impl; [exact Hrows|]. cbn.
      intros ev row [j Hrow]. apply make_row_spec in Hrow as (H1 & H2 & _). done.
Qed.

(** Two events: both are received and two rows stored. *)
Lemma ingest_whole_batch_witness :
  ∃ resp task,
    post_events example_env two_events_request "key" = (Ok resp, [task]) ∧
    EventResponse.events_received resp = 2 ∧
    (length <$> run_task example_env task) = Some 2%nat.
Proof.
  destruct (ingest_whole_batch example_env two_events_request "key")
    as (_ & _ & resp & task & Hpost & _ & Hn & _ & Hevents & Hrows);
    [reflexivity|discriminate|].
  exists resp, task. split; [exact Hpost|]. split; [exact Hn|].
  destruct (make_rows_total example_env (task_batch_id task) 0 (task_events task))
    as [rows Hs].
  { eapply Forall_forall. intros p Hin.
    eapply list_elem_of_lookup in Hin as [i Hi].
    destruct (Forall2_lookup_r _ _ _ _ _ Hevents Hi) as (v & Hv & d & j & -> & ->).
    assert (d !! "trace_context" = None) as Hd.
    { cbn in Hv. destruct i as [|[|i]]; cbn in Hv; try discriminate;
        injection Hv as <-; reflexivity. }
    unfold flattens, stamp. repeat (rewrite lookup_insert_ne by discriminate).
    by rewrite Hd. }
  unfold run_task, store_events_batch. rewrite Hs. cbn.
  destruct (Hrows example_env rows) as [Hlen _].
  { unfold run_task, store_events_batch. exact Hs. }
  by rewrite Hlen.
Defined.

End EndpointFacts.

(* ===================================================================== *)
(** * Ingestion: what reaches the rows                                    *)
(* ===================================================================== *)

Module IngestFacts.
Import Py Http Events EventsFacts.

(** The keys update() writes win over whatever the event spelled out. *)
Lemma stamp_lookup (e : env) (request : EventRequest.t) (api_key batch_id : string)
    (i : nat) (d : gmap string json) :
  let p := stamp e request api_key batch_id i d in
  p !! "batch_id" = Some (JStr batch_id) ∧
  p !! "api_key_hash" = Some (JInt (hash e api_key)) ∧
  p !! "ingested_at" = Some (JStr (utcnow e i)) ∧
  p !! "project_id" = Some (JStr (EventRequest.project_id request)) ∧
  p !! "session_id" = Some (JStr (EventRequest.session_id request)) ∧
  p !! "environment" = Some (JStr (EventRequest.environment request)).
Proof.
  unfold stamp. cbv zeta.
  repeat split; repeat (rewrite lookup_insert_ne by discriminate); apply lookup_insert_eq.
Qed.

(** update() leaves every other key of the event alone. *)
Lemma stamp_lookup_other (e : env) (request : EventRequest.t) (api_key batch_id : string)
    (i : nat) (d : gmap string json) (k : string) :
  k ∉ ["batch_id"; "api_key_hash"; "ingested_at"; "project_id"; "session_id"; "environment"] →
  stamp e request api_key batch_id i d !! k = d !! k.
Proof.
  intros Hk. unfold stamp.
  repeat (rewrite lookup_insert_ne; [|intros <-; apply Hk; set_solver]). done.
Qed.

(** The envelope columns of a row are read from the event under the same keys. *)
Lemma make_row_envelope (e : env) (batch_id : string) (i : nat)
    (event row : gmap string json) :
  make_row e batch_id i event = Some row →
  row !! "project_id" = Some (get event "project_id") ∧
  row !! "session_id" = Some (get event "session_id") ∧
  row !! "environment" = Some (get event "environment") ∧
  row !! "api_key_hash" = Some (get event "api_key_hash") ∧
  row !! "ingested_at" = Some (get event "ingested_at").
Proof.
  unfold make_row.
  destruct (trace_context_get event "trace_id") as [t|]; [|discriminate].
  destruct (trace_context_get event "span_id") as [sp|]; [|discriminate].
  destruct (trace_context_get event "parent_span_id") as [ps|]; [|discriminate].
  cbn. intros [= <-].
  repeat split;
    rewrite !promote_lookup_ne by reflexivity;
    repeat (rewrite lookup_insert_ne by discriminate);
    apply lookup_insert_eq.
Qed.

(** X1. Whatever an event of an accepted batch spells out under "project_id",
    "session_id", "environment", "batch_id" or "api_key_hash", the row
    stored for it carries the values of the request envelope: the project,
    session and environment of the request, the batch id of the response
    and the hash of the caller's API key. *)
Theorem stored_rows_carry_envelope (e e' : env) (request : EventRequest.t)
    (api_key : string) (resp : EventResponse.t) (task : background_task)
    (rows : list (gmap string json)) :
  ingest_events e request api_key = (Ok resp, [task]) →
  run_task e' task = Some rows →
  length rows = length (List.filter is_dict (EventRequest.events request)) ∧
  Forall (λ row,
            row !! "project_id" = Some (JStr (EventRequest.project_id request)) ∧
            row !! "session_id" = Some (JStr (EventRequest.session_id request)) ∧
            row !! "environment" = Some (JStr (EventRequest.environment request)) ∧
            row !! "batch_id" = Some (JStr (EventResponse.batch_id resp)) ∧
            row !! "api_key_hash" = Some (JInt (hash e api_key))) rows.
Proof.
  intros Hing Hrun.
  pose proof (parse_events_spec e request api_key (uuid4 e 0) 0
                (EventRequest.events request)) as Hparse.
  unfold ingest_events in Hing.
  destruct (parse_events e request api_key (uuid4 e 0) 0 (EventRequest.events request))
    as [|p ps] eqn:Hp; [discriminate|].
  injection Hing as <- <-.
  unfold run_task, store_events_batch in Hrun. cbn [task_events task_batch_id] in Hrun.
  apply make_rows_spec in Hrun. split.
  { apply Forall2_length in Hrun. apply Forall2_length in Hparse. congruence. }
  cbn [EventResponse.batch_id].
  apply Forall_forall. intros row Hin.
  apply list_elem_of_lookup in Hin as [n Hn].
  destruct (Forall2_lookup_r _ _ _ _ _ Hrun Hn) as (ev & Hev & [j Hrow]).
  destruct (Forall2_lookup_r _ _ _ _ _ Hparse Hev) as (v & _ & d & k & _ & ->).
  destruct (make_row_envelope _ _ _ _ _ Hrow) as (H1 & H2 & H3 & H4 & _).
  destruct (make_row_spec _ _ _ _ _ Hrow) as (Hb & _).
  destruct (stamp_lookup e request api_key (uuid4 e 0) k d) as (_ & S2 & _ & S4 & S5 & S6).
  unfold get in *. cbv zeta in *.
  rewrite S4 in H1. rewrite S5 in H2. rewrite S6 in H3. rewrite S2 in H4.
  done.
Qed.

Lemma flattens_stamp (e : env) (request : EventRequest.t) (api_key batch_id : string)
    (i : nat) (d : gmap string json) :
  flattens (stamp e request api_key batch_id i d) ↔ flattens d.
Proof.
  unfold flattens. rewrite stamp_lookup_other; [done|].
  rewrite !elem_of_cons, elem_of_nil. intros H. decompose [or] H; done.
Qed.

Lemma make_row_flattens (e : env) (batch_id : string) (i : nat) (event : gmap string json) :
  is_Some (make_row e batch_id i event) → flattens event.
Proof.
  unfold flattens, make_row, trace_context_get, get_default.
  destruct (event !! "trace_context") as [[]|]; cbn; intros [row H]; done.
Qed.

Lemma make_rows_flattens (e : env) (batch_id : string) (i : nat)
    (events : list (gmap string json)) :
  is_Some (make_rows e batch_id i events) → Forall flattens events.
Proof.
  revert i. induction events as [|event events IH]; intros i; [constructor|].
  cbn. destruct (make_row e batch_id i event) as [row|] eqn:Hrow; cbn;
    [|by intros [? ?]].
  destruct (make_rows e batch_id (S i) events) as [rest|] eqn:Hrest; cbn;
    [|by intros [? ?]].
  intros _. constructor.
  - apply (make_row_flattens e batch_id i). by rewrite Hrow.
  - apply (IH (S i)). by rewrite Hrest.
Qed.

(** X2. The storage task is all or nothing. It builds its rows exactly when
    every event's trace_context is absent or a dict. One accepted event
    whose trace_context is anything else (null, a string, a list) ends the
    task before the insert: the request was answered with success and the
    number of valid events, and no row of the batch is stored, the rows of
    the well-formed events included. *)
Theorem bad_trace_context_voids_batch (e : env) (request : EventRequest.t)
    (api_key : string) :
  (∀ e' events batch_id,
     is_Some (store_events_batch e' events batch_id) ↔ Forall flattens events) ∧
  (∀ d,
     JObj d ∈ EventRequest.events request → ¬ flattens d →
     ∃ resp task,
       ingest_events e request api_key = (Ok resp, [task]) ∧
       EventResponse.success resp = true ∧
       EventResponse.events_received resp
         = Z.of_nat (length (List.filter is_dict (EventRequest.events request))) ∧
       ∀ e', run_task e' task = None).
Proof.
  split.
  { intros e' events batch_id. split; [apply make_rows_flattens|apply make_rows_total]. }
  intros d Hin Hbad.
  pose proof (parse_events_spec e request api_key (uuid4 e 0) 0
                (EventRequest.events request)) as Hparse.
  assert (JObj d ∈ List.filter is_dict (EventRequest.events request)) as Hvalid.
  { apply list_elem_of_In, filter_In. split; [by apply list_elem_of_In|done]. }
  unfold ingest_events.
  destruct (parse_events e request api_key (uuid4 e 0) 0 (EventRequest.events request))
    as [|p ps] eqn:Hp.
  { apply Forall2_nil_inv_r in Hparse. rewrite Hparse in Hvalid. by apply elem_of_nil in Hvalid. }
  eexists _, _. split; [reflexivity|].
  cbn [EventResponse.success EventResponse.events_received].
  split; [done|]. split.
  { apply Forall2_length in Hparse. by rewrite Hparse. }
  intros e'. unfold run_task. cbn [task_events task_batch_id].
  destruct (store_events_batch e' (p :: ps) (uuid4 e 0)) as [rows|] eqn:Hrows; [|done].
  exfalso. apply Hbad.
  assert (Forall flattens (p :: ps)) as Hall.
  { apply (make_rows_flattens e' (uuid4 e 0) 0). unfold store_events_batch in Hrows.
    by rewrite Hrows. }
  apply list_elem_of_lookup in Hvalid as [n Hn].
  destruct (Forall2_lookup_l _ _ _ _ _ Hparse Hn) as (q & Hq & d' & j & Hd & ->).
  injection Hd as <-.
  rewrite Forall_lookup in Hall. apply Hall in Hq. by apply flattens_stamp in Hq.
Qed.

Ltac lookup_through :=
  repeat first
    [ rewrite lookup_insert_eq
    | rewrite lookup_insert_ne by discriminate
    | rewrite lookup_empty ].

(** X3. The optional column groups of a row follow the presence of their
    leading key in the event, not the presence of the columns themselves:
    agent_name and agent_role are stored exactly when the event has the key
    "agent_id" (null when the event lacks them), task_name with "task_id",
    execution_time_ms with "tool_name", and tokens_used, cost_usd and
    latency_ms with "model_name". An event that has "cost_usd" but no
    "model_name" gets no cost_usd column. *)
Theorem optional_columns_follow_key (e : env) (events rows : list (gmap string json))
    (batch_id : string) :
  store_events_batch e events batch_id = Some rows →
  Forall2 (λ event row,
     let with_key (key col : string) :=
       row !! col = (λ _, get event col) <$> (event !! key) in
     row !! "agent_id" = event !! "agent_id" ∧
     with_key "agent_id" "agent_name" ∧ with_key "agent_id" "agent_role" ∧
     row !! "task_id" = event !! "task_id" ∧
     with_key "task_id" "task_name" ∧
     row !! "tool_name" = event !! "tool_name" ∧
     with_key "tool_name" "execution_time_ms" ∧
     row !! "model_name" = event !! "model_name" ∧
     with_key "model_name" "tokens_used" ∧ with_key "model_name" "cost_usd" ∧
     with_key "model_name" "latency_ms")
    events rows.
Proof.
  intros Hrows. unfold store_events_batch in Hrows. apply make_rows_spec in Hrows.
  eapply Forall2_impl; [exact Hrows|]. cbv beta zeta.
  intros event row [j Hrow]. unfold make_row in Hrow.
  destruct (trace_context_get event "trace_id") as [t|]; [|discriminate].
  destruct (trace_context_get event "span_id") as [sp|]; [|discriminate].
  destruct (trace_context_get event "parent_span_id") as [ps|]; [|discriminate].
  cbn in Hrow. injection Hrow as <-. unfold promote.
  destruct (event !! "agent_id") as [a|] eqn:Ha;
    destruct (event !! "task_id") as [k|] eqn:Hk;
    destruct (event !! "tool_name") as [tn|] eqn:Htn;
    destruct (event !! "model_name") as [m|] eqn:Hm;
    cbn [foldr fmap option_fmap option_map];
    repeat split; lookup_through; done.
Qed.

(** The project, session and batch id an event names for itself are
    replaced by those of the request. *)
Lemma stored_rows_carry_envelope_witness :
  ∃ resp task rows,
    ingest_events example_env Requests.spoofing_request "key" = (Ok resp, [task]) ∧
    run_task example_env task = Some rows ∧
    map (λ row, (row !! "project_id", row !! "session_id", row !! "batch_id")) rows
      = [(Some (JStr "p"), Some (JStr "s"), Some (JStr "uuid-0"))].
Proof.
  pose (task := {| task_events :=
                     parse_events example_env Requests.spoofing_request "key" "uuid-0" 0
                       (EventRequest.events Requests.spoofing_request);
                   task_batch_id := "uuid-0" |}).
  destruct (make_rows_total example_env "uuid-0" 0 (task_events task)) as [rows Hrows].
  { constructor; [|constructor]. apply flattens_stamp. vm_compute. exact I. }
  eexists _, task, rows.
  assert (run_task example_env task = Some rows) as Hrun by exact Hrows.
  split; [reflexivity|]. split; [exact Hrun|].
  edestruct (stored_rows_carry_envelope example_env example_env
               Requests.spoofing_request "key" _ task rows eq_refl Hrun) as [Hlen Hall].
  destruct rows as [|row [|row' rows]]; try discriminate Hlen.
  apply Forall_cons_1 in Hall as [(H1 & H2 & _ & H4 & _) _].
  cbn [map]. rewrite H1, H2, H4. reflexivity.
Defined.

(** Two valid events, the second with a null trace_context: the response
    reports two events received, the task stores nothing. *)
Lemma bad_trace_context_voids_batch_witness :
  ∃ resp task,
    ingest_events example_env Requests.null_context_request "key" = (Ok resp, [task]) ∧
    EventResponse.events_received resp = 2 ∧
    run_task example_env task = None.
Proof.
  destruct (bad_trace_context_voids_batch example_env Requests.null_context_request "key")
    as [_ H].
  destruct (H {["event_id" := JStr "e2"; "trace_context" := JNull]})
    as (resp & task & Hing & _ & Hn & Hnone).
  { right. left. }
  { vm_compute. tauto. }
  exists resp, task. split; [exact Hing|]. split; [exact Hn|]. apply Hnone.
Defined.

(** A cost without a model name is not stored as a column; a model name
    without a cost gives a null cost_usd column. *)
Lemma optional_columns_follow_key_witness :
  ∃ rows,
    store_events_batch example_env
      [Requests.cost_without_model; Requests.model_without_cost] "b" = Some rows ∧
    map (λ row, (row !! "model_name", row !! "cost_usd")) rows
      = [(None, None); (Some (JStr "gpt-4"), Some JNull)].
Proof.
  destruct (make_rows_total example_env "b" 0
              [Requests.cost_without_model; Requests.model_without_cost]) as [rows Hs].
  { repeat constructor. }
  pose proof (optional_columns_follow_key example_env _ rows "b" Hs) as H.
  exists rows. split; [exact Hs|].
  destruct rows as [|r1 [|r2 [|r3 rows]]];
    try (apply Forall2_length in H; discriminate H).
  apply Forall2_cons_1 in H as [H1 H]. apply Forall2_cons_1 in H as [H2 _].
  cbv zeta in H1, H2.
  destruct H1 as (_ & _ & _ & _ & _ & _ & _ & Hm1 & _ & Hc1 & _).
  destruct H2 as (_ & _ & _ & _ & _ & _ & _ & Hm2 & _ & Hc2 & _).
  cbn [map]. rewrite Hm1, Hc1, Hm2, Hc2. vm_compute. reflexivity.
Defined.

End IngestFacts.

(* ===================================================================== *)
(** * GET /batch/{batch_id}                                               *)
(* ===================================================================== *)

Module BatchStatusFacts.
Import Py Http BatchStatus.

(** X4. get_batch_status answers HTTP 500 for every batch id, whatever database
    client is injected and whatever the store holds: its parameter is
    called clickhouse, its body sends the query through the name
    clickhouse_client, which neither the function nor the module binds;
    the NameError is caught by the handler for Exception. No request is
    answered with the batch status, and none with 404. *)
Theorem get_batch_status_always_500 (batch_id api_key : string) (clickhouse : value) :
  (∃ e, get_batch_status_body batch_id api_key clickhouse = Raise e ∧
        exc_type e = "NameError") ∧
  get_batch_status batch_id api_key clickhouse
    = Some (HTTPException 500 "Failed to retrieve batch status").
Proof.
  assert (load (locals batch_id api_key clickhouse) globals "clickhouse_client"
          = Raise (NameError "clickhouse_client")) as Hload.
  { unfold load, locals.
    cbn [list_to_map foldr fst snd uncurry].
    repeat (rewrite lookup_insert_ne by discriminate). rewrite lookup_empty.
    vm_compute. reflexivity. }
  unfold get_batch_status, get_batch_status_body. rewrite Hload.
  split; [|reflexivity]. eexists. split; reflexivity.
Qed.

End BatchStatusFacts.

(* ===================================================================== *)
(** * The client: flush, close, several clients                           *)
(* ===================================================================== *)

Module LifecycleFacts.
Import Py Types Client Lifecycle ClientFacts.

(** The client holding "a" and "b" with an event loop at hand: flush()
    returns, empties the queue and hands over "a" and "b" as one batch;
    an event recorded afterwards is queued and the batch stays as it was. *)
Lemma flush_drains_snapshot_with_loop_witness :
  map event_id (buffered 0 two_queued) = ["a"; "b"] ∧
  fst (ReplAyClient.flush 0 two_queued) = Return tt ∧
  buffered 0 (snd (ReplAyClient.flush 0 two_queued)) = [] ∧
  map event_id (handed_over (snd (ReplAyClient.flush 0 two_queued))) = ["a"; "b"] ∧
  (handed_over (run_ops [Track 0 (sample_event "c" AGENT_START)]
                        (snd (ReplAyClient.flush 0 two_queued)))
     ++ buffered 0 (run_ops [Track 0 (sample_event "c" AGENT_START)]
                            (snd (ReplAyClient.flush 0 two_queued)))
   = handed_over (snd (ReplAyClient.flush 0 two_queued))
       ++ [sample_event "c" AGENT_START])%list.
Proof.
  destruct (flush_drains_snapshot_with_loop 0 two_queued wf_two_queued)
    as (H1 & H2 & H3 & _ & _ & H6).
  { vm_compute. eauto. }
  { reflexivity. }
  split; [vm_compute; reflexivity|]. split; [exact H1|]. split; [exact H2|].
  split; [rewrite H3; vm_compute; reflexivity|].
  apply (H6 [Track 0 (sample_event "c" AGENT_START)]).
  repeat constructor.
Defined.

(** ** Several clients *)

Lemma isolated_boot : isolated boot.
Proof. intros s1 s2 c1 c2 H. cbn in H. by rewrite lookup_empty in H. Qed.

(** What an operation on [self] leaves alone: every other client object,
    the buffer address of [self], and every allocated list other than the
    buffer of [self]. *)
Lemma flush_frame (self : nat) (c : Attrs.t) (w : world) :
  clients w !! self = Some c →
  let w' := snd (ReplAyClient._flush_events self w) in
  (∀ s, s ≠ self → clients w' !! s = clients w !! s) ∧
  (∃ c', clients w' !! self = Some c' ∧ Attrs._event_buffer c' = Attrs._event_buffer c) ∧
  (∀ a, a ∈ dom (lists w) → a ≠ Attrs._event_buffer c → lists w' !! a = lists w !! a).
Proof.
  intros Hc w'. subst w'.
  destruct (list_get (Attrs._event_buffer c) w) as [|e l] eqn:Hl.
  - rewrite (flush_events_empty self c w Hc Hl). cbn. eauto.
  - destruct (flush_events_nonempty self c w Hc) as (Hlists & Hclients & _);
      [by rewrite Hl|].
    cbv zeta in *. split; [|split].
    + intros s Hs. by rewrite Hclients, lookup_insert_ne.
    + eexists. rewrite Hclients, lookup_insert_eq. done.
    + intros a Ha Hne. rewrite Hlists.
      rewrite lookup_insert_ne by done.
      rewrite lookup_insert_ne; [done|]. by apply fresh_not_allocated.
Qed.

Lemma track_frame (self : nat) (c : Attrs.t) (event : TelemetryEvent) (w : world) :
  wf w → clients w !! self = Some c →
  let w' := snd (ReplAyClient.track_event self event w) in
  (∀ s, s ≠ self → clients w' !! s = clients w !! s) ∧
  (∃ c', clients w' !! self = Some c' ∧ Attrs._event_buffer c' = Attrs._event_buffer c) ∧
  (∀ a, a ∈ dom (lists w) → a ≠ Attrs._event_buffer c → lists w' !! a = lists w !! a).
Proof.
  intros Hwf Hc w'. subst w'. rewrite (track_event_unfold self c event w Hc).
  destruct (appended_spec c event w) as (Hl1 & Hc1 & _).
  set (w1 := ReplAyClient.appended c event w) in *.
  assert (clients w1 !! self = Some c) as Hcw1 by (by rewrite Hc1).
  destruct (ReplAyClient.flush_due c w1); cbn [snd].
  - destruct (flush_frame self c w1 Hcw1) as (F1 & F2 & F3). cbv zeta in *.
    split; [|split; [exact F2|]].
    + intros s Hs. by rewrite F1, Hc1.
    + intros a Ha Hne. rewrite F3; [|rewrite Hl1, dom_insert_L; apply elem_of_union; by right|done].
      by rewrite Hl1, lookup_insert_ne.
  - split; [|split].
    + intros s _. by rewrite Hc1.
    + exists c. by rewrite Hc1.
    + intros a _ Hne. by rewrite Hl1, lookup_insert_ne.
Qed.

Lemma op_frame (self : nat) (o : op) (w : world) :
  wf w → only_on self [o] →
  (∀ s, s ≠ self → clients (run_op o w) !! s = clients w !! s) ∧
  (∀ s, Attrs._event_buffer <$> clients (run_op o w) !! s
        = Attrs._event_buffer <$> clients w !! s) ∧
  (∀ a c, clients w !! self = Some c → a ∈ dom (lists w) → a ≠ Attrs._event_buffer c →
          lists (run_op o w) !! a = lists w !! a) ∧
  (clients w !! self = None → lists (run_op o w) = lists w).
Proof.
  intros Hwf Hon. apply Forall_cons_1 in Hon as [Hon _].
  assert (∀ w' : world,
            (∀ s, s ≠ self → clients w' !! s = clients w !! s) →
            (∀ c, clients w !! self = Some c →
               ∃ c', clients w' !! self = Some c' ∧
                     Attrs._event_buffer c' = Attrs._event_buffer c) →
            (clients w !! self = None → clients w' !! self = None) →
            ∀ s, Attrs._event_buffer <$> clients w' !! s
                 = Attrs._event_buffer <$> clients w !! s) as Hbuf.
  { intros w' H1 H2 H3 s. destruct (decide (s = self)) as [->|Hne]; [|by rewrite H1].
    destruct (clients w !! self) as [c|] eqn:Hc.
    - destruct (H2 c eq_refl) as (c' & -> & Hb). cbn. by rewrite Hb.
    - by rewrite H3. }
  destruct o as [s event|s|ms]; cbn [run_op]; try subst s.
  - destruct (clients w !! self) as [c|] eqn:Hc.
    + destruct (track_frame self c event w Hwf Hc) as (F1 & F2 & F3). cbv zeta in *.
      split; [exact F1|]. split; [|split].
      * apply Hbuf; [exact F1| |done]. intros c0 [= <-]. exact F2.
      * intros a c0 [= <-]. apply F3.
      * done.
    + unfold ReplAyClient.track_event. rewrite Hc. cbn [snd].
      split; [done|]. split; [done|]. split; [intros a c0 ?; discriminate|done].
  - unfold ReplAyClient.flush. destruct (clients w !! self) as [c|] eqn:Hc.
    + destruct (flush_frame self c w Hc) as (F1 & F2 & F3). cbv zeta in *.
      split; [exact F1|]. split; [|split].
      * apply Hbuf; [exact F1| |done]. intros c0 [= <-]. exact F2.
      * intros a c0 [= <-]. apply F3.
      * done.
    + unfold ReplAyClient._flush_events. rewrite Hc. cbn [snd].
      split; [done|]. split; [done|]. split; [intros a c0 ?; discriminate|done].
  - cbn. repeat split; done.
Qed.

Lemma isolated_buffers (w w' : world) :
  (∀ s, Attrs._event_buffer <$> clients w' !! s = Attrs._event_buffer <$> clients w !! s) →
  isolated w → isolated w'.
Proof.
  intros Hb Hiso s1 s2 c1 c2 H1 H2 Hne.
  pose proof (Hb s1) as B1. pose proof (Hb s2) as B2. rewrite H1 in B1. rewrite H2 in B2.
  destruct (clients w !! s1) as [d1|] eqn:D1; [|discriminate].
  destruct (clients w !! s2) as [d2|] eqn:D2; [|discriminate].
  cbn in B1, B2. injection B1 as ->. injection B2 as ->.
  by apply (Hiso s1 s2 d1 d2).
Qed.

(** One operation on [self], seen from another client. *)
Lemma op_other (self other : nat) (o : op) (w : world) :
  wf w → isolated w → self ≠ other → only_on self [o] →
  clients (run_op o w) !! other = clients w !! other ∧
  buffered other (run_op o w) = buffered other w ∧
  isolated (run_op o w).
Proof.
  intros Hwf Hiso Hne Hon.
  destruct (op_frame self o w Hwf Hon) as (F1 & F2 & F3 & F4).
  assert (clients (run_op o w) !! other = clients w !! other) as Hco by (by apply F1).
  split; [exact Hco|]. split; [|by apply (isolated_buffers w)].
  unfold buffered. rewrite Hco. destruct (clients w !! other) as [co|] eqn:Hother; [|done].
  apply list_get_ext.
  destruct (clients w !! self) as [c|] eqn:Hc.
  - apply (F3 _ c eq_refl).
    + destruct Hwf as (Hwf1 & _). by apply (Hwf1 other).
    + by apply (Hiso other self co c).
  - by rewrite F4.
Qed.

(** The constructor gives the new client a list of its own. *)
Lemma init_isolated (api_key : string) (project_id : option string)
    (kw : ReplAyClient.kwargs) (w : world) :
  wf w → isolated w →
  let self := fst (ReplAyClient.__init__ api_key project_id kw w) in
  let w' := snd (ReplAyClient.__init__ api_key project_id kw w) in
  isolated w' ∧
  (∀ s, s ≠ self → clients w' !! s = clients w !! s ∧ buffered s w' = buffered s w).
Proof.
  intros Hwf Hiso self w'. subst self w'.
  unfold ReplAyClient.__init__, uuid4, list_new. cbn.
  set (a := fresh (dom (lists w))). set (self := fresh (dom (clients w))).
  assert (clients w !! self = None) as Hfresh.
  { apply not_elem_of_dom. apply is_fresh. }
  assert (∀ s c, clients w !! s = Some c → Attrs._event_buffer c ≠ a) as Hold.
  { intros s c Hc Heq. destruct Hwf as (Hwf1 & _).
    apply (fresh_not_allocated w (Attrs._event_buffer c)); [by apply (Hwf1 s)|done]. }
  split.
  - intros s1 s2 c1 c2 H1 H2 Hne. cbn in H1, H2.
    destruct (decide (s1 = self)) as [->|N1]; destruct (decide (s2 = self)) as [->|N2];
      [done| | |].
    + rewrite lookup_insert_eq in H1. rewrite lookup_insert_ne in H2 by done.
      injection H1 as <-. cbn. intros Heq. by apply (Hold s2 c2).
    + rewrite lookup_insert_eq in H2. rewrite lookup_insert_ne in H1 by done.
      injection H2 as <-. cbn. by apply (Hold s1 c1).
    + rewrite lookup_insert_ne in H1, H2 by done. by apply (Hiso s1 s2).
  - intros s Hs. cbn. rewrite lookup_insert_ne by done. split; [done|].
    unfold buffered. cbn. rewrite lookup_insert_ne by done.
    destruct (clients w !! s) as [c|] eqn:Hc; [|done].
    apply list_get_ext. cbn. rewrite lookup_insert_ne; [done|].
    intros Heq. by apply (Hold s c).
Qed.

(** A run of operations on [self], seen from another client. *)
Lemma ops_other (self other : nat) (os : list op) (w : world) :
  wf w → isolated w → self ≠ other → only_on self os →
  clients (run_ops os w) !! other = clients w !! other ∧
  buffered other (run_ops os w) = buffered other w ∧
  wf (run_ops os w) ∧ isolated (run_ops os w).
Proof.
  intros Hwf Hiso Hne. revert w Hwf Hiso.
  induction os as [|o os IH]; intros w Hwf Hiso Hon; [done|].
  apply Forall_cons_1 in Hon as [Ho Hon].
  assert (only_on self [o]) as Ho1 by (by constructor).
  destruct (op_other self other o w Hwf Hiso Hne Ho1) as (H1 & H2 & H3).
  destruct (op_step o w Hwf) as (Hwf1 & _).
  cbn [run_ops fold_left]. fold (run_ops os (run_op o w)).
  destruct (IH (run_op o w) Hwf1 H3 Hon) as (I1 & I2 & I3 & I4).
  rewrite I1, I2, H1, H2. done.
Qed.

Lemma isolated_started (n : Z) : isolated (snd (started n)).
Proof.
  unfold started, initialize.
  pose proof (init_isolated "key" None
    {| ReplAyClient.kw_base_url := None; ReplAyClient.kw_environment := None;
       ReplAyClient.kw_batch_size := Some n;
       ReplAyClient.kw_flush_interval_seconds := None;
       ReplAyClient.kw_debug := None |} boot wf_boot isolated_boot) as [H _].
  destruct (ReplAyClient.__init__ _ _ _ _) as [c w]. exact H.
Qed.

Lemma isolated_two_queued : isolated two_queued.
Proof.
  destruct (ops_other 0 1
              [Track 0 (sample_event "a" AGENT_START); Track 0 (sample_event "b" AGENT_END)]
              (snd (started 3)) (wf_started 3) (isolated_started 3)) as (_ & _ & _ & H);
    [done|repeat constructor|exact H].
Qed.

(** X14. Clients do not interfere. In a process whose clients were made by the
    constructor, a new client gets a buffer of its own and leaves every
    existing client and its queue as they were; and whatever is recorded
    on or flushed from one client, every other client keeps its
    attributes and its queue, event for event. *)
Theorem clients_do_not_interfere (w : world) :
  wf w → isolated w →
  (∀ api_key project_id kw,
     let self := fst (ReplAyClient.__init__ api_key project_id kw w) in
     let w' := snd (ReplAyClient.__init__ api_key project_id kw w) in
     wf w' ∧ isolated w' ∧ buffered self w' = [] ∧
     ∀ s, s ≠ self → clients w' !! s = clients w !! s ∧ buffered s w' = buffered s w) ∧
  (∀ self other os,
     self ≠ other → only_on self os →
     clients (run_ops os w) !! other = clients w !! other ∧
     buffered other (run_ops os w) = buffered other w ∧
     wf (run_ops os w) ∧ isolated (run_ops os w)).
Proof.
  intros Hwf Hiso. split.
  - intros api_key project_id kw self w'. subst self w'.
    destruct (init_step api_key project_id kw w Hwf) as (Hwf' & _ & _ & Hb & _).
    destruct (init_isolated api_key project_id kw w Hwf Hiso) as (Hiso' & Hothers).
    cbv zeta in *. done.
  - intros self other os Hne Hon. by apply (ops_other self other os w).
Qed.

(** A second client is created next to the one holding "a" and "b"; it
    starts empty, and recording on it and flushing it leaves "a" and "b"
    queued in the first. *)
Lemma clients_do_not_interfere_witness :
  fst two_clients = 1%nat ∧
  buffered 1 (snd two_clients) = [] ∧
  map event_id (buffered 0 (snd two_clients)) = ["a"; "b"] ∧
  map event_id
      (buffered 0 (run_ops [Track 1 (sample_event "c" AGENT_START); Flush 1]
                           (snd two_clients))) = ["a"; "b"].
Proof.
  destruct (clients_do_not_interfere two_queued wf_two_queued isolated_two_queued)
    as [Hinit _].
  destruct (Hinit "other-key" None ReplAyClient.no_kwargs) as (Hwf & Hiso & Hnew & Hold).
  fold two_clients in Hwf, Hiso, Hnew, Hold.
  destruct (clients_do_not_interfere (snd two_clients) Hwf Hiso) as [_ Hops].
  destruct (Hops 1%nat 0%nat [Track 1 (sample_event "c" AGENT_START); Flush 1])
    as (_ & Hsame & _); [done|repeat constructor|].
  assert (fst two_clients = 1%nat) as H1 by (vm_compute; reflexivity).
  rewrite H1 in Hnew, Hold.
  destruct (Hold 0%nat) as [_ Hb0]; [done|].
  split; [exact H1|]. split; [exact Hnew|].
  rewrite Hsame, Hb0. split; vm_compute; reflexivity.
Defined.

(** ** The endpoint URL *)

Lemma append_String (c : ascii) (a b : string) : String c a ++ b = String c (a ++ b).
Proof. reflexivity. Qed.

Lemma append_empty (b : string) : "" ++ b = b.
Proof. reflexivity. Qed.

Lemma rstrip_run (ch : ascii) (k : nat) : rstrip ch (run_of ch k) = "".
Proof.
  induction k as [|k IH]; [done|]. cbn [run_of rstrip]. rewrite IH.
  by rewrite Ascii.eqb_refl.
Qed.

Lemma ends_with_String (ch c d : ascii) (t : string) :
  ends_with ch (String c (String d t)) ↔ ends_with ch (String d t).
Proof.
  split.
  - intros [[|c' s'] H].
    + rewrite append_empty in H. discriminate.
    + rewrite append_String in H. injection H as _ H. by exists s'.
  - intros [s' H]. exists (String c s'). rewrite append_String. by rewrite H.
Qed.

(** rstrip removes exactly the characters [ch] that follow a stem not
    ending in [ch]. *)
Lemma rstrip_stem (ch : ascii) (stem : string) (k : nat) :
  ¬ ends_with ch stem → rstrip ch (stem ++ run_of ch k) = stem.
Proof.
  induction stem as [|c t IH]; intros Hend.
  - rewrite append_empty. apply rstrip_run.
  - rewrite append_String. cbn [rstrip]. destruct t as [|d t].
    + rewrite append_empty, rstrip_run.
      destruct (Ascii.eqb_spec c ch) as [->|Hne]; [|done].
      exfalso. apply Hend. by exists "".
    + rewrite IH; [done|]. intros H. apply Hend. by apply ends_with_String.
Qed.



(** ** close() and the with statement *)

(** X16. Leaving a [with client:] block closes the client. With an event loop
    at hand the block ends as its body ended (the same value, or the same
    exception), every event still queued is handed over, the queue is
    empty and the 0.1 s pause of close() has passed. Without an event
    loop and with events still queued, the block raises the RuntimeError
    of the flush, whatever the body returned or raised, and the queued
    events are dropped. With an empty queue the block only pauses. *)
Theorem with_block_closes {A} (self : nat) (body : nat → world → result A * world)
    (w w2 : world) (out : result A) :
  body self w = (out, w2) → wf w2 → is_Some (clients w2 !! self) →
  let ended := match out with Return a => Return (Some a) | Raise e => Raise e end in
  let w3 := snd (with_ self body w) in
  (event_loop w2 = true →
     fst (with_ self body w) = ended ∧
     buffered self w3 = [] ∧
     handed_over w3 = (handed_over w2 ++ buffered self w2)%list ∧
     clock w3 = clock w2 + 100) ∧
  (event_loop w2 = false → buffered self w2 ≠ [] →
     fst (with_ self body w) = Raise ReplAyClient.no_running_loop ∧
     buffered self w3 = [] ∧
     handed_over w3 = handed_over w2) ∧
  (buffered self w2 = [] →
     with_ self body w = (ended, set_clock (clock w2 + 100) w2)).
Proof.
  intros Hbody Hwf [c Hc] ended w3. subst ended w3.
  unfold with_, __enter__, __exit__, ReplAyClient.close, ReplAyClient.flush.
  rewrite Hbody.
  destruct (flush_step self c w2 Hwf Hc) as (_ & Hb & _ & Hempty & _ & Hck & _).
  cbv zeta in *.
  split; [|split].
  - intros Hloop.
    destruct (flush_handed_over self c w2 Hwf Hc Hloop) as [Hr Hh].
    destruct (ReplAyClient._flush_events self w2) as [r wf2]. cbn [fst snd] in *.
    subst r. destruct out; cbn [fst snd]; rewrite <- Hck; done.
  - intros Hloop Hne.
    destruct (flush_no_loop self c w2 Hwf Hc Hloop Hne) as (Hr & Hh & _).
    destruct (ReplAyClient._flush_events self w2) as [r wf2]. cbn [fst snd] in *.
    subst r. destruct out; cbn [fst snd]; done.
  - intros He. rewrite (Hempty He). by destruct out.
Qed.

(** A block that records "a" and "b" on the client of [started 100] and
    returns 2: the block's value is 2, the queue is empty, "a" and "b"
    were handed over and 100 ms have passed. *)
Lemma with_block_closes_witness :
  fst (with_ 0 records_two (snd (started 100))) = Return (Some 2) ∧
  buffered 0 (snd (with_ 0 records_two (snd (started 100)))) = [] ∧
  map event_id (handed_over (snd (with_ 0 records_two (snd (started 100))))) = ["a"; "b"] ∧
  clock (snd (with_ 0 records_two (snd (started 100)))) = 100.
Proof.
  assert (wf (snd (records_two 0 (snd (started 100))))) as Hwf.
  { change (snd (records_two 0 (snd (started 100))))
      with (run_ops [Track 0 (sample_event "a" AGENT_START);
                     Track 0 (sample_event "b" AGENT_END)] (snd (started 100))).
    apply ops_steps, wf_started. }
  destruct (with_block_closes 0 records_two (snd (started 100))
              (snd (records_two 0 (snd (started 100)))) (Return 2)) as [H _].
  { reflexivity. }
  { exact Hwf. }
  { vm_compute. eauto. }
  destruct H as (H1 & H2 & H3 & H4); [reflexivity|].
  split; [exact H1|]. split; [exact H2|].
  split; [rewrite H3; vm_compute; reflexivity|]. rewrite H4. reflexivity.
Defined.

End LifecycleFacts.

(* ===================================================================== *)
(** * Spans: the events a hook adds, and where                            *)
(* ===================================================================== *)

Module SpanFacts.
Import Py Types Client Decorators Spans ClientFacts.

Lemma appends_trans (client : nat) (l1 l2 : list TelemetryEvent) (w w1 w2 : world) :
  appends client l1 w w1 → appends client l2 w1 w2 → appends client (l1 ++ l2) w w2.
Proof.
  intros (_ & _ & _ & G1 & H1) (Hwf & Hloop & Hc & G2 & H2).
  split; [exact Hwf|]. split; [exact Hloop|]. split; [exact Hc|].
  split; [by rewrite G2|].
  rewrite H2, (app_assoc (handed_over w1)), H1. by rewrite <- !app_assoc.
Qed.

(** Recording leaves the global client alone. *)
Lemma track_event_global (client : nat) (ev : TelemetryEvent) (w : world) :
  _global_client (snd (ReplAyClient.track_event client ev w)) = _global_client w.
Proof.
  destruct (clients w !! client) as [c|] eqn:Hc.
  - rewrite (track_event_unfold client c ev w Hc).
    destruct (appended_spec c ev w) as (_ & Hcl & _ & _ & Hg & _).
    set (w1 := ReplAyClient.appended c ev w) in *.
    assert (clients w1 !! client = Some c) as Hc1 by (by rewrite Hcl).
    destruct (ReplAyClient.flush_due c w1); [|exact Hg].
    destruct (list_get (Attrs._event_buffer c) w1) as [|e l] eqn:Hl.
    + by rewrite (flush_events_empty client c w1 Hc1 Hl).
    + destruct (flush_events_nonempty client c w1 Hc1) as (_ & _ & _ & _ & Hg' & _);
        [by rewrite Hl|]. cbv zeta in Hg'. by rewrite Hg'.
  - unfold ReplAyClient.track_event. by rewrite Hc.
Qed.

(** Recording one event in a state that differs from [w] in the UUIDs
    drawn only. *)
Lemma record_appends (client : nat) (ev : TelemetryEvent) (w w0 : world) :
  wf w → event_loop w = true → is_Some (clients w !! client) →
  lists w0 = lists w → clients w0 = clients w → tasks w0 = tasks w →
  event_loop w0 = event_loop w → _global_client w0 = _global_client w →
  ∃ w', ReplAyClient.track_event client ev w0 = (Return tt, w') ∧
        appends client [ev] w w'.
Proof.
  intros Hwf Hloop [c Hc] Hl Hcl Ht Hev Hg.
  pose proof (track_event_global client ev w0) as Hglobal.
  assert (wf w0) as Hwf0.
  { destruct Hwf as (H1 & H2 & H3). unfold wf. rewrite Hl, Hcl, Ht. done. }
  assert (clients w0 !! client = Some c) as Hc0 by (by rewrite Hcl).
  destruct (track_step client c ev w0 Hwf0 Hc0) as (Hwf' & _ & _ & Hcons & Hsome & _ & Hev').
  destruct Hcons as [Hr Hcons]; [by rewrite Hev|].
  destruct (ReplAyClient.track_event client ev w0) as [r w'] eqn:Htr. cbn [fst snd] in *.
  subst r. exists w'. split; [reflexivity|].
  split; [exact Hwf'|]. split; [by rewrite Hev', Hev|]. split; [exact Hsome|].
  split; [unfold get_client; by rewrite Hglobal|].
  rewrite Hcons. unfold handed_over, buffered, batch, list_get. by rewrite Hl, Hcl, Ht.
Qed.

Ltac record_next Hwf Hloop Hsome w :=
  match goal with
  | |- context [ReplAyClient.track_event ?c ?e ?w0] =>
      let w' := fresh "w'" in
      let Htr := fresh "Htr" in
      let Happ := fresh "Happ" in
      destruct (record_appends c e w w0 Hwf Hloop Hsome eq_refl eq_refl eq_refl eq_refl eq_refl)
        as (w' & Htr & Happ);
      rewrite Htr
  end.

(** The start event. *)
Lemma agent_enter_appends (name role goal backstory llm_model : option string)
    (func : function) (client : nat) (w : world) :
  wf w → event_loop w = true → is_Some (clients w !! client) →
  ∃ sp w1 start,
    agent_enter name role goal backstory llm_model func client w = (Return sp, w1) ∧
    sp_client sp = client ∧
    appends client [start] w w1 ∧
    event_type start = AGENT_START ∧
    trace_context start = sp_trace_context sp.
Proof.
  intros Hwf Hloop Hsome.
  unfold agent_enter, ReplAyClient.create_trace_context, uuid4.
  cbn [truthy_str]. cbv beta iota zeta.
  record_next Hwf Hloop Hsome w.
  eexists _, w', _. split; [reflexivity|]. split; [reflexivity|].
  split; [exact Happ|]. split; reflexivity.
Qed.

Lemma tool_enter_appends (name agent_id task_id : option string) (func : function)
    (client : nat) (args : list object) (kwargs : list (string * object)) (w : world) :
  wf w → event_loop w = true → is_Some (clients w !! client) →
  ∃ sp w1 start,
    tool_enter name agent_id task_id func client args kwargs w = (Return sp, w1) ∧
    sp_client sp = client ∧
    appends client [start] w w1 ∧
    event_type start = TOOL_START ∧
    trace_context start = sp_trace_context sp.
Proof.
  intros Hwf Hloop Hsome.
  unfold tool_enter, ReplAyClient.create_trace_context, uuid4.
  cbn [truthy_str]. cbv beta iota zeta.
  record_next Hwf Hloop Hsome w.
  eexists _, w', _. split; [reflexivity|]. split; [reflexivity|].
  split; [exact Happ|]. split; reflexivity.
Qed.



End SpanFacts.

(* ===================================================================== *)
(** * What no schedule can do                                             *)
(* ===================================================================== *)

Module ScheduleFacts.
Import Py Types Client Interleaving Schedules ClientFacts InterleavingFacts.

(** One statement: the thread keeps its client and its event, has fewer
    statements before it, fails only without an event loop, and every
    list object holds events of lists that existed before or the event of
    the thread. *)
Lemma step_spec (t : thread) (w : world) :
  let t' := fst (step t w) in
  let w' := snd (step t w) in
  th_self t' = th_self t ∧ th_event t' = th_event t ∧
  (remaining (th_pc t') ≤ Nat.pred (remaining (th_pc t)))%nat ∧
  event_loop w' = event_loop w ∧
  ((∀ e, th_pc t ≠ Failed e) → event_loop w = true → ∀ e, th_pc t' ≠ Failed e) ∧
  (∀ a l e, lists w' !! a = Some l → e ∈ l →
            e = th_event t ∨ ∃ a0 l0, lists w !! a0 = Some l0 ∧ e ∈ l0).
Proof.
  unfold step. destruct (clients w !! th_self t) as [c|] eqn:Hc.
  - destruct t as [self event p]. cbn [th_self th_event th_pc] in *.
    destruct p; cbn [fst snd at_pc th_self th_event th_pc remaining Nat.pred].
    + (* append *)
      repeat split; try done; try lia.
      intros a l e Hl He. cbn in Hl.
      destruct (decide (a = Attrs._event_buffer c)) as [->|Hne].
      * rewrite lookup_insert_eq in Hl. injection Hl as <-.
        apply elem_of_app in He as [He|He].
        -- right. unfold list_get in He.
           destruct (lists w !! Attrs._event_buffer c) as [l0|] eqn:Hl0; [eauto|].
           by apply elem_of_nil in He.
        -- left. by apply list_elem_of_singleton in He.
      * rewrite lookup_insert_ne in Hl by done. eauto.
    + (* debug print *)
      destruct (Attrs.debug c); repeat split; try done; try lia; cbn; eauto.
    + (* flush test *)
      destruct (ReplAyClient.flush_due c w); repeat split; try done; cbn; try lia; eauto.
    + (* empty test *)
      destruct (list_get (Attrs._event_buffer c) w); repeat split; try done; cbn; try lia; eauto.
    + (* copy *)
      unfold list_copy, list_new. cbn.
      repeat split; try done; try lia.
      intros a l e Hl He. right.
      destruct (decide (a = fresh (dom (lists w)))) as [->|Hne].
      * rewrite lookup_insert_eq in Hl. injection Hl as <-. unfold list_get in He.
        destruct (lists w !! Attrs._event_buffer c) as [l0|] eqn:Hl0; [eauto|].
        by apply elem_of_nil in He.
      * rewrite lookup_insert_ne in Hl by done. eauto.
    + (* clear *)
      repeat split; try done; try lia.
      intros a l e Hl He. right. cbn in Hl.
      destruct (decide (a = Attrs._event_buffer c)) as [->|Hne].
      * rewrite lookup_insert_eq in Hl. injection Hl as <-. by apply elem_of_nil in He.
      * rewrite lookup_insert_ne in Hl by done. eauto.
    + (* stamp *)
      repeat split; try done; try lia. cbn. eauto.
    + (* dispatch *)
      destruct (event_loop w) eqn:Hloop; cbn [fst snd at_pc th_self th_event th_pc remaining];
        repeat split; try done; try lia; cbn; eauto.
    + repeat split; try done; cbn; eauto.
    + repeat split; try done; cbn; eauto; try (intros H; by destruct (H e)).
  - destruct t as [self event p]. cbn [th_self th_event th_pc] in *.
    destruct p; cbn [fst snd at_pc th_self th_event th_pc remaining Nat.pred];
      repeat split; try done; try lia; cbn; eauto; try (intros H; by destruct (H e)).
Qed.

(** One turn of the scheduler. *)
Lemma sched_step_spec (i : nat) (cf : config) :
  let cf' := sched_step i cf in
  event_loop (snd cf') = event_loop (snd cf) ∧
  (∀ j t', fst cf' !! j = Some t' →
     ∃ t, fst cf !! j = Some t ∧ th_event t' = th_event t ∧
          (remaining (th_pc t') + turns j [i] ≤ remaining (th_pc t)
           ∨ remaining (th_pc t') = 0)%nat ∧
          ((∀ e, th_pc t ≠ Failed e) → event_loop (snd cf) = true →
           ∀ e, th_pc t' ≠ Failed e)) ∧
  (∀ e, known cf' e → known cf e).
Proof.
  destruct cf as [ths w]. unfold sched_step. cbn [fst snd].
  destruct (ths !! i) as [t|] eqn:Hi.
  - pose proof (step_spec t w) as Hs. destruct (step t w) as [t1 w1].
    cbn [fst snd] in *.
    destruct Hs as (_ & Hev & Hrem & Hloop & Hfail & Hheap).
    split; [done|]. split.
    + intros j t' Hj. cbn [fst snd] in Hj. destruct (decide (j = i)) as [->|Hne].
      * rewrite list_lookup_insert_eq in Hj by (by eapply lookup_lt_Some).
        injection Hj as <-. exists t. repeat split; try done.
        unfold turns. cbn. rewrite Nat.eqb_refl. cbn. lia.
      * rewrite list_lookup_insert_ne in Hj by done.
        exists t'. repeat split; try done.
        unfold turns. cbn. destruct (Nat.eqb_spec j i); [done|]. cbn. lia.
    + intros e [(a & l & Hl & He)|(t' & Ht' & He)].
      * cbn [fst snd] in Hl. destruct (Hheap a l e Hl He) as [->|(a0 & l0 & Hl0 & He0)].
        -- right. exists t. split; [by eapply list_elem_of_lookup_2|done].
        -- left. eauto.
      * right. cbn [fst snd] in Ht'. apply list_elem_of_lookup in Ht' as [j Hj].
        destruct (decide (j = i)) as [->|Hne].
        -- rewrite list_lookup_insert_eq in Hj by (by eapply lookup_lt_Some).
           injection Hj as <-. exists t.
           split; [by eapply list_elem_of_lookup_2|congruence].
        -- rewrite list_lookup_insert_ne in Hj by done.
           exists t'. split; [by eapply list_elem_of_lookup_2|done].
  - split; [done|]. split; [|done].
    intros j t' Hj. exists t'. repeat split; try done.
    unfold turns. cbn. destruct (Nat.eqb_spec j i) as [->|Hne]; cbn; [|lia].
    cbn in Hj. congruence.
Qed.

Lemma sched_step_length (i : nat) (cf : config) :
  length (fst (sched_step i cf)) = length (fst cf).
Proof.
  destruct cf as [ths w]. unfold sched_step. cbn [fst snd].
  destruct (ths !! i) as [t|]; [|done].
  destruct (step t w). cbn. by rewrite length_insert.
Qed.

Lemma turns_cons (j i : nat) (s : list nat) :
  turns j (i :: s) = (turns j [i] + turns j s)%nat.
Proof. unfold turns. cbn. by destruct (Nat.eqb j i). Qed.

(** A whole schedule. *)
Lemma run_spec (schedule : list nat) (cf : config) :
  let cf' := run schedule cf in
  length (fst cf') = length (fst cf) ∧
  event_loop (snd cf') = event_loop (snd cf) ∧
  (∀ j t', fst cf' !! j = Some t' →
     ∃ t, fst cf !! j = Some t ∧ th_event t' = th_event t ∧
          (remaining (th_pc t') + turns j schedule ≤ remaining (th_pc t)
           ∨ remaining (th_pc t') = 0)%nat ∧
          ((∀ e, th_pc t ≠ Failed e) → event_loop (snd cf) = true →
           ∀ e, th_pc t' ≠ Failed e)) ∧
  (∀ e, known cf' e → known cf e).
Proof.
  revert cf. induction schedule as [|i s IH]; intros cf; cbn zeta;
    unfold run; cbn [fold_left].
  - repeat split; try done. intros j t' Hj. exists t'. repeat split; try done.
    left. unfold turns. cbn. lia.
  - fold (run s (sched_step i cf)).
    destruct (IH (sched_step i cf)) as (Hlen & Hloop & Hths & Hknown).
    destruct (sched_step_spec i cf) as (Hloop1 & Hths1 & Hknown1).
    split; [by rewrite Hlen, sched_step_length|].
    split; [congruence|]. split; [|by auto].
    intros j t' Hj.
    destruct (Hths j t' Hj) as (t1 & Hj1 & Hev1 & Hrem1 & Hfail1).
    destruct (Hths1 j t1 Hj1) as (t & Hj0 & Hev0 & Hrem0 & Hfail0).
    exists t. split; [done|]. split; [congruence|]. split.
    + rewrite turns_cons. destruct Hrem1 as [Hrem1|Hrem1]; [|by right].
      destruct Hrem0 as [Hrem0|Hrem0]; [left; lia|]. right. lia.
    + intros Hnf Htrue. apply Hfail1; [by apply Hfail0|congruence].
Qed.

(** X18. Concurrent calls of track_event, whatever the schedule. Every event
    found in a client's buffer or in a batch handed to transmission was
    already in a list object before or is the argument of one of the
    calls: nothing is made up. With an event loop running no call raises.
    No call waits for another: a call that got eight turns has returned or
    raised, so a schedule giving every call eight turns ends them all. *)
Theorem any_schedule_is_safe (schedule : list nat) (cf : config) :
  let cf' := run schedule cf in
  (∀ self e, e ∈ buffered self (snd cf') ∨ e ∈ handed_over (snd cf') → known cf e) ∧
  (event_loop (snd cf) = true → none_failed cf → none_failed cf') ∧
  ((∀ i, (i < length (fst cf))%nat → (8 ≤ turns i schedule)%nat) →
   finished cf' = true).
Proof.
  cbn zeta. destruct (run_spec schedule cf) as (Hlen & Hloop & Hths & Hknown).
  split; [|split].
  - intros self e He. apply Hknown. left. destruct He as [He|He].
    + unfold buffered in He. destruct (clients (snd (run schedule cf)) !! self) as [c|];
        [|by apply elem_of_nil in He].
      unfold list_get in He.
      destruct (lists (snd (run schedule cf)) !! Attrs._event_buffer c) as [l|] eqn:Hl;
        [eauto|by apply elem_of_nil in He].
    + unfold handed_over in He. apply list_elem_of_In, in_concat in He.
      destruct He as (l & Hl & He). apply in_map_iff in Hl as (t & <- & _).
      apply list_elem_of_In in He. unfold batch, list_get in He.
      destruct (lists (snd (run schedule cf)) !! task_events t) as [l|] eqn:Hl;
        [eauto|by apply elem_of_nil in He].
  - intros Htrue Hnf. unfold none_failed in *. apply Forall_lookup. intros j t' Hj.
    destruct (Hths j t' Hj) as (t & Hj0 & _ & _ & Hfail).
    rewrite Forall_lookup in Hnf. specialize (Hnf j t Hj0).
    assert (∀ e, th_pc t ≠ Failed e) as Hne by (intros e He; by rewrite He in Hnf).
    specialize (Hfail Hne Htrue). destruct (th_pc t'); try done. by destruct (Hfail e).
  - intros Hturns. unfold finished. apply forallb_forall. intros t' Ht'.
    apply list_elem_of_In, list_elem_of_lookup in Ht' as [j Hj].
    destruct (Hths j t' Hj) as (t & Hj0 & _ & Hrem & _).
    pose proof (Hturns j (lookup_lt_Some _ _ _ Hj0)) as H8.
    assert (remaining (th_pc t) ≤ 8)%nat as Hle by (destruct (th_pc t); cbn; lia).
    destruct (th_pc t'); cbn in *; try done; lia.
Qed.

End ScheduleFacts.

(* ===================================================================== *)
(** * Crew.kickoff, instrumented                                          *)
(* ===================================================================== *)

Module CrewAIFacts.
Import Py Types Client Decorators CrewAI ClientFacts DecoratorsFacts.

(** Without an event loop the call of track_event that makes a flush due
    raises. *)
Lemma track_event_no_loop (self : nat) (c : Attrs.t) (event : TelemetryEvent) (w : world) :
  wf w → clients w !! self = Some c → event_loop w = false →
  Attrs.batch_size c <= Z.of_nat (length (buffered self w)) + 1 →
  fst (ReplAyClient.track_event self event w) = Raise ReplAyClient.no_running_loop.
Proof.
  intros Hwf Hc Hloop Hdue.
  rewrite (track_event_unfold self c event w Hc).
  rewrite (proj2 (flush_due_appended self c event w Hwf Hc)) by (by left).
  destruct (appended_spec c event w) as (Hl & Hcl & _ & _ & _ & Hev).
  cbv zeta in *.
  assert (clients (ReplAyClient.appended c event w) !! self = Some c) as Hc1
    by (by rewrite Hcl).
  assert (list_get (Attrs._event_buffer c) (ReplAyClient.appended c event w) ≠ []) as Hne.
  { unfold list_get at 1. rewrite Hl, lookup_insert_eq. cbn.
    by destruct (list_get (Attrs._event_buffer c) w). }
  destruct (flush_events_nonempty self c _ Hc1 Hne) as (_ & _ & Hr & _).
  rewrite Hev, Hloop in Hr. by destruct Hr.
Qed.

(** The [try:] statement ends in the [finally:] clause, however the
    original method and the clauses end. *)
Lemma kickoff_try_unregisters (original_kickoff : method) (client : nat)
    (trace_context : TraceContext.t) (crew_id : string) (crew_self : Crew.t)
    (args : list object) (kwargs : list (string * object)) (st : state) :
  let ran := original_kickoff crew_self args kwargs st in
  let out := kickoff_try original_kickoff client trace_context crew_id
                         crew_self args kwargs st in
  fst (snd out) = unregister crew_id (fst (snd ran)) ∧
  (∀ e, fst ran = Raise e → is_Exception e = false →
        fst out = Raise e ∧ snd (snd out) = snd (snd ran)).
Proof.
  cbv zeta. unfold kickoff_try, kickoff_finally.
  destruct (original_kickoff crew_self args kwargs st) as [[result|e] [self2 w2]];
    cbn [fst snd].
  - split; [|by intros e].
    f_equal. unfold kickoff_success, kickoff_except.
    destruct (Instrumentation._crew_start_times self2 !! crew_id) as [start|];
      [|by cbn].
    unfold uuid4. cbv beta iota zeta.
    destruct (truth result) as [b|e].
    + destruct (ReplAyClient.track_event _ _ _) as [[[]|e] w3]; [done|].
      destruct (is_Exception e); [|done].
      destruct (ReplAyClient.track_event _ _ _) as [[[]|e'] w4]; done.
    + destruct (is_Exception e); [|done].
      destruct (ReplAyClient.track_event _ _ _) as [[[]|e'] w4]; done.
  - split.
    + f_equal. unfold kickoff_except. destruct (is_Exception e); [|done].
      destruct (Instrumentation._crew_start_times self2 !! crew_id) as [start|]; [|done].
      unfold uuid4. cbv beta iota zeta.
      destruct (ReplAyClient.track_event _ _ _) as [[[]|e'] w4]; done.
    + intros e0 [= <-] Hbase. unfold kickoff_except. by rewrite Hbase.
Qed.

(** X19. The instrumented Crew.kickoff keeps its books. Without a global
    client, or with the instrumentation disabled, it is the original
    method. Otherwise, once the start event is recorded (an event loop is
    at hand and the crew's sizes can be taken), the original method runs
    with the run registered under a new crew id in both dictionaries, with
    the time of the call as start time, and every other entry as before;
    and however the original method and the recording of the end or error
    event turn out, the instrumentation the wrapper leaves is the one the
    original method left with that crew id removed from both
    dictionaries. An exception of the original method that does not derive
    from Exception passes through unrecorded. *)
Theorem kickoff_unregisters (original_kickoff : method) (crew_self : Crew.t)
    (args : list object) (kwargs : list (string * object))
    (self : Instrumentation.t) (w : world) :
  let out := instrumented_kickoff original_kickoff crew_self args kwargs (self, w) in
  let crew_id := next_crew_id w in
  (get_client w = None ∨ Instrumentation.enabled self = false →
   out = original_kickoff crew_self args kwargs (self, w)) ∧
  (∀ client agents_count tasks_count,
     get_client w = Some client → Instrumentation.enabled self = true →
     event_loop w = true →
     len_or_zero (Crew.agents crew_self) = Return agents_count →
     len_or_zero (Crew.tasks crew_self) = Return tasks_count →
     ∃ trace_context ev w0 w1,
       ReplAyClient.track_event client ev w0 = (Return tt, w1) ∧
       event_type ev = AGENT_START ∧
       metadata ev !! "agents_count" = Some (JInt agents_count) ∧
       metadata ev !! "tasks_count" = Some (JInt tasks_count) ∧
       let ran := original_kickoff crew_self args kwargs
                    (register crew_id trace_context (clock w) self, w1) in
       fst (snd out) = unregister crew_id (fst (snd ran)) ∧
       (∀ e, fst ran = Raise e → is_Exception e = false →
             fst out = Raise e ∧ snd (snd out) = snd (snd ran))).
Proof.
  cbv zeta. split.
  - intros [Hnone|Hoff]; unfold instrumented_kickoff.
    + by rewrite Hnone.
    + rewrite Hoff. by destruct (get_client w).
  - intros client na nt Hclient Hon Hloop Hna Hnt.
    unfold instrumented_kickoff, next_crew_id.
    rewrite Hclient, Hon. cbn [negb].
    unfold ReplAyClient.create_trace_context, uuid4. cbn [truthy_str fst].
    cbv beta iota zeta. rewrite Hna, Hnt.
    match goal with
    | |- context [ReplAyClient.track_event ?c ?e ?w0] =>
        destruct (track_event_with_loop c e w0 Hloop) as [w1 Hw1]; rewrite Hw1
    end.
    eexists _, _, _, w1. split; [exact Hw1|].
    split; [reflexivity|]. split; [reflexivity|]. split; [reflexivity|].
    apply kickoff_try_unregisters.
Qed.

(** A crew of two agents and three tasks whose kickoff returns "done", in
    a process with a client and an event loop: the wrapper returns "done"
    and leaves both dictionaries empty, as they were. *)
Lemma kickoff_unregisters_witness :
  let w := snd (started 100) in
  let out := instrumented_kickoff kickoff_done small_crew [] [] (fresh_instrumentation, w) in
  fst out = Return (str_object "done") ∧
  Instrumentation._active_traces (fst (snd out)) = ∅ ∧
  Instrumentation._crew_start_times (fst (snd out)) = ∅.
Proof.
  cbv zeta.
  destruct (kickoff_unregisters kickoff_done small_crew [] []
              fresh_instrumentation (snd (started 100))) as [_ H].
  destruct (H 0%nat 2 3 eq_refl eq_refl eq_refl eq_refl eq_refl)
    as (tc & ev & w0 & w1 & _ & _ & _ & _ & Hreg & _).
  split; [vm_compute; reflexivity|].
  rewrite Hreg. cbn. by rewrite !delete_insert_eq, !delete_empty.
Defined.

(** X20. The start event of the instrumented kickoff stands before the
    [try:] statement. When recording it raises (a thread without an event
    loop, the client's queue reaching batch_size with this event), the
    wrapper raises that error without calling the original method, and
    the run stays registered in both dictionaries: the [finally:] clause
    is not reached. *)
Theorem kickoff_start_failure_leaks (original_kickoff : method) (crew_self : Crew.t)
    (args : list object) (kwargs : list (string * object))
    (self : Instrumentation.t) (w : world) (client : nat) (c : Attrs.t)
    (agents_count tasks_count : Z) :
  get_client w = Some client → Instrumentation.enabled self = true →
  wf w → clients w !! client = Some c → event_loop w = false →
  Attrs.batch_size c <= Z.of_nat (length (buffered client w)) + 1 →
  len_or_zero (Crew.agents crew_self) = Return agents_count →
  len_or_zero (Crew.tasks crew_self) = Return tasks_count →
  let out := instrumented_kickoff original_kickoff crew_self args kwargs (self, w) in
  fst out = Raise ReplAyClient.no_running_loop ∧
  (∀ other, instrumented_kickoff other crew_self args kwargs (self, w) = out) ∧
  is_Some (Instrumentation._active_traces (fst (snd out)) !! next_crew_id w) ∧
  Instrumentation._crew_start_times (fst (snd out)) !! next_crew_id w = Some (clock w).
Proof.
  intros Hclient Hon Hwf Hc Hloop Hdue Hna Hnt. cbv zeta.
  unfold instrumented_kickoff, next_crew_id.
  rewrite Hclient, Hon. cbn [negb].
  unfold ReplAyClient.create_trace_context, uuid4. cbn [truthy_str fst].
  cbv beta iota zeta. rewrite Hna, Hnt.
  match goal with
  | |- context [ReplAyClient.track_event ?c0 ?e ?w0] =>
      pose proof (track_event_no_loop c0 c e w0 Hwf Hc Hloop Hdue) as Hr;
      destruct (ReplAyClient.track_event c0 e w0) as [r w1]
  end.
  cbn [fst] in Hr. subst r. cbn [fst snd].
  split; [done|]. split; [done|]. cbn.
  rewrite !lookup_insert_eq. by split.
Qed.

(** A thread without an event loop, a client with batch_size 1: kickoff
    raises, and the instrumentation, empty before, keeps the run. *)
Lemma kickoff_start_failure_leaks_witness :
  let out := instrumented_kickoff kickoff_done small_crew [] []
               (fresh_instrumentation, no_loop_1) in
  fst out = Raise ReplAyClient.no_running_loop ∧
  Instrumentation._crew_start_times (fst (snd out)) !! next_crew_id no_loop_1 = Some 0.
Proof.
  cbv zeta.
  assert (wf no_loop_1) as Hwf by exact (wf_started 1).
  destruct (kickoff_start_failure_leaks kickoff_done small_crew [] []
              fresh_instrumentation no_loop_1 0%nat (started_attrs 1) 2 3
              eq_refl eq_refl Hwf eq_refl eq_refl ltac:(vm_compute; discriminate)
              eq_refl eq_refl) as (Hr & _ & _ & Ht).
  split; [exact Hr|exact Ht].
Defined.

End CrewAIFacts.
